(** * Packit: the STL and OBJ parsers of [packit.js]

    A shallow embedding of the parsing pipeline of the Packit viewer
    ([parseSTL], [stl_ascii], [stl_binary], [parseOBJ] and their local
    helpers [runBatch], [getTriangle], [parseVertex], [parseUV],
    [parseFace]) and of the loading of a page ([readFrom], [createViewer]
    and the listener of [DOMContentLoaded]), together with the properties
    of its specification and further properties of the code.

    Conventions of the embedding.
    - A blob is the list of its bytes; [readAsText] maps every byte to the
      character with the same code (exact for ASCII text).
    - JavaScript exceptions are explicit: a computation ends in a
      [completion], either [Normal] or [Throw].
    - The callbacks handed to [FileReader] are tasks of an explicit event
      loop; the viewer flags, the calls of [viewer.display], the pending
      reads and the exceptions that no handler caught form the [world].
    - Floating-point values are kept symbolic ([float32]): the embedding
      records which token or which bytes a stored number comes from and
      does not interpret it.
    - Byte offsets, line numbers and triangle counts are exact integers:
      they stay below 2^53. The numbers that [parseOBJ] computes with are
      values of the binary64 format ([number]): every result is rounded
      to the nearest value ([to_double]), and may be an infinity.
    - The host comes in through two parameters: the largest typed array
      it allocates, [array_limit], and the number of nested calls of
      [runBatch] that its call stack holds, [stack_limit]. A call nested
      deeper throws a [RangeError], which the [catch] of the handler
      receives as any other exception.
    - The rendering ([Viewer.display], [Controller]) goes through Three.js
      and is not embedded: a call of [viewer.display] is recorded with its
      arguments. *)

From Stdlib Require Import ZArith NArith QArith Ascii String.
From Stdlib.Strings Require Import Byte.
From stdpp Require Import base list.
From Equations Require Import Equations.

Local Open Scope nat_scope.
Local Open Scope string_scope.
Local Open Scope list_scope.

(** ** JavaScript values and completions *)

Inductive js_error : Type :=
| TypeError      (* a property read on [undefined] *)
| RangeError     (* an invalid typed-array length or buffer size *)
| IllegalParse.  (* the string thrown by the parsers themselves *)

Inductive completion (A : Type) : Type :=
| Normal (a : A)
| Throw (e : js_error).
Arguments Normal {A} a.
Arguments Throw {A} e.

(** The number stored in a cell of a [Float32Array], described by where it
    comes from. *)
Inductive float32 : Type :=
| F32_zero                              (* the content of a fresh array *)
| F32_NaN                               (* [undefined] converted to a number *)
| F32_of_string (s : string)            (* [ToNumber] of a string *)
| F32_of_bytes (b0 b1 b2 b3 : byte)     (* four buffer bytes, lowest first *)
| F32_of_Q (q : Q)                      (* the finite number [q] *)
| F32_infinity (negative : bool).       (* an infinite number *)

(** The arguments of one call of [viewer.display]; an argument that is
    [null], or that the call leaves out, is [None]. *)
Record display_call : Type := Display {
  vertices : list float32;
  name : option string;
  faceIndices : option (list N);
  colors : option (list float32);
  uvs : option (list float32)
}.

(** What one handler does, in order. [EvRunBatch] and [EvGetTriangle] are
    the entries of the two local functions, [EvDisplay] a call of
    [viewer.display], [EvSetTimeout] a call of [setTimeout]. *)
Inductive event : Type :=
| EvRunBatch (batchCount : nat)
| EvGetTriangle (index : nat)
| EvSetTimeout
| EvDisplay (d : display_call).

(** ** Text primitives *)

(** A blob is the list of its bytes. *)
Abbreviation blob := (list byte) (only parsing).

Definition readAsText (data : blob) : string := string_of_list_byte data.

(** [s.split(sep)] for a one-character separator: never empty. *)
Fixpoint split (sep : ascii) (s : string) : list string :=
  match s with
  | EmptyString => [EmptyString]
  | String c s' =>
      if Ascii.eqb c sep then EmptyString :: split sep s'
      else match split sep s' with
           | [] => [String c EmptyString]
           | t :: ts => String c t :: ts
           end
  end.

Definition newline : ascii := ascii_of_nat 10.
Definition space : ascii := ascii_of_nat 32.

(** [s.replace(/a/g, b)] for characters [a] and [b]. *)
Fixpoint replace_char (a b : ascii) (s : string) : string :=
  match s with
  | EmptyString => EmptyString
  | String c s' => String (if Ascii.eqb c a then b else c) (replace_char a b s')
  end.

(** The lines as the older [index.js] computes them,
    [reader.result.replace(/\n/g, "|").split("|")]; the embedding below
    follows [packit.js], which splits at the newlines only. *)
Definition splice_index_js (text : string) : list string :=
  split "|" (replace_char newline "|" text).

Fixpoint has_char (c : ascii) (s : string) : bool :=
  match s with
  | EmptyString => false
  | String c' s' => Ascii.eqb c' c || has_char c s'
  end.

(** [arr[i]] for a number [i] that may be negative: [None] is [undefined]. *)
Definition js_index {A : Type} (arr : list A) (i : Z) : option A :=
  if (i <? 0)%Z then None else arr !! Z.to_nat i.

(** The conversion done by a store into a [Float32Array]. *)
Definition to_float32 (v : option string) : float32 :=
  match v with
  | None => F32_NaN
  | Some s => F32_of_string s
  end.

(** ** The world and the monad of the handlers *)

Record Viewer : Type := mkViewer {
  attemptedASCII_STL : bool;
  attemptedBINARY_STL : bool
}.

(** A read started on a [FileReader]; its [onload] handler runs later. *)
Inductive read : Type :=
| ReadIndicator (data : blob)   (* [parseSTL]: the first six bytes as text *)
| ReadAscii (data : blob)       (* [stl_ascii]: the whole blob as text *)
| ReadBinary (data : blob)      (* [stl_binary]: the whole blob as a buffer *)
| ReadObj (data : blob).        (* [parseOBJ]: the whole blob as text *)

Record world : Type := mkWorld {
  viewer : Viewer;
  triangleData : list float32;  (* the array of the handler that is running *)
  history : list event;
  pending : list read;
  uncaught : list js_error      (* exceptions that left a handler *)
}.

Definition exec (A : Type) : Type := world -> completion A * world.

Definition ret {A : Type} (a : A) : exec A := fun w => (Normal a, w).

Definition throw {A : Type} (e : js_error) : exec A := fun w => (Throw e, w).

Definition bind {A B : Type} (m : exec A) (k : A -> exec B) : exec B :=
  fun w =>
    match m w with
    | (Normal a, w') => k a w'
    | (Throw e, w') => (Throw e, w')
    end.

Notation "x <- m ;; k" := (bind m (fun x => k))
  (at level 100, m at next level, right associativity).
Notation "m ;;; k" := (bind m (fun _ => k))
  (at level 100, right associativity).

(** [try { body } catch (err) { handler }] *)
Definition try_catch {A : Type} (body : exec A) (handler : js_error -> exec A)
  : exec A :=
  fun w =>
    match body w with
    | (Normal a, w') => (Normal a, w')
    | (Throw e, w') => handler e w'
    end.

Definition lift {A : Type} (c : completion A) : exec A :=
  fun w => (c, w).

Definition emit (e : event) : exec unit :=
  fun w =>
    (Normal tt,
     mkWorld (viewer w) (triangleData w) (history w ++ [e]) (pending w) (uncaught w)).

(** [triangleData[k] = v]: a store outside the array is ignored. *)
Definition set_cell (k : nat) (v : float32) : exec unit :=
  fun w =>
    (Normal tt,
     mkWorld (viewer w) (<[k := v]> (triangleData w)) (history w) (pending w)
             (uncaught w)).

(** [reader.onload = ...; reader.readAs...(data)] *)
Definition schedule (r : read) : exec unit :=
  fun w =>
    (Normal tt,
     mkWorld (viewer w) (triangleData w) (history w) (pending w ++ [r]) (uncaught w)).

(** [viewer.attemptedASCII_STL = true] *)
Definition mark_ascii : exec unit :=
  fun w =>
    (Normal tt,
     mkWorld (mkViewer true (attemptedBINARY_STL (viewer w)))
             (triangleData w) (history w) (pending w) (uncaught w)).

(** [viewer.attemptedBINARY_STL = true] *)
Definition mark_binary : exec unit :=
  fun w =>
    (Normal tt,
     mkWorld (mkViewer (attemptedASCII_STL (viewer w)) true)
             (triangleData w) (history w) (pending w) (uncaught w)).

(** [for (let i = ...; ...; i++) body(i)], over the values [i] takes. *)
Fixpoint for_each (l : list nat) (body : nat -> exec unit) : exec unit :=
  match l with
  | [] => ret tt
  | i :: l' => body i ;;; for_each l' body
  end.

Definition for_upto (n : nat) (body : nat -> exec unit) : exec unit :=
  for_each (seq 0 n) body.

(** [viewer.display(triangleData)] *)
Definition display_triangles : exec unit :=
  fun w => emit (EvDisplay (Display (triangleData w) None None None None)) w.

(** The calls of [viewer.display] made so far. *)
Definition displays (w : world) : list display_call :=
  omap (fun e => match e with EvDisplay d => Some d | _ => None end) (history w).

Definition new_world : world := mkWorld (mkViewer false false) [] [] [] [].

(** ** Constants *)

Definition PER_BATCH : nat := 500.
Arguments PER_BATCH : simpl never.

(** ** The batch scheduler shared by both STL sub-parsers

    [runBatch] is local to each [onload] handler; the two copies differ
    only in the [getTriangle] they call. The closure variable [batchCount]
    is written by [runBatch] alone and is passed explicitly. In
    [setTimeout(runBatch(), TIMEOUT_CONSTANT)] the argument is a call, so
    the next batch runs at once, inside the current one, and [setTimeout]
    then receives [undefined]: it schedules nothing. The calls of
    [runBatch] are so nested one in another, as deep as there are batches,
    inside the [try] block of the handler. *)

Definition inspect {A : Type} (a : A) : {b : A | a = b} := exist _ a eq_refl.

Section Batches.
(** The number of calls of [runBatch], each nested in the one before, that
    the call stack of the host holds: a call that would be nested deeper
    throws the [RangeError] of a stack overflow instead of running. *)
Variable stack_limit : nat.
Variable getTriangle : nat -> exec unit.
Variables batchLimit remainder : nat.

(** The call for [batchCount] is nested in the calls for the batches
    before it, [batchCount] of them. *)
Equations? runBatch (batchCount : nat) (w : world) : completion unit * world
  by wf (batchLimit - batchCount) lt :=
runBatch batchCount w
  with (if (stack_limit <=? batchCount)%nat then throw RangeError w
        else (emit (EvRunBatch batchCount) ;;;
              for_upto PER_BATCH (fun i => getTriangle (PER_BATCH * batchCount + i))) w) := {
  | (Throw e, w1) := (Throw e, w1);
  | (Normal _, w1) with inspect (S batchCount <? batchLimit)%nat := {
      | exist _ true Hmore :=
          match runBatch (S batchCount) w1 with
          | (Normal _, w2) => emit EvSetTimeout w2
          | (Throw e, w2) => (Throw e, w2)
          end;
      | exist _ false Hlast :=
          (for_upto remainder (fun i => getTriangle (PER_BATCH * S batchCount + i)) ;;;
           display_triangles) w1 } }.
Proof. apply Nat.ltb_lt in Hmore. lia. Qed.
End Batches.

(** ** Typed arrays over a buffer *)

(** [buffer.slice(start, end)]: both bounds are clamped to the buffer. *)
Definition slice (buffer : blob) (start end_ : nat) : blob :=
  take (end_ - start) (drop start buffer).

(** An element of a [Uint32Array]: the host's byte order, which is
    little-endian on the hosts the viewer runs on. *)
Definition uint32_le (b0 b1 b2 b3 : byte) : Z :=
  (Z.of_N (Byte.to_N b0) + 256 * Z.of_N (Byte.to_N b1)
   + 65536 * Z.of_N (Byte.to_N b2) + 16777216 * Z.of_N (Byte.to_N b3))%Z.

(** The elements of a typed array of 4-byte elements laid over a buffer;
    the constructor throws when the byte length is not a multiple of 4. *)
Fixpoint elements4 {A : Type} (decode : byte -> byte -> byte -> byte -> A)
    (buffer : blob) : completion (list A) :=
  match buffer with
  | [] => Normal []
  | b0 :: b1 :: b2 :: b3 :: rest =>
      match elements4 decode rest with
      | Normal l => Normal (decode b0 b1 b2 b3 :: l)
      | Throw e => Throw e
      end
  | _ => Throw RangeError
  end.

Definition Uint32Array_over (buffer : blob) : completion (list Z) :=
  elements4 uint32_le buffer.

Definition Float32Array_over (buffer : blob) : completion (list float32) :=
  elements4 F32_of_bytes buffer.

(** The value stored by [triangleData[k] = triangle[j]]. *)
Definition float_at (triangle : list float32) (j : nat) : float32 :=
  default F32_NaN (triangle !! j).

(** ** The two STL sub-parsers

    [stl_ascii] and [stl_binary] only test their flag and start a read; the
    parsing is done by the [onload] handler of the read, inside a [try]
    block whose [catch] sets the flag and calls the other sub-parser. *)

Definition stl_ascii (data : blob) : exec unit :=
  fun w =>
    if attemptedASCII_STL (viewer w) then ret tt w
    else schedule (ReadAscii data) w.

Definition stl_binary (data : blob) : exec unit :=
  fun w =>
    if attemptedBINARY_STL (viewer w) then ret tt w
    else schedule (ReadBinary data) w.

(** *** The triangles of [stl_ascii] *)

(** [line.split(" ")] on an entry of [splice] that may be [undefined]. *)
Definition split_line (line : option string) : exec (list string) :=
  match line with
  | None => throw TypeError
  | Some s => ret (split space s)
  end.

Definition getTriangle_ascii (splice : list string) (index : nat) : exec unit :=
  emit (EvGetTriangle index) ;;;
  v1 <- split_line (splice !! (3 + 7 * index)) ;;
  v2 <- split_line (splice !! (4 + 7 * index)) ;;
  v3 <- split_line (splice !! (5 + 7 * index)) ;;
  let len1 := Z.of_nat (length v1) in
  let len2 := Z.of_nat (length v2) in
  let len3 := Z.of_nat (length v3) in
  set_cell (9 * index) (to_float32 (js_index v1 (len1 - 3))) ;;;
  set_cell (9 * index + 1) (to_float32 (js_index v1 (len1 - 2))) ;;;
  set_cell (9 * index + 2) (to_float32 (js_index v1 (len1 - 1))) ;;;
  set_cell (9 * index + 3) (to_float32 (js_index v2 (len2 - 3))) ;;;
  set_cell (9 * index + 4) (to_float32 (js_index v2 (len2 - 2))) ;;;
  set_cell (9 * index + 5) (to_float32 (js_index v2 (len3 - 1))) ;;;
  set_cell (9 * index + 6) (to_float32 (js_index v3 (len2 - 3))) ;;;
  set_cell (9 * index + 7) (to_float32 (js_index v3 (len3 - 2))) ;;;
  set_cell (9 * index + 8) (to_float32 (js_index v3 (len3 - 1))).

(** [(splice.length - 3) / 7], kept only when it is an integer. *)
Definition ascii_triCount (splice : list string) : exec Z :=
  let n := (Z.of_nat (length splice) - 3)%Z in
  if (n mod 7 =? 0)%Z then ret (n / 7)%Z else throw IllegalParse.

(** *** The triangles of [stl_binary] *)

Definition getTriangle_binary (buffer : blob) (index : nat) : exec unit :=
  emit (EvGetTriangle index) ;;;
  triangle <- lift (Float32Array_over
                      (slice buffer (96 + 50 * index) (132 + 50 * index))) ;;
  set_cell (9 * index) (float_at triangle 0) ;;;
  set_cell (9 * index + 1) (float_at triangle 1) ;;;
  set_cell (9 * index + 2) (float_at triangle 2) ;;;
  set_cell (9 * index + 3) (float_at triangle 3) ;;;
  set_cell (9 * index + 4) (float_at triangle 4) ;;;
  set_cell (9 * index + 5) (float_at triangle 5) ;;;
  set_cell (9 * index + 6) (float_at triangle 6) ;;;
  set_cell (9 * index + 7) (float_at triangle 7) ;;;
  set_cell (9 * index + 8) (float_at triangle 8).

(** [new Uint32Array(buffer.slice(80, 84))[0]], followed by the integer
    test, which only [undefined] fails. *)
Definition binary_triCount (buffer : blob) : exec Z :=
  counts <- lift (Uint32Array_over (slice buffer 80 84)) ;;
  match counts !! 0 with
  | None => throw IllegalParse
  | Some triCount => ret triCount
  end.

(** *** The [try] blocks and the handlers *)

Section Host.
(** The largest length of a typed array that the host allocates. *)
Variable array_limit : Z.
(** The number of nested calls of [runBatch] that its call stack holds. *)
Variable stack_limit : nat.

(** [triangleData = new Float32Array(n)] *)
Definition new_triangleData (n : Z) : exec unit :=
  fun w =>
    if ((n <? 0) || (array_limit <? n))%Z then (Throw RangeError, w)
    else (Normal tt,
          mkWorld (viewer w) (repeat F32_zero (Z.to_nat n)) (history w)
                  (pending w) (uncaught w)).

(** The body of the [try] block of a handler, from the triangle count on. *)
Definition parse_triangles (getTriangle : nat -> exec unit) (triCount : Z)
  : exec unit :=
  let batchLimit := (triCount / Z.of_nat PER_BATCH)%Z in
  let remainder := (triCount - batchLimit * Z.of_nat PER_BATCH)%Z in
  new_triangleData (triCount * 9)%Z ;;;
  runBatch stack_limit getTriangle (Z.to_nat batchLimit) (Z.to_nat remainder) 0.

Definition ascii_try (text : string) : exec unit :=
  let splice := split newline text in
  triCount <- ascii_triCount splice ;;
  parse_triangles (getTriangle_ascii splice) triCount.

Definition binary_try (buffer : blob) : exec unit :=
  triCount <- binary_triCount buffer ;;
  parse_triangles (getTriangle_binary buffer) triCount.

Definition onload_ascii (data : blob) : exec unit :=
  try_catch (ascii_try (readAsText data))
            (fun err => mark_ascii ;;; stl_binary data).

Definition onload_binary (data : blob) : exec unit :=
  try_catch (binary_try data)
            (fun err => mark_binary ;;; stl_ascii data).
End Host.

(** ** [parseSTL]: sniffing *)

(** [s.includes(pat)] *)
Fixpoint includes (pat s : string) : bool :=
  String.prefix pat s ||
  match s with
  | EmptyString => false
  | String _ s' => includes pat s'
  end.

Definition parseSTL (data : blob) : exec unit :=
  schedule (ReadIndicator data).

Definition onload_indicator (data : blob) : exec unit :=
  let indicator := readAsText (take 6 data) in
  if includes "solid" indicator then stl_ascii data else stl_binary data.

(** ** Numbers read from text *)

Definition is_digit (c : ascii) : bool :=
  (48 <=? nat_of_ascii c)%nat && (nat_of_ascii c <=? 57)%nat.

(** White space and line terminators among the characters below 128. *)
Definition is_space (c : ascii) : bool :=
  let n := nat_of_ascii c in
  ((9 <=? n)%nat && (n <=? 13)%nat) || (n =? 32)%nat.

Fixpoint trim_start (s : string) : string :=
  match s with
  | String c s' => if is_space c then trim_start s' else s
  | EmptyString => EmptyString
  end.

(** The longest prefix of decimal digits, and what follows it. *)
Fixpoint span_digits (s : string) : string * string :=
  match s with
  | String c s' =>
      if is_digit c then let (d, r) := span_digits s' in (String c d, r)
      else (EmptyString, s)
  | EmptyString => (EmptyString, EmptyString)
  end.

Definition is_sign (c : ascii) : bool :=
  Ascii.eqb c "+" || Ascii.eqb c "-".

(** The longest prefix that is an [ExponentPart], empty when there is none. *)
Definition exponent_part (s : string) : string :=
  match s with
  | String e s1 =>
      if Ascii.eqb e "e" || Ascii.eqb e "E" then
        let (sign, s2) :=
          match s1 with
          | String c s2 => if is_sign c then (String c EmptyString, s2)
                           else (EmptyString, s1)
          | EmptyString => (EmptyString, s1)
          end in
        let (digits, _) := span_digits s2 in
        match digits with
        | EmptyString => EmptyString
        | _ => String e (String.append sign digits)
        end
      else EmptyString
  | EmptyString => EmptyString
  end.

(** The longest prefix that is a [StrUnsignedDecimalLiteral]. *)
Definition unsigned_literal (s : string) : option string :=
  if String.prefix "Infinity" s then Some "Infinity"
  else
    let (int_part, r1) := span_digits s in
    match r1 with
    | String "."%char r2 =>
        let (frac_part, r3) := span_digits r2 in
        match int_part, frac_part with
        | EmptyString, EmptyString => None
        | _, _ =>
            Some (String.append int_part
                    (String "."%char (String.append frac_part (exponent_part r3))))
        end
    | _ =>
        match int_part with
        | EmptyString => None
        | _ => Some (String.append int_part (exponent_part r1))
        end
    end.

(** [parseFloat(s)]: the text of the literal that is converted, [None] for
    [NaN]. The number itself is the value of that literal. *)
Definition parseFloat (s : string) : option string :=
  match trim_start s with
  | String c t =>
      if is_sign c then option_map (String c) (unsigned_literal t)
      else unsigned_literal (String c t)
  | EmptyString => None
  end.

(** A number of the face lists: [NaN], an infinity, or a finite value of
    the binary64 format, kept as the rational that it is, in lowest terms.
    The sign of a zero is not kept: of a zero the parser only asks
    whether it is below 0, which neither zero is, and takes 1 from it. *)
Inductive number : Type :=
| NaN
| Inf (negative : bool)
| Num (q : Q).

(** [n / d] rounded to the nearest integer, a tie going to the even one,
    for [n] not negative. *)
Definition round_half_even (n : Z) (d : positive) : Z :=
  let q := (n / Z.pos d)%Z in
  match (2 * (n mod Z.pos d) ?= Z.pos d)%Z with
  | Lt => q
  | Gt => (q + 1)%Z
  | Eq => if Z.even q then q else (q + 1)%Z
  end.

(** [q * 2 ^ e] *)
Definition scale2 (q : Q) (e : Z) : Q :=
  if (0 <=? e)%Z then Qmake (Qnum q * 2 ^ e) (Qden q)
  else Qmake (Qnum q) (Qden q * Z.to_pos (2 ^ (- e))).

(** The exponent [e] with [2 ^ e <= q < 2 ^ (e + 1)], for [q] positive. *)
Definition floor_log2 (q : Q) : Z :=
  let e := (Z.log2 (Qnum q) - Z.log2 (Z.pos (Qden q)))%Z in
  let x := scale2 q (- e) in
  if (Z.pos (Qden x) <=? Qnum x)%Z then e else (e - 1)%Z.

(** The number that an exact result becomes: the nearest value of the
    binary64 format, a tie going to the value whose last bit is 0. The
    values are the multiples [m * 2 ^ s] with [m < 2 ^ 53] and
    [s >= -1074]; a result that rounds to [2 ^ 1024] or beyond is an
    infinity. *)
Definition to_double (q : Q) : number :=
  let q := Qred q in
  if (Qnum q =? 0)%Z then Num 0
  else
    let a := Qmake (Z.abs (Qnum q)) (Qden q) in
    let s := Z.max (floor_log2 a - 52) (-1074) in
    let x := scale2 a (- s) in
    let m := round_half_even (Qnum x) (Qden x) in
    if (2 ^ (1024 - s) <=? m)%Z then Inf (Qnum q <? 0)%Z
    else
      let r := Qred (scale2 (inject_Z m) s) in
      Num (if (Qnum q <? 0)%Z then Qopp r else r).

Definition hex_value (c : ascii) : option Z :=
  let n := Z.of_nat (nat_of_ascii c) in
  if ((48 <=? n) && (n <=? 57))%Z then Some (n - 48)%Z
  else if ((97 <=? n) && (n <=? 102))%Z then Some (n - 87)%Z
  else if ((65 <=? n) && (n <=? 70))%Z then Some (n - 55)%Z
  else None.

Definition digit_value (radix : Z) (c : ascii) : option Z :=
  match hex_value c with
  | Some d => if (d <? radix)%Z then Some d else None
  | None => None
  end.

(** The value of the longest prefix of digits of [radix], after [acc];
    [seen] tells whether a digit has been read. *)
Fixpoint read_digits (radix : Z) (s : string) (seen : bool) (acc : Z) : option Z :=
  match s with
  | String c s' =>
      match digit_value radix c with
      | Some d => read_digits radix s' true (acc * radix + d)%Z
      | None => if seen then Some acc else None
      end
  | EmptyString => if seen then Some acc else None
  end.

Definition strip_hex_prefix (s : string) : option string :=
  match s with
  | String "0"%char (String x s') =>
      if Ascii.eqb x "x" || Ascii.eqb x "X" then Some s' else None
  | _ => None
  end.

(** [parseInt(s)] without a radix; an [undefined] argument reads as the
    text [undefined]. The integer that the digits spell becomes the
    nearest number (for more than 20 decimal digits the language leaves
    the host some freedom, which the hosts do not take). *)
Definition parseInt (v : option string) : number :=
  let s := trim_start (default "undefined" v) in
  let (negative, t) :=
    match s with
    | String c t => if is_sign c then (Ascii.eqb c "-", t) else (false, s)
    | EmptyString => (false, s)
    end in
  let magnitude :=
    match strip_hex_prefix t with
    | Some h => read_digits 16 h false 0
    | None => read_digits 10 t false 0
    end in
  match magnitude with
  | Some m => to_double (inject_Z (if negative then - m else m))
  | None => NaN
  end.

Definition isNaN (n : number) : bool :=
  match n with NaN => true | _ => false end.

(** [a + b] *)
Definition num_add (a b : number) : number :=
  match a, b with
  | Num x, Num y => to_double (x + y)
  | Inf s, Num _ => Inf s
  | Num _, Inf s => Inf s
  | Inf s, Inf t => if Bool.eqb s t then Inf s else NaN
  | _, _ => NaN
  end.

(** [a - b] *)
Definition num_sub (a b : number) : number :=
  match a, b with
  | Num x, Num y => to_double (x - y)
  | Inf s, Num _ => Inf s
  | Num _, Inf s => Inf (negb s)
  | Inf s, Inf t => if Bool.eqb s t then NaN else Inf s
  | _, _ => NaN
  end.

(** [a < 0] *)
Definition is_negative (a : number) : bool :=
  match a with
  | Num x => (Qnum x <? 0)%Z
  | Inf s => s
  | NaN => false
  end.

(** A length or a small literal: an integer that is a number as it is. *)
Definition num_of_nat (n : nat) : number := Num (inject_Z (Z.of_nat n)).

(** [arr.length / 3] *)
Definition third_of_length {A : Type} (arr : list A) : number :=
  to_double (inject_Z (Z.of_nat (length arr)) / 3).

(** The conversions done by [new Uint32Array(arr)] and
    [new Float32Array(arr)] on an element; [None] is [undefined]. *)
Definition ToUint32 (v : option number) : N :=
  match v with
  | Some (Num q) => Z.to_N (Z.quot (Qnum q) (Z.pos (Qden q)) mod 4294967296)
  | _ => 0%N
  end.

Definition float32_of_value (v : option number) : float32 :=
  match v with
  | Some (Num q) => F32_of_Q q
  | Some (Inf s) => F32_infinity s
  | _ => F32_NaN
  end.

(** ** [parseOBJ] *)

Record obj_state : Type := mkObj {
  obj_vertices : list string;            (* literals pushed by [parseVertex] *)
  obj_faces : list (option number);
  obj_uvs : list string;                 (* literals pushed by [parseUV] *)
  obj_uvfaces : list (option number)
}.

(** The loop of [parseVertex] and of [parseUV]: push every token that
    [parseFloat] reads as a number. *)
Definition push_floats (arr : list string) (acc : list string) : list string :=
  fold_left
    (fun acc tok =>
       match parseFloat tok with
       | Some el => acc ++ [el]
       | None => acc
       end)
    arr acc.

Definition parseVertex (line : string) (st : obj_state) : obj_state :=
  mkObj (push_floats (split space line) (obj_vertices st))
        (obj_faces st) (obj_uvs st) (obj_uvfaces st).

Definition parseUV (line : string) (st : obj_state) : obj_state :=
  mkObj (obj_vertices st) (obj_faces st)
        (push_floats (split space line) (obj_uvs st)) (obj_uvfaces st).

(** [arr.push(x); if (i > 3) { arr.push(arr[arr.length-4]);
    arr.push(arr[arr.length-3]); }] *)
Definition push_corner (i : nat) (x : number) (arr : list (option number))
  : list (option number) :=
  let arr1 := arr ++ [Some x] in
  if (3 <? i)%nat then
    let arr2 := arr1 ++ [mjoin (js_index arr1 (Z.of_nat (length arr1) - 4))] in
    arr2 ++ [mjoin (js_index arr2 (Z.of_nat (length arr2) - 3))]
  else arr1.

(** [n < 0 ? n + (count + 1) : n] *)
Definition resolve (n count : number) : number :=
  if is_negative n then num_add n (num_add count (num_of_nat 1)) else n.

(** One round of the loop of [parseFace], on the token [arr[i]]. *)
Definition face_corner (i : nat) (tok : string) (st : obj_state) : obj_state :=
  let spl := split "/" tok in
  let face := parseInt (spl !! 0) in
  if isNaN face then st
  else
    let texture := parseInt (spl !! 1) in
    let face := resolve face (third_of_length (obj_vertices st)) in
    let faces := push_corner i (num_sub face (num_of_nat 1)) (obj_faces st) in
    let texture := resolve texture (third_of_length (obj_uvs st)) in
    let uvfaces := push_corner i (num_sub texture (num_of_nat 1)) (obj_uvfaces st) in
    mkObj (obj_vertices st) faces (obj_uvs st) uvfaces.

(** [for (let i = 1; i < arr.length - 1; i++)], on the tokens [arr]. *)
Definition face_loop (arr : list string) (st : obj_state) : obj_state :=
  fold_left
    (fun st i => face_corner i (default "" (arr !! i)) st)
    (seq 1 (length arr - 1 - 1)) st.

Definition parseFace (line : string) (st : obj_state) : obj_state :=
  face_loop (split space line) st.

Definition obj_line (st : obj_state) (line : string) : obj_state :=
  let identifier := substring 0 2 line in
  if String.eqb identifier "v " then parseVertex line st
  else if String.eqb identifier "vt" then parseUV line st
  else if String.eqb identifier "f " then parseFace line st
  else st.

Definition obj_lines (text : string) : obj_state :=
  fold_left obj_line (split newline text) (mkObj [] [] [] []).

(** The single call of [viewer.display] at the end of the handler. *)
Definition obj_display (st : obj_state) : display_call :=
  Display (map F32_of_string (obj_vertices st))
          None
          (Some (map ToUint32 (obj_faces st)))
          None
          (Some (map float32_of_value (obj_uvfaces st))).

Definition parseOBJ (data : blob) : exec unit :=
  schedule (ReadObj data).

Definition onload_obj (data : blob) : exec unit :=
  let st := obj_lines (readAsText data) in
  emit (EvDisplay (obj_display st)).

(** ** The event loop *)

Section Loop.
Variable array_limit : Z.
Variable stack_limit : nat.

Definition run_handler (r : read) : exec unit :=
  match r with
  | ReadIndicator data => onload_indicator data
  | ReadAscii data => onload_ascii array_limit stack_limit data
  | ReadBinary data => onload_binary array_limit stack_limit data
  | ReadObj data => onload_obj data
  end.

(** An exception that leaves a handler reaches the host. *)
Definition settle (outcome : completion unit * world) : world :=
  match outcome with
  | (Normal _, w) => w
  | (Throw e, w) =>
      mkWorld (viewer w) (triangleData w) (history w) (pending w)
              (uncaught w ++ [e])
  end.

(** Run at most [fuel] pending handlers, oldest first. *)
Fixpoint event_loop (fuel : nat) (w : world) : world :=
  match fuel with
  | 0 => w
  | S fuel' =>
      match pending w with
      | [] => w
      | r :: rest =>
          event_loop fuel'
            (settle (run_handler r (mkWorld (viewer w) (triangleData w) (history w)
                                            rest (uncaught w))))
      end
  end.
End Loop.

(** ** The page: [readFrom] and the listener of [DOMContentLoaded]

    The calls into Three.js and into the DOM made by the constructor of
    [Viewer] are taken to return; what is kept of a viewer is its world.
    Every viewer of [packit.viewers] has a world of its own: the handlers
    of a viewer read and write nothing of another one. *)

(** [c.toLowerCase()] for a character below 256: the letters A to Z and
    the capital letters of Latin-1. *)
Definition lower_char (c : ascii) : ascii :=
  let n := nat_of_ascii c in
  if ((65 <=? n)%nat && (n <=? 90)%nat)
     || ((192 <=? n)%nat && (n <=? 222)%nat && negb (n =? 215)%nat)
  then ascii_of_nat (n + 32) else c.

Fixpoint toLowerCase (s : string) : string :=
  match s with
  | EmptyString => EmptyString
  | String c s' => String (lower_char c) (toLowerCase s')
  end.

Definition VALID_EXTENSIONS : list string := ["stl"; "obj"].

(** An element of the document, by what [getAttribute("src")] returns:
    [None] is [null], the element has no such attribute. *)
Record element : Type := mkElement { src : option string }.

(** A request sent by [readFrom], with the variables that its
    [onreadystatechange] closes over. *)
Record request : Type := mkRequest {
  req_path : string;
  req_extension : string;
  req_viewer : nat       (* the position of [viewer] in [packit.viewers] *)
}.

Record page : Type := mkPage {
  viewers : list world;       (* [packit.viewers] *)
  requests : list request;    (* the requests sent, oldest first *)
  console : list string;      (* what [console.log] has printed *)
  resize_listener : bool      (* whether the listener of [resize] is added *)
}.

Definition empty_page : page := mkPage [] [] [] false.

(** [packit.createViewer(container)]: the new viewer has both flags false
    and has displayed nothing. *)
Definition createViewer (p : page) : nat * page :=
  (length (viewers p),
   mkPage (viewers p ++ [new_world]) (requests p) (console p) (resize_listener p)).

Definition readFrom (container : element) (p : page) : completion unit * page :=
  match src container with
  | None => (Throw TypeError, p)
  | Some path =>
      let parts := split "." path in
      match js_index parts (Z.of_nat (length parts) - 1) with
      | None => (Throw TypeError, p)
      | Some last =>
          let extension := toLowerCase last in
          if existsb (String.eqb extension) VALID_EXTENSIONS then
            let (viewer, p1) := createViewer p in
            (Normal tt,
             mkPage (viewers p1)
                    (requests p1 ++ [mkRequest path extension viewer])
                    (console p1) (resize_listener p1))
          else (Normal tt, p)
      end
  end.

(** What a handler or a call does to the viewer at position [k]. *)
Definition on_viewer (k : nat) (f : world -> world) (p : page) : page :=
  match viewers p !! k with
  | Some w => mkPage (<[k := f w]> (viewers p)) (requests p) (console p)
                     (resize_listener p)
  | None => p
  end.

(** The [onreadystatechange] of the request [r], called with the state,
    the status and the response that the request has then. *)
Definition onreadystatechange (r : request) (readyState status : nat)
    (response : blob) (p : page) : page :=
  if (readyState =? 4)%nat && (status =? 200)%nat then
    if String.eqb (req_extension r) "stl" then
      on_viewer (req_viewer r) (fun w => (parseSTL response w).2) p
    else if String.eqb (req_extension r) "obj" then
      on_viewer (req_viewer r) (fun w => (parseOBJ response w).2) p
    else mkPage (viewers p) (requests p) (console p ++ ["Incorrect File Type"])
                (resize_listener p)
  else p.

(** The loop of the listener of [DOMContentLoaded]. *)
Fixpoint read_all (objects : list element) (p : page) : completion unit * page :=
  match objects with
  | [] => (Normal tt, p)
  | o :: objects' =>
      match readFrom o p with
      | (Normal _, p1) => read_all objects' p1
      | (Throw e, p1) => (Throw e, p1)
      end
  end.

(** The listener of [DOMContentLoaded], on the elements of the class
    [packit] in document order. *)
Definition on_DOMContentLoaded (objects : list element) (p : page)
  : completion unit * page :=
  match read_all objects p with
  | (Normal _, p1) =>
      (Normal tt, mkPage (viewers p1) (requests p1) (console p1) true)
  | (Throw e, p1) => (Throw e, p1)
  end.

(** What happens on the page after the listener: a request changes state,
    or the pending handlers of a viewer run. *)
Inductive host_event : Type :=
| StateChange (k : nat) (readyState status : nat) (response : blob)
| Handlers (k : nat) (fuel : nat).

Section Host_events.
Variable array_limit : Z.
Variable stack_limit : nat.

Definition host_step (p : page) (ev : host_event) : page :=
  match ev with
  | StateChange k readyState status response =>
      match requests p !! k with
      | Some r => onreadystatechange r readyState status response p
      | None => p
      end
  | Handlers k fuel => on_viewer k (event_loop array_limit stack_limit fuel) p
  end.
End Host_events.

(** * Reference descriptions

    The definitions below are not part of the program: they describe, in
    closed form, what the handlers are proved to do. *)

(** The nine numbers that the stores of [getTriangle] take from the array
    [triangle]. *)
Definition cells (triangle : list float32) : list float32 :=
  map (float_at triangle) (seq 0 9).

(** The nine stores of [getTriangle], on the array itself. *)
Definition write9 (index : nat) (triangle : list float32) (data : list float32)
  : list float32 :=
  <[9 * index + 8 := float_at triangle 8]>
    (<[9 * index + 7 := float_at triangle 7]>
       (<[9 * index + 6 := float_at triangle 6]>
          (<[9 * index + 5 := float_at triangle 5]>
             (<[9 * index + 4 := float_at triangle 4]>
                (<[9 * index + 3 := float_at triangle 3]>
                   (<[9 * index + 2 := float_at triangle 2]>
                      (<[9 * index + 1 := float_at triangle 1]>
                         (<[9 * index := float_at triangle 0]> data)))))))).

(** The world after a handler has set its array to [data] and done [evs]. *)
Definition ran (data : list float32) (evs : list event) (w : world) : world :=
  mkWorld (viewer w) data (history w ++ evs) (pending w) (uncaught w).

(** The world after a call of [getTriangle] that returns. *)
Definition put_triangle (index : nat) (triangle : list float32) (w : world) : world :=
  ran (write9 index triangle (triangleData w)) [EvGetTriangle index] w.

(** The array of [triCount] triangles once the triangles below [k] are
    stored: the rest still holds the zeros of the allocation. *)
Definition filled (triangle : nat -> list float32) (triCount k : nat)
  : list float32 :=
  flat_map (fun i => cells (triangle i)) (seq 0 (min k triCount))
  ++ repeat F32_zero (9 * (triCount - k)).

(** What [runBatch] does from [batchCount] on when [more] further batches
    are nested in it: its own full batch, then either the nested call and
    [setTimeout], or the partial batch and the display of [final]. *)
Fixpoint batch_events (remainder : nat) (final : list float32)
    (more batchCount : nat) : list event :=
  EvRunBatch batchCount
  :: map EvGetTriangle (seq (PER_BATCH * batchCount) PER_BATCH)
  ++ match more with
     | S more' =>
         batch_events remainder final more' (S batchCount) ++ [EvSetTimeout]
     | 0 =>
         map EvGetTriangle (seq (PER_BATCH * S batchCount) remainder)
         ++ [EvDisplay (Display final None None None None)]
     end.

(** A step that the host cannot see: no display, no read started, no
    exception, no flag changed. *)
Definition quiet (w w' : world) : Prop :=
  viewer w' = viewer w /\ pending w' = pending w
  /\ uncaught w' = uncaught w /\ displays w' = displays w.

(** The values that [getTriangle] of [stl_ascii] stores for a triangle. *)
Definition ascii_triangle (splice : list string) (index : nat) : list float32 :=
  let v1 := split space (default "" (splice !! (3 + 7 * index))) in
  let v2 := split space (default "" (splice !! (4 + 7 * index))) in
  let v3 := split space (default "" (splice !! (5 + 7 * index))) in
  let len1 := Z.of_nat (length v1) in
  let len2 := Z.of_nat (length v2) in
  let len3 := Z.of_nat (length v3) in
  [ to_float32 (js_index v1 (len1 - 3));
    to_float32 (js_index v1 (len1 - 2));
    to_float32 (js_index v1 (len1 - 1));
    to_float32 (js_index v2 (len2 - 3));
    to_float32 (js_index v2 (len2 - 2));
    to_float32 (js_index v2 (len3 - 1));
    to_float32 (js_index v3 (len2 - 3));
    to_float32 (js_index v3 (len3 - 2));
    to_float32 (js_index v3 (len3 - 1)) ].

(** The last three tokens of a line, as numbers. *)
Definition last_three (line : string) : list float32 :=
  let v := split space line in
  let len := Z.of_nat (length v) in
  [ to_float32 (js_index v (len - 3));
    to_float32 (js_index v (len - 2));
    to_float32 (js_index v (len - 1)) ].

(** The array that [getTriangle] of [stl_binary] reads for a triangle. *)
Definition binary_triangle (buffer : blob) (index : nat) : list float32 :=
  match Float32Array_over (slice buffer (96 + 50 * index) (132 + 50 * index)) with
  | Normal triangle => triangle
  | Throw _ => []
  end.

(** Whether the window of a triangle, clamped to the buffer, has a whole
    number of floats. *)
Definition window_ok (buffer : blob) (index : nat) : bool :=
  (length (slice buffer (96 + 50 * index) (132 + 50 * index)) mod 4 =? 0)%nat.

(** Whether lines [3+7i], [4+7i] and [5+7i] all exist. *)
Definition lines_ok (splice : list string) (index : nat) : bool :=
  (5 + 7 * index <? length splice)%nat.

(** The number of calls of [getTriangle] that a parse of [triCount]
    triangles makes when none throws. *)
Definition visited (triCount : nat) : nat :=
  PER_BATCH * max (triCount / PER_BATCH) 1 + triCount mod PER_BATCH.

(** What a parse of [triCount] triangles does when no call throws. *)
Definition parse_events (triCount : nat) (final : list float32) : list event :=
  batch_events (triCount mod PER_BATCH) final (max (triCount / PER_BATCH) 1 - 1) 0.

(** The triangle count that [stl_ascii] computes from the lines. *)
Definition ascii_count (text : string) : Z :=
  ((Z.of_nat (length (split newline text)) - 3) / 7)%Z.

(** The number of calls of [runBatch] nested one in another by a parse of
    [triCount] triangles when none throws. *)
Definition depth (triCount : nat) : nat := max (triCount / PER_BATCH) 1.

(** The inputs on which the [try] block of [stl_ascii] throws: the line
    count is not of the form [7n + 3], or the first full batch runs past
    the last line, or the array is refused, or the batches are nested
    deeper than the stack holds. *)
Definition ascii_fails (array_limit : Z) (stack_limit : nat) (text : string) : bool :=
  let len := Z.of_nat (length (split newline text)) in
  if negb ((len - 3) mod 7 =? 0)%Z then true
  else if (ascii_count text <? Z.of_nat PER_BATCH)%Z then true
  else if (array_limit <? ascii_count text * 9)%Z then true
  else (stack_limit <? depth (Z.to_nat (ascii_count text)))%nat.

(** The inputs on which the [try] block of [stl_binary] throws: the count
    cannot be read, or the array is refused, or the batches are nested
    deeper than the stack holds, or a window that is read has a broken
    float. *)
Definition binary_fails (array_limit : Z) (stack_limit : nat) (buffer : blob) : bool :=
  match Uint32Array_over (slice buffer 80 84) with
  | Normal (triCount :: _) =>
      if (array_limit <? triCount * 9)%Z then true
      else if (stack_limit <? depth (Z.to_nat triCount))%nat then true
      else negb (forallb (window_ok buffer) (seq 0 (visited (Z.to_nat triCount))))
  | _ => true
  end.

(** The triangle count that [stl_binary] reads, 0 when it reads none. *)
Definition binary_count (buffer : blob) : Z :=
  match Uint32Array_over (slice buffer 80 84) with
  | Normal (triCount :: _) => triCount
  | _ => 0%Z
  end.

(** Whether a buffer of [len] bytes ends inside the vertex bytes of a
    record at a position that breaks a float: after byte [96 + 50i] and
    before byte [132 + 50i] for some [i], and not at a multiple of 4 from
    byte [96 + 50i]. *)
Definition ends_in_a_float (len : nat) : bool :=
  (96 <? len)%nat && ((len - 96) mod 50 <? 36)%nat
  && negb (((len - 96) mod 50) mod 4 =? 0)%nat.

(** The float made of the four bytes at offset [off], lowest first. *)
Definition f32_at (buffer : blob) (off : nat) : option float32 :=
  match buffer !! off, buffer !! (off + 1), buffer !! (off + 2), buffer !! (off + 3) with
  | Some b0, Some b1, Some b2, Some b3 => Some (F32_of_bytes b0 b1 b2 b3)
  | _, _, _, _ => None
  end.

(** ** Sample inputs *)

Definition facet (v1 v2 v3 : string) : list string :=
  ["facet normal 0 0 1"; "outer loop"; v1; v2; v3; "endloop"; "endfacet"].

(** An ASCII STL file: header line, the facets, footer line, each line
    ended by a newline. *)
Definition ascii_stl (facets : list (list string)) : string :=
  String.concat (String newline EmptyString)
    (["solid packit"] ++ concat facets ++ ["endsolid packit"; ""]).

Definition plain_facet : list string :=
  facet "vertex 0 0 0" "vertex 1 0 0" "vertex 0 1 0".

(** The minimal file: one triangle. *)
Definition minimal_stl : string := ascii_stl [plain_facet].

(** A file of 500 triangles whose first facet has one more leading token
    on its second vertex line than on the two others. *)
Definition uneven_stl : string :=
  ascii_stl (facet "vertex 1 2 3" "x vertex 4 5 6" "vertex 7 8 9"
             :: repeat plain_facet 499).

Definition stl_1250 : string := ascii_stl (repeat plain_facet 1250).

(** Not an STL file at all. *)
Definition not_stl : blob := list_byte_of_string "solid".

(** A binary header that declares five triangles, and nothing after it. *)
Definition header_only : blob :=
  repeat x00 80 ++ [x05; x00; x00; x00].

(** A binary file of one triangle whose record holds the bytes 1 to 50. *)
Definition one_record : blob :=
  repeat x00 80 ++ [x01; x00; x00; x00]
  ++ [x01; x02; x03; x04; x05; x06; x07; x08; x09; x0a; x0b; x0c;
      x0d; x0e; x0f; x10; x11; x12; x13; x14; x15; x16; x17; x18;
      x19; x1a; x1b; x1c; x1d; x1e; x1f; x20; x21; x22; x23; x24;
      x25; x26; x27; x28; x29; x2a; x2b; x2c; x2d; x2e; x2f; x30;
      x31; x32].

(** A binary file of two triangles whose records hold the bytes 1 to
    100. *)
Definition two_records : blob :=
  repeat x00 80 ++ [x02; x00; x00; x00]
  ++ [x01; x02; x03; x04; x05; x06; x07; x08; x09; x0a; x0b; x0c;
      x0d; x0e; x0f; x10; x11; x12; x13; x14; x15; x16; x17; x18;
      x19; x1a; x1b; x1c; x1d; x1e; x1f; x20; x21; x22; x23; x24;
      x25; x26; x27; x28; x29; x2a; x2b; x2c; x2d; x2e; x2f; x30;
      x31; x32]
  ++ [x33; x34; x35; x36; x37; x38; x39; x3a; x3b; x3c; x3d; x3e;
      x3f; x40; x41; x42; x43; x44; x45; x46; x47; x48; x49; x4a;
      x4b; x4c; x4d; x4e; x4f; x50; x51; x52; x53; x54; x55; x56;
      x57; x58; x59; x5a; x5b; x5c; x5d; x5e; x5f; x60; x61; x62;
      x63; x64].

(** A header that declares five triangles, followed by the twelve bytes of
    a normal and one byte more. *)
Definition cut_record : blob := header_only ++ repeat x00 13.

(** A binary file of 1250 triangles, all bytes of the records zero. *)
Definition binary_1250 : blob :=
  repeat x00 80 ++ [xe2; x04; x00; x00] ++ repeat x00 (50 * 1250).

(** The limit of a host with 32-bit array lengths. *)
Definition limit32 : Z := 4294967295.

(** A host whose stack holds a thousand nested calls of [runBatch]. *)
Definition stack1000 : nat := 1000.

(** What the host sees of a handler whose [try] block threw: the flags
    become [flags], the reads [next] are started, and nothing else. *)
Definition fell_back (flags : Viewer) (next : list read) (w w' : world) : Prop :=
  viewer w' = flags /\ pending w' = pending w ++ next
  /\ uncaught w' = uncaught w /\ displays w' = displays w.

(** The events of a parse of 1250 triangles: two full batches, the second
    nested in the first, the partial batch of 250, the display, and the
    [setTimeout] of the first batch. *)
Definition events_1250 (final : list float32) : list event :=
  EvRunBatch 0 :: map EvGetTriangle (seq 0 500)
  ++ (EvRunBatch 1 :: map EvGetTriangle (seq 500 500)
      ++ map EvGetTriangle (seq 1000 250)
      ++ [EvDisplay (Display final None None None None)])
  ++ [EvSetTimeout].

(** The triangle indices of the calls of [getTriangle] among some events,
    and the batch counts of the calls of [runBatch]. *)
Definition triangle_calls (evs : list event) : list nat :=
  omap (fun e => match e with EvGetTriangle i => Some i | _ => None end) evs.

Definition batch_calls (evs : list event) : list nat :=
  omap (fun e => match e with EvRunBatch c => Some c | _ => None end) evs.

(** ** The OBJ parser *)

(** The numbers of the records of a kind: for every line whose first two
    characters are [prefix], in order, the tokens that [parseFloat] reads
    as a number. *)
Definition record_floats (prefix : string) (text : string) : list string :=
  flat_map (fun line => omap parseFloat (split space line))
           (List.filter (fun line => String.eqb (substring 0 2 line) prefix)
                        (split newline text)).

(** The vertex index that a corner token resolves to. *)
Definition vertex_index (st : obj_state) (tok : string) : number :=
  num_sub (resolve (parseInt (split "/" tok !! 0)) (third_of_length (obj_vertices st)))
          (num_of_nat 1).

(** The UV index that a corner token resolves to. *)
Definition uv_index (st : obj_state) (tok : string) : number :=
  num_sub (resolve (parseInt (split "/" tok !! 1)) (third_of_length (obj_uvs st)))
          (num_of_nat 1).

(** Whether the vertex component of a corner token is a number. *)
Definition is_corner (tok : string) : bool :=
  negb (isNaN (parseInt (split "/" tok !! 0))).

Definition empty_obj : obj_state := mkObj [] [] [] [].

(** Three vertices and one UV record of three floats read, no face yet. *)
Definition three_vertices : obj_state :=
  mkObj ["0"; "0"; "0"; "1"; "0"; "0"; "0"; "1"; "0"] []
        ["0.5"; "0.25"; "0"] [].

(** A triangle with three UV records of two floats each, its corners
    given by negative indices. *)
Definition uv_pairs_obj : string :=
  String.concat (String newline EmptyString)
    ["v 0 0 0"; "v 1 0 0"; "v 0 1 0"; "vt 0 0"; "vt 1 0"; "vt 0 1";
     "f -3/-3 -2/-2 -1/-1 "; ""].

(** A triangle with one UV record, every corner mapped to it. *)
Definition obj_sample : string :=
  String.concat (String newline EmptyString)
    ["v 0 0 0"; "v 1 0 0"; "v 0 1 0"; "vt 0.5 0.25 0"; "f 1/1 2/1 3/1 "; ""].

(** ** Further descriptions *)

(** Whether the five bytes from position [k] on spell the word [solid]. *)
Definition solid_at (k : nat) (data : blob) : bool :=
  String.eqb (readAsText (take 5 (drop k data))) "solid".

(** The mesh that the ASCII sub-parser displays when its [try] block
    returns, and the mesh that the binary sub-parser displays. *)
Definition ascii_mesh (data : blob) : display_call :=
  let text := readAsText data in
  Display (flat_map (ascii_triangle (split newline text))
                    (seq 0 (Z.to_nat (ascii_count text))))
          None None None None.

Definition binary_mesh (data : blob) : display_call :=
  Display (flat_map (fun i => cells (binary_triangle data i))
                    (seq 0 (Z.to_nat (binary_count data))))
          None None None None.

(** What the host sees of a handler that displays [d] and does nothing
    else. *)
Definition shows (d : display_call) (w w' : world) : Prop :=
  viewer w' = viewer w /\ pending w' = pending w
  /\ uncaught w' = uncaught w /\ displays w' = displays w ++ [d].

(** Every flag that is set in [v] is set in [v']. *)
Definition flags_kept (v v' : Viewer) : bool :=
  implb (attemptedASCII_STL v) (attemptedASCII_STL v')
  && implb (attemptedBINARY_STL v) (attemptedBINARY_STL v').

(** A viewer whose ASCII attempt has failed and whose handlers are done. *)
Definition fell_back_once : world := mkWorld (mkViewer true false) [] [] [] [].

(** The minimal file without the newline that ends its last line. *)
Definition unterminated_stl : string :=
  String.concat (String newline EmptyString)
    (["solid packit"] ++ plain_facet ++ ["endsolid packit"]).

(** A file of 500 triangles, and a text with the same vertex lines at the
    same places and no other line of an STL file. *)
Definition stl_500 : string := ascii_stl (repeat plain_facet 500).

Definition unlabelled_facet : list string :=
  ["neither a facet"; "nor a loop"; "vertex 0 0 0"; "vertex 1 0 0"; "vertex 0 1 0";
   "nor its end"; "nor this"].

Definition unlabelled_500 : string :=
  String.concat (String newline EmptyString)
    (["this is"] ++ concat (repeat unlabelled_facet 500) ++ ["no STL file"; ""]).

(** The binary file of one triangle followed by thirteen more bytes. *)
Definition one_record_and_more : blob := one_record ++ repeat x00 13.

(** The number of occurrences of a character. *)
Fixpoint count_char (c : ascii) (s : string) : nat :=
  match s with
  | EmptyString => 0
  | String c' s' => (if Ascii.eqb c' c then 1 else 0) + count_char c s'
  end.

(** The events of [runBatch] that come before the display. *)
Fixpoint batch_calls_before (remainder more batchCount : nat) : list event :=
  EvRunBatch batchCount
  :: map EvGetTriangle (seq (PER_BATCH * batchCount) PER_BATCH)
  ++ match more with
     | S more' => batch_calls_before remainder more' (S batchCount)
     | 0 => map EvGetTriangle (seq (PER_BATCH * S batchCount) remainder)
     end.

(** The events of a handler that parses [triCount] triangles into
    [final]: only calls of [runBatch] and of [getTriangle] come before the
    single display, only calls of [setTimeout] after it. *)
Definition batch_trace (triCount : nat) (final : list float32) (evs : list event)
  : Prop :=
  exists before,
    evs = before ++ EvDisplay (Display final None None None None)
                 :: repeat EvSetTimeout (max (triCount / PER_BATCH) 1 - 1)
    /\ batch_calls before = seq 0 (max (triCount / PER_BATCH) 1)
    /\ triangle_calls before
       = seq 0 (if (triCount <? PER_BATCH)%nat then PER_BATCH + triCount else triCount)
    /\ length before
       = length (batch_calls before) + length (triangle_calls before).

(** The indices that the corners after the third add to a face list: each
    corner, then the corner before it (the first corner for the fourth),
    then the third corner. *)
Fixpoint fan (third previous : number) (cs : list number) : list (option number) :=
  match cs with
  | [] => []
  | c :: cs' => Some c :: Some previous :: Some third :: fan third c cs'
  end.

(** The indices that a face record with the corners [cs] adds. *)
Definition polygon (cs : list number) : list (option number) :=
  match cs with
  | c1 :: c2 :: c3 :: cs' => Some c1 :: Some c2 :: Some c3 :: fan c3 c1 cs'
  | _ => map Some cs
  end.

(** The rounds of the loop of [parseFace] on the tokens [toks], the first
    of which is [arr[i]]. *)
Fixpoint corners_from (i : nat) (toks : list string) (st : obj_state) : obj_state :=
  match toks with
  | [] => st
  | tok :: toks' => corners_from (S i) toks' (face_corner i tok st)
  end.

(** The page after [readFrom] has accepted an element: one more viewer,
    and one more request, sent for that viewer. *)
Definition load (path extension : string) (p : page) : page :=
  mkPage (viewers p ++ [new_world])
         (requests p ++ [mkRequest path extension (length (viewers p))])
         (console p) (resize_listener p).

(** Whether the element is one that [readFrom] accepts. *)
Definition loaded (o : element) : bool :=
  match src o with
  | Some path =>
      existsb (String.eqb (toLowerCase (List.last (split "." path) "")))
              VALID_EXTENSIONS
  | None => false
  end.

Definition has_src (o : element) : bool :=
  match src o with Some _ => true | None => false end.

(** What the page keeps whatever happens: nothing is printed, every
    request was sent for one of the two extensions, and the request at
    position [k] belongs to the viewer at position [k]. *)
Definition page_ok (p : page) : Prop :=
  console p = []
  /\ length (viewers p) = length (requests p)
  /\ forall k r, requests p !! k = Some r ->
       req_viewer r = k
       /\ (req_extension r = "stl" \/ req_extension r = "obj").

(** * Properties *)

(** ** The lines of [index.js] *)

(** On a text without bars both versions of [stl_ascii] see the same
    lines, so what is proved below of one holds of the other. *)
Lemma splice_index_js_plain text :
  has_char "|" text = false -> splice_index_js text = split newline text.
Proof.
  unfold splice_index_js.
  induction text as [|c text IH]; cbn [has_char replace_char split]; [reflexivity|].
  intros [Hc Htext]%orb_false_iff. rewrite (IH Htext).
  destruct (Ascii.eqb c newline) eqn:Hnl.
  - reflexivity.
  - by rewrite Hc.
Qed.

(** ** Splitting and joining *)

Lemma split_nonempty sep s : split sep s <> [].
Proof.
  destruct s as [|c s]; cbn [split]; [discriminate|].
  destruct (Ascii.eqb c sep); [discriminate|]. by destruct (split sep s).
Qed.

Lemma split_app sep s1 : forall s2,
  split sep (String.append s1 (String sep s2)) = split sep s1 ++ split sep s2.
Proof.
  induction s1 as [|c s1 IH]; intros s2.
  - cbn [String.append split]. by rewrite Ascii.eqb_refl.
  - cbn [String.append split]. rewrite IH.
    destruct (Ascii.eqb c sep); [reflexivity|].
    pose proof (split_nonempty sep s1) as Hne.
    by destruct (split sep s1).
Qed.

Lemma split_plain sep s : has_char sep s = false -> split sep s = [s].
Proof.
  induction s as [|c s IH]; cbn [has_char split]; [reflexivity|].
  intros [Hc Hs]%orb_false_iff. rewrite Hc, (IH Hs). reflexivity.
Qed.

(** A text made of lines is split into these lines. *)
Lemma split_concat sep line lines :
  forallb (fun l => negb (has_char sep l)) (line :: lines) = true ->
  split sep (String.concat (String sep EmptyString) (line :: lines)) = line :: lines.
Proof.
  revert line. induction lines as [|l lines IH]; intros line Hall.
  - cbn [String.concat]. apply split_plain.
    cbn [forallb] in Hall. rewrite andb_true_r in Hall. by apply negb_true_iff.
  - cbn [forallb] in Hall. apply andb_true_iff in Hall as [Hline Hall].
    change (String.concat (String sep "") (line :: l :: lines))
      with (String.append line (String.append (String sep "")
              (String.concat (String sep "") (l :: lines)))).
    change (String.append (String sep "") ?x) with (String sep x).
    rewrite split_app, (split_plain sep line) by (by apply negb_true_iff).
    rewrite IH by exact Hall. reflexivity.
Qed.

Lemma length_concat_repeat {A : Type} (f : list A) n :
  length (concat (repeat f n)) = n * length f.
Proof.
  induction n as [|n IH]; [reflexivity|].
  cbn [repeat concat]. rewrite length_app, IH. lia.
Qed.

Lemma lookup_concat_repeat {A : Type} (f : list A) n i j :
  i < n -> j < length f ->
  concat (repeat f n) !! (length f * i + j) = f !! j.
Proof.
  revert i. induction n as [|n IH]; intros i Hi Hj; [lia|].
  cbn [repeat concat]. destruct i as [|i].
  - rewrite Nat.mul_0_r. cbn [Nat.add]. by rewrite lookup_app_l.
  - rewrite lookup_app_r by lia.
    replace (length f * S i + j - length f) with (length f * i + j) by lia.
    apply IH; lia.
Qed.

Lemma forallb_concat_repeat {A : Type} (P : A -> bool) (f : list A) n :
  forallb P f = true -> forallb P (concat (repeat f n)) = true.
Proof.
  intros Hf. induction n as [|n IH]; [reflexivity|].
  cbn [repeat concat]. by rewrite forallb_app, Hf, IH.
Qed.

(** The line [j] of the facet [i] in a text of [n] equal facets of seven
    lines each, after one header line. *)
Lemma lookup_facets (header : string) (f tail : list string) n i j :
  length f = 7 -> i < n -> j < 7 ->
  (header :: concat (repeat f n) ++ tail) !! (S j + 7 * i) = f !! j.
Proof.
  intros Hf Hi Hj.
  change ((header :: concat (repeat f n) ++ tail) !! (S j + 7 * i))
    with ((concat (repeat f n) ++ tail) !! (j + 7 * i)).
  rewrite lookup_app_l by (rewrite length_concat_repeat; lia).
  replace (j + 7 * i) with (length f * i + j) by lia.
  apply lookup_concat_repeat; lia.
Qed.

(** Two texts of [n] facets whose facets have the same vertex lines. *)
Lemma same_vertex_lines (h h' : string) (f g t t' : list string) n :
  length f = 7 -> length g = 7 -> length t = 2 -> length t' = 2 ->
  f !! 2 = g !! 2 -> f !! 3 = g !! 3 -> f !! 4 = g !! 4 ->
  let splice1 := h :: concat (repeat f n) ++ t in
  let splice2 := h' :: concat (repeat g n) ++ t' in
  length splice1 = 7 * n + 3
  /\ length splice2 = 7 * n + 3
  /\ forall i, splice1 !! (3 + 7 * i) = splice2 !! (3 + 7 * i)
               /\ splice1 !! (4 + 7 * i) = splice2 !! (4 + 7 * i)
               /\ splice1 !! (5 + 7 * i) = splice2 !! (5 + 7 * i).
Proof.
  intros Hf Hg Ht Ht' E2 E3 E4 splice1 splice2.
  assert (L1 : length splice1 = 7 * n + 3).
  { subst splice1. cbn [length]. rewrite length_app, length_concat_repeat. lia. }
  assert (L2 : length splice2 = 7 * n + 3).
  { subst splice2. cbn [length]. rewrite length_app, length_concat_repeat. lia. }
  split; [exact L1|]. split; [exact L2|].
  intros i. destruct (decide (i < n)) as [Hi|Hi].
  - subst splice1 splice2.
    rewrite (lookup_facets h f t n i 2 Hf Hi), (lookup_facets h' g t' n i 2 Hg Hi) by lia.
    rewrite (lookup_facets h f t n i 3 Hf Hi), (lookup_facets h' g t' n i 3 Hg Hi) by lia.
    rewrite (lookup_facets h f t n i 4 Hf Hi), (lookup_facets h' g t' n i 4 Hg Hi) by lia.
    auto.
  - repeat split;
      (etrans; [apply lookup_ge_None_2; lia|symmetry; apply lookup_ge_None_2; lia]).
Qed.

(** The lines of a file of [n] plain facets. *)
Lemma splice_of_plain_facets n :
  split newline (readAsText (list_byte_of_string (ascii_stl (repeat plain_facet n))))
  = "solid packit" :: concat (repeat plain_facet n) ++ ["endsolid packit"; ""].
Proof.
  unfold readAsText. rewrite string_of_list_byte_of_string. unfold ascii_stl.
  change (["solid packit"] ++ ?x) with ("solid packit" :: x).
  apply split_concat.
  change (forallb ?P ("solid packit" :: ?x)) with (forallb P x).
  rewrite forallb_app, forallb_concat_repeat by reflexivity. reflexivity.
Qed.

Lemma splice_of_unlabelled_500 :
  split newline (readAsText (list_byte_of_string unlabelled_500))
  = "this is" :: concat (repeat unlabelled_facet 500) ++ ["no STL file"; ""].
Proof.
  unfold readAsText. rewrite string_of_list_byte_of_string. unfold unlabelled_500.
  change (["this is"] ++ ?x) with ("this is" :: x).
  apply split_concat.
  change (forallb ?P ("this is" :: ?x)) with (forallb P x).
  rewrite forallb_app, forallb_concat_repeat by reflexivity. reflexivity.
Qed.

(** ** The monad *)

Lemma bind_normal {A B : Type} (m : exec A) (k : A -> exec B) w a w' :
  m w = (Normal a, w') -> (x <- m ;; k x) w = k a w'.
Proof. intros H. unfold bind. by rewrite H. Qed.

Lemma bind_throw {A B : Type} (m : exec A) (k : A -> exec B) w e w' :
  m w = (Throw e, w') -> (x <- m ;; k x) w = (Throw e, w').
Proof. intros H. unfold bind. by rewrite H. Qed.


Lemma for_each_shift base n start body w :
  for_each (seq start n) (fun i => body (base + i)) w
  = for_each (seq (base + start) n) body w.
Proof.
  revert start w. induction n as [|n IH]; intros start w; simpl; [reflexivity|].
  unfold bind. destruct (body (base + start) w) as [[[]|e] w1]; [|reflexivity].
  rewrite IH. by rewrite Nat.add_succ_r.
Qed.

Lemma for_upto_shift base n body w :
  for_upto n (fun i => body (base + i)) w = for_each (seq base n) body w.
Proof. unfold for_upto. by rewrite for_each_shift, Nat.add_0_r. Qed.

(** [runBatch] unfolds as the source reads. *)
Lemma runBatch_body stack_limit getTriangle batchLimit remainder batchCount w :
  runBatch stack_limit getTriangle batchLimit remainder batchCount w =
  if (stack_limit <=? batchCount)%nat then (Throw RangeError, w)
  else
    match (emit (EvRunBatch batchCount) ;;;
           for_upto PER_BATCH (fun i => getTriangle (PER_BATCH * batchCount + i))) w with
    | (Throw e, w1) => (Throw e, w1)
    | (Normal _, w1) =>
        if (S batchCount <? batchLimit)%nat then
          match runBatch stack_limit getTriangle batchLimit remainder (S batchCount) w1 with
          | (Normal _, w2) => emit EvSetTimeout w2
          | (Throw e, w2) => (Throw e, w2)
          end
        else
          (for_upto remainder (fun i => getTriangle (PER_BATCH * S batchCount + i)) ;;;
           display_triangles) w1
    end.
Proof.
  rewrite (runBatch_equation_1 _ _ _ _ batchCount w).
  destruct (stack_limit <=? batchCount)%nat;
    [unfold throw; by rewrite runBatch_clause_1_equation_2|].
  destruct ((emit (EvRunBatch batchCount) ;;;
             for_upto PER_BATCH (fun i => getTriangle (PER_BATCH * batchCount + i))) w)
    as [[a|e] w1]; [|by rewrite runBatch_clause_1_equation_2].
  rewrite runBatch_clause_1_equation_1.
  destruct (inspect (S batchCount <? batchLimit)%nat) as [[] H].
  - rewrite runBatch_clause_1_clause_2_equation_1, H. reflexivity.
  - rewrite runBatch_clause_1_clause_2_equation_2, H. reflexivity.
Qed.

(** ** Quiet steps *)

Lemma quiet_refl w : quiet w w.
Proof. by repeat split. Qed.

Lemma quiet_trans w1 w2 w3 : quiet w1 w2 -> quiet w2 w3 -> quiet w1 w3.
Proof.
  intros (?&?&?&?) (?&?&?&?). repeat split; congruence.
Qed.

Lemma displays_app w evs data :
  displays (ran data evs w)
  = displays w ++ omap (fun e => match e with EvDisplay d => Some d | _ => None end) evs.
Proof. unfold displays, ran; simpl. apply omap_app. Qed.

Lemma quiet_ran w data evs :
  omap (fun e => match e with EvDisplay d => Some d | _ => None end) evs = [] ->
  quiet w (ran data evs w).
Proof.
  intros H. repeat split. by rewrite displays_app, H, app_nil_r.
Qed.

Lemma ran_ran d1 e1 d2 e2 w : ran d2 e2 (ran d1 e1 w) = ran d2 (e1 ++ e2) w.
Proof. unfold ran; simpl. by rewrite app_assoc. Qed.

Lemma omap_map_GetTriangle l :
  omap (fun e => match e with EvGetTriangle i => Some i | _ => None end)
       (map EvGetTriangle l) = l.
Proof. induction l as [|i l IH]; simpl; [reflexivity|]. f_equal. exact IH. Qed.

Lemma omap_map_GetTriangle_batch l :
  omap (fun e => match e with EvRunBatch c => Some c | _ => None end)
       (map EvGetTriangle l) = [].
Proof. induction l; simpl; auto. Qed.

Lemma omap_GetTriangle l :
  omap (fun e => match e with EvDisplay d => Some d | _ => None end)
       (map EvGetTriangle l) = [].
Proof. induction l; simpl; auto. Qed.

(** ** Storing one triangle *)

Lemma length_cells triangle : length (cells triangle) = 9.
Proof. reflexivity. Qed.

Lemma length_flat_cells (triangle : nat -> list float32) l :
  length (flat_map (fun i => cells (triangle i)) l) = 9 * length l.
Proof.
  induction l as [|i l IH]; [reflexivity|].
  cbn [flat_map]. rewrite length_app, IH, length_cells. cbn [length]. lia.
Qed.

Lemma write9_beyond index triangle (data : list float32) :
  length data <= 9 * index -> write9 index triangle data = data.
Proof.
  intros H. unfold write9.
  rewrite !list_insert_ge; rewrite ?length_insert; auto; lia.
Qed.

Lemma write9_zeros index triangle (pre rest : list float32) :
  length pre = 9 * index ->
  write9 index triangle (pre ++ repeat F32_zero 9 ++ rest)
  = pre ++ cells triangle ++ rest.
Proof.
  intros H. unfold write9.
  replace (9 * index) with (length pre + 0) by lia.
  rewrite <- !Nat.add_assoc.
  rewrite !insert_app_r. reflexivity.
Qed.

Lemma filled_step triangle triCount k :
  write9 k (triangle k) (filled triangle triCount k) = filled triangle triCount (S k).
Proof.
  unfold filled. destruct (decide (k < triCount)) as [Hlt|Hge].
  - rewrite (Nat.min_l k), (Nat.min_l (S k)) by lia.
    replace (9 * (triCount - k)) with (9 + 9 * (triCount - S k)) by lia.
    rewrite repeat_app, write9_zeros.
    + rewrite seq_S, flat_map_app. cbn [flat_map Nat.add].
      by rewrite app_nil_r, <- app_assoc.
    + by rewrite length_flat_cells, length_seq.
  - rewrite (Nat.min_r k), (Nat.min_r (S k)) by lia.
    replace (triCount - k) with 0 by lia. replace (triCount - S k) with 0 by lia.
    apply write9_beyond.
    rewrite length_app, length_flat_cells, length_seq. simpl. lia.
Qed.

Lemma filled_start triangle triCount :
  filled triangle triCount 0 = repeat F32_zero (9 * triCount).
Proof. unfold filled. simpl. by rewrite Nat.sub_0_r. Qed.

Lemma filled_full triangle triCount k :
  triCount <= k ->
  filled triangle triCount k = flat_map (fun i => cells (triangle i)) (seq 0 triCount).
Proof.
  intros H. unfold filled. rewrite Nat.min_r by lia.
  replace (triCount - k) with 0 by lia. simpl. apply app_nil_r.
Qed.

(** ** The scheduler, for any [getTriangle] that stores nine cells *)

Section Scheduler.
Variable getTriangle : nat -> exec unit.
Variable triangle : nat -> list float32.
Variable ok : nat -> bool.
Variable triCount : nat.

Hypothesis getTriangle_returns : forall i w,
  ok i = true -> getTriangle i w = (Normal tt, put_triangle i (triangle i) w).
Hypothesis getTriangle_throws : forall i w,
  ok i = false -> exists e w', getTriangle i w = (Throw e, w') /\ quiet w w'.

Lemma for_each_returns n : forall m w,
  (forall i, m <= i < m + n -> ok i = true) ->
  triangleData w = filled triangle triCount m ->
  for_each (seq m n) getTriangle w
  = (Normal tt, ran (filled triangle triCount (m + n)) (map EvGetTriangle (seq m n)) w).
Proof.
  induction n as [|n IH]; intros m w Hok Hdata.
  - simpl. unfold ret, ran. rewrite Nat.add_0_r, app_nil_r, <- Hdata.
    by destruct w.
  - simpl. erewrite bind_normal; [|apply getTriangle_returns, Hok; lia].
    unfold put_triangle. rewrite Hdata, filled_step.
    rewrite IH; [|intros; apply Hok; lia|reflexivity].
    rewrite ran_ran. by rewrite Nat.add_succ_r.
Qed.

Lemma for_each_quiet l : forall w,
  quiet w (for_each l getTriangle w).2.
Proof.
  induction l as [|i l IH]; intros w; simpl.
  - apply quiet_refl.
  - unfold bind. destruct (ok i) eqn:Hi.
    + rewrite getTriangle_returns by done.
      eapply quiet_trans; [|apply IH].
      apply quiet_ran. reflexivity.
    + destruct (getTriangle_throws i w Hi) as (e & w' & -> & Hq). exact Hq.
Qed.

Lemma for_each_throws l : forall w,
  forallb ok l = false ->
  exists e w', for_each l getTriangle w = (Throw e, w').
Proof.
  induction l as [|i l IH]; intros w Hbad; simpl in *; [discriminate|].
  unfold bind. destruct (ok i) eqn:Hi.
  - rewrite getTriangle_returns by done. apply IH. exact Hbad.
  - destruct (getTriangle_throws i w Hi) as (e & w' & -> & _). eauto.
Qed.

Lemma for_each_returns_iff l w :
  forallb ok l = true -> exists w', for_each l getTriangle w = (Normal tt, w').
Proof.
  revert w. induction l as [|i l IH]; intros w Hall; simpl in *.
  - eexists. reflexivity.
  - apply andb_true_iff in Hall as [Hi Hl]. unfold bind.
    rewrite getTriangle_returns by done. by apply IH.
Qed.

Lemma emit_ran e w : emit e w = (Normal tt, ran (triangleData w) [e] w).
Proof. reflexivity. Qed.

Variable stack_limit : nat.
Variables batchLimit remainder : nat.

Lemma runBatch_returns more : forall batchCount w,
  S batchCount + more = max batchLimit 1 ->
  S batchCount + more <= stack_limit ->
  (forall i, i < PER_BATCH * (S batchCount + more) + remainder -> ok i = true) ->
  triangleData w = filled triangle triCount (PER_BATCH * batchCount) ->
  let final :=
    filled triangle triCount (PER_BATCH * (S batchCount + more) + remainder) in
  runBatch stack_limit getTriangle batchLimit remainder batchCount w
  = (Normal tt, ran final (batch_events remainder final more batchCount) w).
Proof.
  induction more as [|more IH]; intros c w Hc Hdeep Hok Hdata final;
    rewrite runBatch_body;
    replace (stack_limit <=? c)%nat with false by (symmetry; apply Nat.leb_gt; lia);
    (erewrite bind_normal; [|apply emit_ran]);
    rewrite for_upto_shift;
    (rewrite (for_each_returns PER_BATCH (PER_BATCH * c));
     [|intros; apply Hok; lia|exact Hdata]).
  - replace (S c <? batchLimit)%nat with false
      by (symmetry; apply Nat.ltb_ge; lia).
    unfold bind. rewrite for_upto_shift.
    rewrite (for_each_returns remainder (PER_BATCH * S c));
      [|intros; apply Hok; lia|cbn [triangleData ran]; f_equal; lia].
    unfold display_triangles. rewrite emit_ran. rewrite !ran_ran.
    cbn [triangleData ran]. subst final.
    replace (PER_BATCH * (S c + 0)) with (PER_BATCH * S c) by (f_equal; lia).
    cbn [batch_events]. rewrite <- ?app_assoc. reflexivity.
  - replace (S c <? batchLimit)%nat with true
      by (symmetry; apply Nat.ltb_lt; lia).
    rewrite (IH (S c)).
    + rewrite emit_ran, !ran_ran. cbn [triangleData ran]. subst final.
      replace (S (S c) + more) with (S c + S more) by lia.
      cbn [batch_events]. rewrite <- ?app_assoc. reflexivity.
    + lia.
    + lia.
    + intros; apply Hok; lia.
    + cbn [triangleData ran]. f_equal. lia.
Qed.

Lemma runBatch_throws more : forall batchCount w,
  S batchCount + more = max batchLimit 1 ->
  stack_limit < S batchCount + more
  \/ forallb ok (seq (PER_BATCH * batchCount)
                     (PER_BATCH * S more + remainder)) = false ->
  exists e w', runBatch stack_limit getTriangle batchLimit remainder batchCount w
               = (Throw e, w').
Proof.
  induction more as [|more IH]; intros c w Hc Hbad;
    rewrite runBatch_body;
    (destruct (Nat.leb_spec stack_limit c) as [Hfull|Hroom]; [by eauto|]);
    (erewrite bind_normal; [|apply emit_ran]);
    rewrite for_upto_shift;
    destruct (forallb ok (seq (PER_BATCH * c) PER_BATCH)) eqn:Hfirst;
    try (destruct (for_each_throws _ (ran (triangleData w) [EvRunBatch c] w) Hfirst)
           as (e & w' & ->); by eauto).
  - destruct Hbad as [Hdeep|Hbad]; [lia|].
    destruct (for_each_returns_iff _ (ran (triangleData w) [EvRunBatch c] w) Hfirst)
      as [w1 ->].
    replace (S c <? batchLimit)%nat with false
      by (symmetry; apply Nat.ltb_ge; lia).
    unfold bind. rewrite for_upto_shift.
    replace (PER_BATCH * 1 + remainder) with (PER_BATCH + remainder) in Hbad by lia.
    rewrite seq_app, forallb_app, Hfirst in Hbad. cbn [andb] in Hbad.
    replace (PER_BATCH * c + PER_BATCH) with (PER_BATCH * S c) in Hbad by lia.
    destruct (for_each_throws _ w1 Hbad) as (e & w' & ->). eauto.
  - destruct (for_each_returns_iff _ (ran (triangleData w) [EvRunBatch c] w) Hfirst)
      as [w1 ->].
    replace (S c <? batchLimit)%nat with true
      by (symmetry; apply Nat.ltb_lt; lia).
    destruct (IH (S c) w1) as (e & w' & ->); [lia| |by eauto].
    destruct Hbad as [Hdeep|Hbad]; [left; lia|right].
    replace (PER_BATCH * S (S more) + remainder)
      with (PER_BATCH + (PER_BATCH * S more + remainder)) in Hbad by lia.
    rewrite seq_app, forallb_app, Hfirst in Hbad. cbn [andb] in Hbad.
    replace (PER_BATCH * c + PER_BATCH) with (PER_BATCH * S c) in Hbad by lia.
    exact Hbad.
Qed.

(** Whatever it does, a [runBatch] that throws has displayed nothing. *)
Lemma runBatch_throw_quiet more : forall batchCount w e w',
  batchLimit - S batchCount <= more ->
  runBatch stack_limit getTriangle batchLimit remainder batchCount w = (Throw e, w') ->
  quiet w w'.
Proof.
  induction more as [|more IH]; intros c w e w' Hc;
    rewrite runBatch_body;
    (destruct (stack_limit <=? c)%nat; [intros [= <- <-]; apply quiet_refl|]);
    (erewrite bind_normal; [|apply emit_ran]);
    rewrite for_upto_shift;
    pose proof (for_each_quiet (seq (PER_BATCH * c) PER_BATCH)
                  (ran (triangleData w) [EvRunBatch c] w)) as Hq;
    destruct (for_each _ getTriangle (ran (triangleData w) [EvRunBatch c] w))
      as [[[]|e1] w1]; simpl in Hq;
    assert (Hq1 : quiet w w1)
      by (eapply quiet_trans; [|exact Hq]; apply quiet_ran; reflexivity).
  - replace (S c <? batchLimit)%nat with false
      by (symmetry; apply Nat.ltb_ge; lia).
    unfold bind. rewrite for_upto_shift.
    pose proof (for_each_quiet (seq (PER_BATCH * S c) remainder) w1) as Hq2.
    destruct (for_each _ getTriangle w1) as [[[]|e2] w2]; simpl in Hq2.
    + unfold display_triangles. rewrite emit_ran. discriminate.
    + intros [= <- <-]. eapply quiet_trans; eassumption.
  - intros [= <- <-]. exact Hq1.
  - destruct (S c <? batchLimit)%nat eqn:Hlt.
    + destruct (runBatch stack_limit getTriangle batchLimit remainder (S c) w1)
        as [[[]|e2] w2] eqn:Hrec.
      * rewrite emit_ran. discriminate.
      * intros [= <- <-]. eapply quiet_trans; [exact Hq1|].
        eapply IH; [|exact Hrec]. lia.
    + unfold bind. rewrite for_upto_shift.
      pose proof (for_each_quiet (seq (PER_BATCH * S c) remainder) w1) as Hq2.
      destruct (for_each _ getTriangle w1) as [[[]|e2] w2]; simpl in Hq2.
      * unfold display_triangles. rewrite emit_ran. discriminate.
      * intros [= <- <-]. eapply quiet_trans; eassumption.
  - intros [= <- <-]. exact Hq1.
Qed.
End Scheduler.

(** ** The body of the [try] block *)

Lemma triCount_arith (n : Z) :
  (0 <= n)%Z ->
  Z.to_nat (n / Z.of_nat PER_BATCH) = Z.to_nat n / PER_BATCH
  /\ Z.to_nat (n - n / Z.of_nat PER_BATCH * Z.of_nat PER_BATCH)
     = Z.to_nat n mod PER_BATCH
  /\ Z.to_nat (n * 9) = 9 * Z.to_nat n.
Proof.
  intros Hn. set (k := Z.to_nat n).
  assert (Hk : n = Z.of_nat k) by lia. clearbody k. subst n.
  rewrite <- Nat2Z.inj_div, !Nat2Z.id.
  repeat split; [|lia].
  rewrite <- Nat2Z.inj_mul, <- Nat2Z.inj_sub, Nat2Z.id.
  - rewrite (Nat.div_mod_eq k PER_BATCH) at 1. lia.
  - rewrite Nat.mul_comm. apply Nat.Div0.mul_div_le.
Qed.

Lemma triCount_visited k : k <= visited k.
Proof.
  unfold visited. rewrite (Nat.div_mod_eq k PER_BATCH) at 1.
  assert (PER_BATCH * (k / PER_BATCH) <= PER_BATCH * max (k / PER_BATCH) 1)
    by (apply Nat.mul_le_mono_l; lia).
  lia.
Qed.

Section Parse.
Variable array_limit : Z.
Variable stack_limit : nat.
Variable getTriangle : nat -> exec unit.
Variable triangle : nat -> list float32.
Variable ok : nat -> bool.

Hypothesis getTriangle_returns : forall i w,
  ok i = true -> getTriangle i w = (Normal tt, put_triangle i (triangle i) w).
Hypothesis getTriangle_throws : forall i w,
  ok i = false -> exists e w', getTriangle i w = (Throw e, w') /\ quiet w w'.

Lemma new_triangleData_returns n w :
  (0 <= n <= array_limit)%Z ->
  new_triangleData array_limit n w
  = (Normal tt, ran (repeat F32_zero (Z.to_nat n)) [] w).
Proof.
  intros Hn. unfold new_triangleData, ran.
  replace ((n <? 0) || (array_limit <? n))%Z with false.
  - by rewrite app_nil_r.
  - symmetry. apply orb_false_iff. split; apply Z.ltb_ge; lia.
Qed.

Lemma new_triangleData_throws n w :
  (n < 0 \/ array_limit < n)%Z ->
  new_triangleData array_limit n w = (Throw RangeError, w).
Proof.
  intros Hn. unfold new_triangleData.
  replace ((n <? 0) || (array_limit <? n))%Z with true; [reflexivity|].
  symmetry. apply orb_true_iff. destruct Hn; [left|right]; by apply Z.ltb_lt.
Qed.

Lemma parse_triangles_returns (n : Z) w :
  (0 <= n)%Z -> (n * 9 <= array_limit)%Z ->
  depth (Z.to_nat n) <= stack_limit ->
  forallb ok (seq 0 (visited (Z.to_nat n))) = true ->
  let final := flat_map (fun i => cells (triangle i)) (seq 0 (Z.to_nat n)) in
  parse_triangles array_limit stack_limit getTriangle n w
  = (Normal tt, ran final (parse_events (Z.to_nat n) final) w).
Proof.
  intros Hn Hlimit Hdeep Hok final. unfold parse_triangles. unfold depth in Hdeep.
  destruct (triCount_arith n Hn) as (-> & -> & Hnine).
  erewrite bind_normal; [|apply new_triangleData_returns; lia].
  rewrite Hnine.
  pose proof (runBatch_returns getTriangle triangle ok (Z.to_nat n)
                getTriangle_returns stack_limit (Z.to_nat n / PER_BATCH)
                (Z.to_nat n mod PER_BATCH)
                (max (Z.to_nat n / PER_BATCH) 1 - 1) 0
                (ran (repeat F32_zero (9 * Z.to_nat n)) [] w)) as Hrun.
  cbv zeta in Hrun. rewrite Hrun; clear Hrun.
  - rewrite ran_ran, app_nil_l. unfold parse_events.
    replace (1 + (max (Z.to_nat n / PER_BATCH) 1 - 1))
      with (max (Z.to_nat n / PER_BATCH) 1) by lia.
    fold (visited (Z.to_nat n)).
    rewrite filled_full by apply triCount_visited. reflexivity.
  - lia.
  - lia.
  - intros i Hi. rewrite forallb_forall in Hok. apply Hok.
    apply in_seq. unfold visited.
    replace (1 + (max (Z.to_nat n / PER_BATCH) 1 - 1))
      with (max (Z.to_nat n / PER_BATCH) 1) in Hi by lia.
    lia.
  - cbn [triangleData ran]. rewrite Nat.mul_0_r. symmetry. apply filled_start.
Qed.

Lemma parse_triangles_throws (n : Z) w :
  (n < 0)%Z \/ (array_limit < n * 9)%Z
  \/ stack_limit < depth (Z.to_nat n)
  \/ forallb ok (seq 0 (visited (Z.to_nat n))) = false ->
  exists e w', parse_triangles array_limit stack_limit getTriangle n w = (Throw e, w').
Proof.
  intros Hbad. unfold parse_triangles.
  destruct (decide (0 <= n <= array_limit / 9)%Z) as [Hin|Hout].
  - assert (n * 9 <= array_limit)%Z
      by (pose proof (Z.mul_div_le array_limit 9); lia).
    destruct Hbad as [?|[?|Hbad]]; [lia|lia|]. unfold depth in Hbad.
    destruct (triCount_arith n (proj1 Hin)) as (-> & -> & Hnine).
    erewrite bind_normal; [|apply new_triangleData_returns; lia].
    eapply (runBatch_throws getTriangle triangle ok getTriangle_returns
              getTriangle_throws stack_limit _ _
              (max (Z.to_nat n / PER_BATCH) 1 - 1) 0).
    + lia.
    + rewrite Nat.mul_0_r.
      replace (S (max (Z.to_nat n / PER_BATCH) 1 - 1))
        with (max (Z.to_nat n / PER_BATCH) 1) by lia.
      destruct Hbad as [Hdeep|Hbad]; [left; lia|right; exact Hbad].
  - exists RangeError, w. apply bind_throw, new_triangleData_throws.
    destruct (decide (n < 0)%Z); [left; lia|right].
    apply Z.nle_gt. intros Hle. apply Hout. split; [lia|].
    apply Z.div_le_lower_bound; lia.
Qed.

Lemma parse_triangles_throw_quiet (n : Z) w e w' :
  parse_triangles array_limit stack_limit getTriangle n w = (Throw e, w') -> quiet w w'.
Proof.
  unfold parse_triangles, bind.
  destruct (new_triangleData array_limit (n * 9) w) as [[[]|e1] w1] eqn:Hnew.
  - intros Hrun.
    apply (runBatch_throw_quiet getTriangle triangle ok getTriangle_returns
             getTriangle_throws _ _ _ _ _ _ _ _ (Nat.le_refl _)) in Hrun.
    eapply quiet_trans; [|exact Hrun].
    unfold new_triangleData in Hnew.
    destruct ((n * 9 <? 0) || (array_limit <? n * 9))%Z; [discriminate|].
    injection Hnew as <-. by repeat split.
  - unfold new_triangleData in Hnew.
    destruct ((n * 9 <? 0) || (array_limit <? n * 9))%Z; [|discriminate].
    injection Hnew as <- <-. intros [= <- <-]. apply quiet_refl.
Qed.
End Parse.

(** ** [getTriangle] of [stl_ascii] *)

Lemma getTriangle_ascii_returns splice i w :
  lines_ok splice i = true ->
  getTriangle_ascii splice i w
  = (Normal tt, put_triangle i (ascii_triangle splice i) w).
Proof.
  unfold lines_ok. intros Hok%Nat.ltb_lt.
  destruct (lookup_lt_is_Some_2 splice (3 + 7 * i)) as [s1 H1]; [lia|].
  destruct (lookup_lt_is_Some_2 splice (4 + 7 * i)) as [s2 H2]; [lia|].
  destruct (lookup_lt_is_Some_2 splice (5 + 7 * i)) as [s3 H3]; [lia|].
  unfold getTriangle_ascii, ascii_triangle. rewrite H1, H2, H3.
  reflexivity.
Qed.

Lemma getTriangle_ascii_throws splice i w :
  lines_ok splice i = false ->
  exists e w', getTriangle_ascii splice i w = (Throw e, w') /\ quiet w w'.
Proof.
  unfold lines_ok. intros Hbad%Nat.ltb_ge.
  exists TypeError, (ran (triangleData w) [EvGetTriangle i] w).
  split; [|by apply quiet_ran].
  unfold getTriangle_ascii.
  destruct (splice !! (3 + 7 * i)) as [s1|] eqn:H1; [|reflexivity].
  destruct (splice !! (4 + 7 * i)) as [s2|] eqn:H2; [|reflexivity].
  destruct (splice !! (5 + 7 * i)) as [s3|] eqn:H3; [|reflexivity].
  apply lookup_lt_Some in H3. lia.
Qed.


Lemma length_flat_ascii splice l :
  length (flat_map (ascii_triangle splice) l) = 9 * length l.
Proof.
  induction l as [|i l IH]; [reflexivity|].
  cbn [flat_map]. rewrite length_app, IH. cbn [length ascii_triangle]. lia.
Qed.

(** ** [getTriangle] of [stl_binary] *)

Lemma elements4_spec {A : Type} (decode : byte -> byte -> byte -> byte -> A) n :
  forall buffer, length buffer <= n ->
    if (length buffer mod 4 =? 0)%nat
    then exists l, elements4 decode buffer = Normal l /\ 4 * length l = length buffer
    else elements4 decode buffer = Throw RangeError.
Proof.
  induction n as [|n IH]; intros buffer Hlen.
  - destruct buffer; [|simpl in Hlen; lia]. simpl. by exists [].
  - destruct buffer as [|b0 [|b1 [|b2 [|b3 rest]]]]; try reflexivity.
    + simpl. by exists [].
    + specialize (IH rest). cbn [length] in *.
      replace (S (S (S (S (length rest)))) mod 4) with (length rest mod 4)
        by (rewrite <- (Nat.Div0.mod_add (length rest) 1 4); f_equal; lia).
      cbn [elements4].
      destruct (length rest mod 4 =? 0)%nat.
      * destruct IH as (l & -> & Hl); [lia|].
        exists (decode b0 b1 b2 b3 :: l). split; [reflexivity|simpl; lia].
      * rewrite IH by lia. reflexivity.
Qed.

Lemma getTriangle_binary_returns buffer i w :
  window_ok buffer i = true ->
  getTriangle_binary buffer i w
  = (Normal tt, put_triangle i (binary_triangle buffer i) w).
Proof.
  unfold window_ok, getTriangle_binary, binary_triangle, Float32Array_over.
  intros Hok.
  pose proof (elements4_spec F32_of_bytes _
                (slice buffer (96 + 50 * i) (132 + 50 * i)) (Nat.le_refl _)) as H.
  rewrite Hok in H. destruct H as (l & -> & _). reflexivity.
Qed.

Lemma getTriangle_binary_throws buffer i w :
  window_ok buffer i = false ->
  exists e w', getTriangle_binary buffer i w = (Throw e, w') /\ quiet w w'.
Proof.
  unfold window_ok, getTriangle_binary, Float32Array_over.
  intros Hbad.
  pose proof (elements4_spec F32_of_bytes _
                (slice buffer (96 + 50 * i) (132 + 50 * i)) (Nat.le_refl _)) as H.
  rewrite Hbad in H.
  exists RangeError, (ran (triangleData w) [EvGetTriangle i] w).
  split; [|by apply quiet_ran].
  unfold bind, emit, lift. cbn [fst snd]. rewrite H. reflexivity.
Qed.

(** ** The [try] block of [stl_ascii] *)

Lemma visited_small k : k < PER_BATCH -> visited k = PER_BATCH + k.
Proof.
  intros H. unfold visited.
  rewrite Nat.div_small, Nat.mod_small by exact H. simpl Nat.max. lia.
Qed.

Lemma visited_large k : PER_BATCH <= k -> visited k = k.
Proof.
  intros H. unfold visited.
  assert (1 <= k / PER_BATCH)
    by (apply Nat.div_le_lower_bound; unfold PER_BATCH in *; lia).
  rewrite Nat.max_l by lia. symmetry. apply Nat.div_mod_eq.
Qed.

Lemma ascii_lines (text : string) :
  ((Z.of_nat (length (split newline text)) - 3) mod 7 =? 0)%Z = true ->
  (0 <= ascii_count text)%Z
  /\ length (split newline text) = 7 * Z.to_nat (ascii_count text) + 3.
Proof.
  unfold ascii_count. intros H%Z.eqb_eq.
  zify. Z.div_mod_to_equations. lia.
Qed.

Lemma ascii_try_outcome array_limit stack_limit text w :
  let splice := split newline text in
  let triCount := Z.to_nat (ascii_count text) in
  let final := flat_map (ascii_triangle splice) (seq 0 triCount) in
  if ascii_fails array_limit stack_limit text
  then exists e w', ascii_try array_limit stack_limit text w = (Throw e, w') /\ quiet w w'
  else ascii_try array_limit stack_limit text w
       = (Normal tt, ran final (parse_events triCount final) w).
Proof.
  intros splice triCount final.
  unfold ascii_fails, ascii_try, ascii_triCount. fold splice.
  destruct ((Z.of_nat (length splice) - 3) mod 7 =? 0)%Z eqn:Hmod; cbn [negb].
  2:{ exists IllegalParse, w. split; [reflexivity|apply quiet_refl]. }
  destruct (ascii_lines text Hmod) as [Hpos Hlen]. fold splice triCount in Hlen.
  erewrite bind_normal; [|reflexivity].
  change ((Z.of_nat (length splice) - 3) / 7)%Z with (ascii_count text).
  assert (Hquiet : forall e w',
    parse_triangles array_limit stack_limit (getTriangle_ascii splice) (ascii_count text) w
    = (Throw e, w') -> quiet w w').
  { intros e w'.
    apply (parse_triangles_throw_quiet array_limit stack_limit (getTriangle_ascii splice)
             (ascii_triangle splice) (lines_ok splice)
             (getTriangle_ascii_returns splice) (getTriangle_ascii_throws splice)). }
  assert (Hthrows : forall P : Prop, P ->
    (P -> (ascii_count text < 0)%Z \/ (array_limit < ascii_count text * 9)%Z
          \/ stack_limit < depth triCount
          \/ forallb (lines_ok splice) (seq 0 (visited triCount)) = false) ->
    exists e w',
      parse_triangles array_limit stack_limit (getTriangle_ascii splice) (ascii_count text) w
      = (Throw e, w') /\ quiet w w').
  { intros P HP Hbad.
    destruct (parse_triangles_throws array_limit stack_limit (getTriangle_ascii splice)
                (ascii_triangle splice) (lines_ok splice)
                (getTriangle_ascii_returns splice) (getTriangle_ascii_throws splice)
                (ascii_count text) w (Hbad HP)) as (e & w' & Hrun).
    exists e, w'. split; [exact Hrun|]. eapply Hquiet, Hrun. }
  destruct (ascii_count text <? Z.of_nat PER_BATCH)%Z eqn:Hsmall.
  - apply Z.ltb_lt in Hsmall.
    apply (Hthrows True I). intros _. right. right. right.
    apply not_true_is_false. intros Hall. rewrite forallb_forall in Hall.
    specialize (Hall triCount). unfold lines_ok in Hall.
    rewrite visited_small, in_seq, Nat.ltb_lt in Hall by (subst triCount; lia).
    lia.
  - apply Z.ltb_ge in Hsmall.
    destruct (array_limit <? ascii_count text * 9)%Z eqn:Hlimit.
    + apply Z.ltb_lt in Hlimit. apply (Hthrows True I). intros _. right. by left.
    + apply Z.ltb_ge in Hlimit. fold triCount.
      destruct (Nat.ltb_spec stack_limit (depth triCount)) as [Hdeep|Hdeep].
      { apply (Hthrows True I). intros _. right. right. by left. }
      rewrite (parse_triangles_returns array_limit stack_limit (getTriangle_ascii splice)
                 (ascii_triangle splice) (lines_ok splice)
                 (getTriangle_ascii_returns splice)); [reflexivity|lia|lia|exact Hdeep|].
      apply forallb_forall. intros i Hi%in_seq. unfold lines_ok.
      fold triCount in Hi. rewrite visited_large in Hi by (subst triCount; lia).
      apply Nat.ltb_lt. lia.
Qed.

(** ** The [try] block of [stl_binary] *)

Lemma uint32_le_nonneg b0 b1 b2 b3 : (0 <= uint32_le b0 b1 b2 b3)%Z.
Proof. unfold uint32_le. lia. Qed.

Lemma elements4_head {A : Type} (decode : byte -> byte -> byte -> byte -> A)
    buffer x l :
  elements4 decode buffer = Normal (x :: l) ->
  exists b0 b1 b2 b3 rest,
    buffer = b0 :: b1 :: b2 :: b3 :: rest /\ x = decode b0 b1 b2 b3.
Proof.
  destruct buffer as [|b0 [|b1 [|b2 [|b3 rest]]]]; try discriminate.
  cbn [elements4]. destruct (elements4 decode rest); [|discriminate].
  intros [= <- <-]. by exists b0, b1, b2, b3, rest.
Qed.

Lemma binary_try_outcome array_limit stack_limit buffer w :
  let triCount := Z.to_nat (binary_count buffer) in
  let final :=
    flat_map (fun i => cells (binary_triangle buffer i)) (seq 0 triCount) in
  if binary_fails array_limit stack_limit buffer
  then exists e w', binary_try array_limit stack_limit buffer w = (Throw e, w') /\ quiet w w'
  else binary_try array_limit stack_limit buffer w
       = (Normal tt, ran final (parse_events triCount final) w).
Proof.
  intros triCount final. subst triCount final.
  unfold binary_fails, binary_count, binary_try, binary_triCount.
  destruct (Uint32Array_over (slice buffer 80 84)) as [[|n counts]|e] eqn:Hcounts.
  - exists IllegalParse, w. split; [|apply quiet_refl].
    unfold bind, lift. reflexivity.
  - assert (0 <= n)%Z as Hpos.
    { apply elements4_head in Hcounts as (b0 & b1 & b2 & b3 & rest & _ & ->).
      apply uint32_le_nonneg. }
    unfold bind at 1. unfold bind at 1. unfold lift. cbn [lookup list_lookup ret].
    destruct (array_limit <? n * 9)%Z eqn:Hlimit.
    + apply Z.ltb_lt in Hlimit.
      destruct (parse_triangles_throws array_limit stack_limit (getTriangle_binary buffer)
                  (binary_triangle buffer) (window_ok buffer)
                  (getTriangle_binary_returns buffer)
                  (getTriangle_binary_throws buffer) n w)
        as (e & w' & Hthrow); [right; by left|].
      exists e, w'. split; [exact Hthrow|].
      eapply (parse_triangles_throw_quiet array_limit stack_limit (getTriangle_binary buffer)
                (binary_triangle buffer) (window_ok buffer)
                (getTriangle_binary_returns buffer)
                (getTriangle_binary_throws buffer)), Hthrow.
    + apply Z.ltb_ge in Hlimit.
      destruct (Nat.ltb_spec stack_limit (depth (Z.to_nat n))) as [Hdeep|Hdeep].
      { destruct (parse_triangles_throws array_limit stack_limit
                    (getTriangle_binary buffer)
                    (binary_triangle buffer) (window_ok buffer)
                    (getTriangle_binary_returns buffer)
                    (getTriangle_binary_throws buffer) n w)
          as (e & w' & Hthrow); [right; right; by left|].
        exists e, w'. split; [exact Hthrow|].
        eapply (parse_triangles_throw_quiet array_limit stack_limit
                  (getTriangle_binary buffer)
                  (binary_triangle buffer) (window_ok buffer)
                  (getTriangle_binary_returns buffer)
                  (getTriangle_binary_throws buffer)), Hthrow. }
      destruct (forallb (window_ok buffer) (seq 0 (visited (Z.to_nat n)))) eqn:Hall;
        cbn [negb].
      * apply (parse_triangles_returns array_limit stack_limit (getTriangle_binary buffer)
                 (binary_triangle buffer) (window_ok buffer)
                 (getTriangle_binary_returns buffer));
          [exact Hpos|exact Hlimit|exact Hdeep|exact Hall].
      * destruct (parse_triangles_throws array_limit stack_limit (getTriangle_binary buffer)
                    (binary_triangle buffer) (window_ok buffer)
                    (getTriangle_binary_returns buffer)
                    (getTriangle_binary_throws buffer) n w)
          as (e & w' & Hthrow); [right; right; by right|].
        exists e, w'. split; [exact Hthrow|].
        eapply (parse_triangles_throw_quiet array_limit stack_limit (getTriangle_binary buffer)
                  (binary_triangle buffer) (window_ok buffer)
                  (getTriangle_binary_returns buffer)
                  (getTriangle_binary_throws buffer)), Hthrow.
  - exists e, w. split; [|apply quiet_refl].
    unfold bind, lift. reflexivity.
Qed.

(** ** The handlers *)

Lemma onload_ascii_fails array_limit stack_limit data w :
  ascii_fails array_limit stack_limit (readAsText data) = true ->
  exists w',
    onload_ascii array_limit stack_limit data w = (Normal tt, w')
    /\ fell_back (mkViewer true (attemptedBINARY_STL (viewer w)))
                 (if attemptedBINARY_STL (viewer w) then [] else [ReadBinary data])
                 w w'.
Proof.
  intros Hfails.
  pose proof (ascii_try_outcome array_limit stack_limit (readAsText data) w) as H.
  cbv zeta in H. rewrite Hfails in H.
  destruct H as (e & w1 & Htry & Hv & Hp & Hu & Hd).
  unfold onload_ascii, try_catch. rewrite Htry.
  unfold bind, mark_ascii, stl_binary. cbn [viewer attemptedBINARY_STL].
  rewrite Hv. destruct (attemptedBINARY_STL (viewer w)).
  - eexists. split; [reflexivity|].
    unfold fell_back, displays in *. cbn. by rewrite app_nil_r.
  - eexists. split; [reflexivity|].
    unfold fell_back, displays in *. cbn. by rewrite Hp.
Qed.

Lemma onload_binary_fails array_limit stack_limit data w :
  binary_fails array_limit stack_limit data = true ->
  exists w',
    onload_binary array_limit stack_limit data w = (Normal tt, w')
    /\ fell_back (mkViewer (attemptedASCII_STL (viewer w)) true)
                 (if attemptedASCII_STL (viewer w) then [] else [ReadAscii data])
                 w w'.
Proof.
  intros Hfails.
  pose proof (binary_try_outcome array_limit stack_limit data w) as H.
  cbv zeta in H. rewrite Hfails in H.
  destruct H as (e & w1 & Htry & Hv & Hp & Hu & Hd).
  unfold onload_binary, try_catch. rewrite Htry.
  unfold bind, mark_binary, stl_ascii. cbn [viewer attemptedASCII_STL].
  rewrite Hv. destruct (attemptedASCII_STL (viewer w)).
  - eexists. split; [reflexivity|].
    unfold fell_back, displays in *. cbn. by rewrite app_nil_r.
  - eexists. split; [reflexivity|].
    unfold fell_back, displays in *. cbn. by rewrite Hp.
Qed.

Lemma onload_ascii_returns array_limit stack_limit data w :
  ascii_fails array_limit stack_limit (readAsText data) = false ->
  let splice := split newline (readAsText data) in
  let triCount := Z.to_nat (ascii_count (readAsText data)) in
  let final := flat_map (ascii_triangle splice) (seq 0 triCount) in
  onload_ascii array_limit stack_limit data w
  = (Normal tt, ran final (parse_events triCount final) w).
Proof.
  intros Hfails.
  pose proof (ascii_try_outcome array_limit stack_limit (readAsText data) w) as H.
  cbv zeta in *. rewrite Hfails in H.
  unfold onload_ascii, try_catch. by rewrite H.
Qed.

Lemma onload_binary_returns array_limit stack_limit data w :
  binary_fails array_limit stack_limit data = false ->
  let triCount := Z.to_nat (binary_count data) in
  let final := flat_map (fun i => cells (binary_triangle data i)) (seq 0 triCount) in
  onload_binary array_limit stack_limit data w
  = (Normal tt, ran final (parse_events triCount final) w).
Proof.
  intros Hfails.
  pose proof (binary_try_outcome array_limit stack_limit data w) as H.
  cbv zeta in *. rewrite Hfails in H.
  unfold onload_binary, try_catch. by rewrite H.
Qed.

(** ** Reading floats out of a record *)

Lemma lookup_flat_cells (triangle : nat -> list float32) n : forall i k,
  i < n -> k < 9 ->
  flat_map (fun i => cells (triangle i)) (seq 0 n) !! (9 * i + k)
  = Some (float_at (triangle i) k).
Proof.
  induction n as [|n IH]; intros i k Hi Hk; [lia|].
  rewrite seq_S, flat_map_app. cbn [flat_map Nat.add]. rewrite app_nil_r.
  destruct (decide (i < n)) as [Hlt|Hge].
  - rewrite lookup_app_l by (rewrite length_flat_cells, length_seq; lia).
    by apply IH.
  - assert (i = n) as -> by lia.
    rewrite lookup_app_r by (rewrite length_flat_cells, length_seq; lia).
    rewrite length_flat_cells, length_seq.
    replace (9 * n + k - 9 * n) with k by lia.
    unfold cells. rewrite list_lookup_fmap, lookup_seq_lt by lia. reflexivity.
Qed.

Lemma elements4_lookup {A : Type} (decode : byte -> byte -> byte -> byte -> A) k :
  forall buffer l b0 b1 b2 b3,
  elements4 decode buffer = Normal l ->
  buffer !! (4 * k) = Some b0 -> buffer !! (4 * k + 1) = Some b1 ->
  buffer !! (4 * k + 2) = Some b2 -> buffer !! (4 * k + 3) = Some b3 ->
  l !! k = Some (decode b0 b1 b2 b3).
Proof.
  induction k as [|k IH]; intros buffer l b0 b1 b2 b3 Hl H0 H1 H2 H3;
    destruct buffer as [|c0 [|c1 [|c2 [|c3 rest]]]]; try discriminate;
    cbn [elements4] in Hl;
    destruct (elements4 decode rest) as [l'|] eqn:Hrest; try discriminate;
    injection Hl as <-.
  - cbn in *. congruence.
  - replace (4 * S k) with (S (S (S (S (4 * k))))) in * by lia.
    cbn in H0, H1, H2, H3. cbn. eapply IH; eauto.
Qed.

Lemma lookup_slice (buffer : blob) start end_ j :
  j < end_ - start -> slice buffer start end_ !! j = buffer !! (start + j).
Proof.
  intros Hj. unfold slice. rewrite lookup_take_lt by exact Hj. apply lookup_drop.
Qed.

Lemma length_slice (buffer : blob) start end_ :
  length (slice buffer start end_) = min (end_ - start) (length buffer - start).
Proof. unfold slice. by rewrite length_take, length_drop. Qed.

(** A window that lies inside the buffer is read float by float. *)
Lemma binary_triangle_whole buffer i k :
  132 + 50 * i <= length buffer -> k < 9 ->
  window_ok buffer i = true
  /\ f32_at buffer (84 + 50 * i + 12 + 4 * k)
     = Some (float_at (binary_triangle buffer i) k).
Proof.
  intros Hlen Hk.
  assert (Hwin : length (slice buffer (96 + 50 * i) (132 + 50 * i)) = 36)
    by (rewrite length_slice; lia).
  assert (Hok : window_ok buffer i = true) by (unfold window_ok; by rewrite Hwin).
  split; [exact Hok|].
  pose proof (elements4_spec F32_of_bytes _
                (slice buffer (96 + 50 * i) (132 + 50 * i)) (Nat.le_refl _)) as H.
  rewrite Hwin in H. change (36 mod 4 =? 0)%nat with true in H. cbv iota in H.
  destruct H as (l & Hl & Hlen_l).
  unfold binary_triangle, Float32Array_over. rewrite Hl.
  assert (Hget : forall t, t < 4 -> exists b,
            buffer !! (84 + 50 * i + 12 + 4 * k + t) = Some b
            /\ slice buffer (96 + 50 * i) (132 + 50 * i) !! (4 * k + t) = Some b).
  { intros t Ht.
    destruct (lookup_lt_is_Some_2 buffer (84 + 50 * i + 12 + 4 * k + t)) as [b Hb];
      [lia|].
    exists b. split; [exact Hb|].
    rewrite lookup_slice by lia. rewrite <- Hb. f_equal. lia. }
  destruct (Hget 0) as (b0 & Hb0 & Hs0); [lia|].
  destruct (Hget 1) as (b1 & Hb1 & Hs1); [lia|].
  destruct (Hget 2) as (b2 & Hb2 & Hs2); [lia|].
  destruct (Hget 3) as (b3 & Hb3 & Hs3); [lia|].
  rewrite Nat.add_0_r in Hb0, Hs0.
  unfold f32_at, float_at. rewrite Hb0, Hb1, Hb2, Hb3.
  by rewrite (elements4_lookup F32_of_bytes k _ _ b0 b1 b2 b3 Hl Hs0 Hs1 Hs2 Hs3).
Qed.

(** A window that starts at or after the end of the buffer is empty. *)
Lemma window_ok_beyond buffer i :
  length buffer <= 96 + 50 * i -> window_ok buffer i = true.
Proof.
  intros H. unfold window_ok. rewrite length_slice.
  replace (length buffer - (96 + 50 * i)) with 0 by lia.
  by rewrite Nat.min_0_r.
Qed.

(** ** Whole files *)

Lemma displays_batch_events remainder final more : forall batchCount,
  omap (fun e => match e with EvDisplay d => Some d | _ => None end)
       (batch_events remainder final more batchCount)
  = [Display final None None None None].
Proof.
  induction more as [|more IH]; intros c; cbn [batch_events];
    change (EvRunBatch c :: ?l) with ([EvRunBatch c] ++ l);
    rewrite !omap_app, !omap_GetTriangle.
  - reflexivity.
  - rewrite IH. reflexivity.
Qed.

Lemma displays_parse w triCount final :
  displays (ran final (parse_events triCount final) w)
  = displays w ++ [Display final None None None None].
Proof.
  rewrite displays_app. unfold parse_events. by rewrite displays_batch_events.
Qed.

Lemma binary_reads_count (data : blob) :
  84 <= length data ->
  exists b0 b1 b2 b3,
    data !! 80 = Some b0 /\ data !! 81 = Some b1
    /\ data !! 82 = Some b2 /\ data !! 83 = Some b3
    /\ Uint32Array_over (slice data 80 84) = Normal [uint32_le b0 b1 b2 b3].
Proof.
  intros Hlen.
  assert (Hs : length (slice data 80 84) = 4) by (rewrite length_slice; lia).
  destruct (slice data 80 84) as [|b0 [|b1 [|b2 [|b3 [|]]]]] eqn:Hslice;
    try discriminate.
  exists b0, b1, b2, b3.
  pose proof (lookup_slice data 80 84 0) as H0.
  pose proof (lookup_slice data 80 84 1) as H1.
  pose proof (lookup_slice data 80 84 2) as H2.
  pose proof (lookup_slice data 80 84 3) as H3.
  rewrite Hslice in H0, H1, H2, H3. cbn in H0, H1, H2, H3.
  repeat split; try (symmetry; auto with lia). 
Qed.

Lemma binary_count_at (data : blob) b0 b1 b2 b3 :
  data !! 80 = Some b0 -> data !! 81 = Some b1 ->
  data !! 82 = Some b2 -> data !! 83 = Some b3 ->
  binary_count data = uint32_le b0 b1 b2 b3.
Proof.
  intros H0 H1 H2 H3.
  destruct (binary_reads_count data) as (c0 & c1 & c2 & c3 & ? & ? & ? & ? & Hc).
  - apply lookup_lt_Some in H3. lia.
  - unfold binary_count. rewrite Hc. congruence.
Qed.

Lemma binary_whole_file array_limit stack_limit (data : blob) w n :
  84 + 50 * n <= length data ->
  binary_count data = Z.of_nat n ->
  (Z.of_nat n * 9 <= array_limit)%Z ->
  depth n <= stack_limit ->
  length data = 84 + 50 * n \/ PER_BATCH <= n ->
  let final := flat_map (fun i => cells (binary_triangle data i)) (seq 0 n) in
  onload_binary array_limit stack_limit data w
  = (Normal tt, ran final (parse_events n final) w)
  /\ length final = 9 * n
  /\ forall i k, i < n -> k < 9 ->
       final !! (9 * i + k) = f32_at data (84 + 50 * i + 12 + 4 * k).
Proof.
  intros Hlen Hcount Hlimit Hdeep Hvalid final.
  assert (Hfails : binary_fails array_limit stack_limit data = false).
  { unfold binary_fails.
    destruct (binary_reads_count data) as (b0 & b1 & b2 & b3 & _ & _ & _ & _ & Hc);
      [lia|].
    unfold binary_count in Hcount. rewrite Hc in *. rewrite Hcount.
    replace (array_limit <? Z.of_nat n * 9)%Z with false
      by (symmetry; apply Z.ltb_ge; lia).
    rewrite Nat2Z.id.
    replace (stack_limit <? depth n)%nat with false
      by (symmetry; apply Nat.ltb_ge; lia).
    apply negb_false_iff, forallb_forall.
    intros i Hi%in_seq.
    destruct (decide (i < n)) as [Hin|Hout].
    - apply (binary_triangle_whole data i 0); lia.
    - destruct Hvalid as [Hexact|Hlarge].
      + apply window_ok_beyond. lia.
      + rewrite visited_large in Hi by exact Hlarge. lia. }
  pose proof (onload_binary_returns array_limit stack_limit data w Hfails) as Hrun.
  cbv zeta in Hrun. rewrite Hcount, Nat2Z.id in Hrun.
  split; [exact Hrun|]. split.
  - subst final. by rewrite length_flat_cells, length_seq.
  - intros i k Hi Hk. subst final. rewrite lookup_flat_cells by assumption.
    symmetry. apply binary_triangle_whole; lia.
Qed.

Lemma event_loop_step array_limit stack_limit fuel w t rest :
  pending w = t :: rest ->
  event_loop array_limit stack_limit (S fuel) w
  = event_loop array_limit stack_limit fuel
      (settle (run_handler array_limit stack_limit t
                 (mkWorld (viewer w) (triangleData w) (history w) rest (uncaught w)))).
Proof. intros H. cbn [event_loop]. by rewrite H. Qed.


(** The first handler of a load: the sniffing of [parseSTL]. *)
Lemma indicator_step array_limit stack_limit fuel (data : blob) :
  event_loop array_limit stack_limit (S fuel) (parseSTL data new_world).2
  = event_loop array_limit stack_limit fuel
      (mkWorld (mkViewer false false) [] []
         [if includes "solid" (readAsText (take 6 data))
          then ReadAscii data else ReadBinary data] []).
Proof.
  cbn [event_loop parseSTL schedule new_world snd pending app run_handler
       viewer triangleData history uncaught].
  unfold onload_indicator. by destruct (includes "solid" (readAsText (take 6 data))).
Qed.

(** * The STL claims *)

(** C1 (the code departs from the claim). For every STL-ASCII input of
    [7n + 3] lines with fewer than 500 triangles, the minimal one-triangle
    file among them, the ASCII handler emits no mesh buffer at all. The
    first batch always makes 500 calls of [getTriangle]; the call for
    triangle [n] reads a line past the end of the file and throws; the
    handler then marks the ASCII attempt as failed and hands the blob to
    the binary sub-parser. *)
Theorem ascii_small_file_is_not_parsed array_limit stack_limit (data : blob) w n :
  length (split newline (readAsText data)) = 7 * n + 3 ->
  n < PER_BATCH ->
  exists w',
    onload_ascii array_limit stack_limit data w = (Normal tt, w')
    /\ displays w' = displays w
    /\ attemptedASCII_STL (viewer w') = true
    /\ pending w'
       = pending w ++ (if attemptedBINARY_STL (viewer w) then [] else [ReadBinary data]).
Proof.
  intros Hlen Hsmall.
  destruct (onload_ascii_fails array_limit stack_limit data w) as (w' & Hrun & Hv & Hp & _ & Hd).
  - unfold ascii_fails, ascii_count. rewrite Hlen.
    replace ((Z.of_nat (7 * n + 3) - 3) mod 7 =? 0)%Z with true.
    + cbn [negb].
      replace ((Z.of_nat (7 * n + 3) - 3) / 7 <? Z.of_nat PER_BATCH)%Z with true;
        [reflexivity|].
      symmetry. apply Z.ltb_lt. zify. Z.div_mod_to_equations. lia.
    + symmetry. apply Z.eqb_eq. zify. Z.div_mod_to_equations. lia.
  - exists w'. rewrite Hv. auto.
Qed.

(** C1 at the minimal one-triangle file. *)
Lemma ascii_small_file_is_not_parsed_witness :
  length (split newline (readAsText (list_byte_of_string minimal_stl))) = 7 * 1 + 3
  /\ 1 < PER_BATCH
  /\ exists w',
       onload_ascii limit32 stack1000 (list_byte_of_string minimal_stl) new_world
       = (Normal tt, w')
       /\ displays w' = displays new_world
       /\ attemptedASCII_STL (viewer w') = true
       /\ pending w'
          = pending new_world
            ++ (if attemptedBINARY_STL (viewer new_world) then []
                else [ReadBinary (list_byte_of_string minimal_stl)]).
Proof.
  assert (H1 : length (split newline (readAsText (list_byte_of_string minimal_stl)))
               = 7 * 1 + 3) by (vm_compute; reflexivity).
  assert (H2 : 1 < PER_BATCH) by (unfold PER_BATCH; lia).
  split; [exact H1|]. split; [exact H2|].
  exact (ascii_small_file_is_not_parsed limit32 stack1000 _ new_world 1 H1 H2).
Defined.

(** The texts that the [try] block of [stl_ascii] accepts. *)
Lemma ascii_accepts array_limit stack_limit (text : string) n :
  length (split newline text) = 7 * n + 3 ->
  PER_BATCH <= n ->
  (Z.of_nat n * 9 <= array_limit)%Z ->
  depth n <= stack_limit ->
  ascii_count text = Z.of_nat n
  /\ ascii_fails array_limit stack_limit text = false.
Proof.
  intros Hlen Hlarge Hlimit Hdeep.
  assert (Hcount : ascii_count text = Z.of_nat n).
  { unfold ascii_count. rewrite Hlen. zify. Z.div_mod_to_equations. lia. }
  split; [exact Hcount|].
  unfold ascii_fails. rewrite Hcount, Hlen, Nat2Z.id.
  replace ((Z.of_nat (7 * n + 3) - 3) mod 7 =? 0)%Z with true
    by (symmetry; apply Z.eqb_eq; zify; Z.div_mod_to_equations; lia).
  cbn [negb].
  replace (Z.of_nat n <? Z.of_nat PER_BATCH)%Z with false
    by (symmetry; apply Z.ltb_ge; lia).
  replace (array_limit <? Z.of_nat n * 9)%Z with false
    by (symmetry; apply Z.ltb_ge; lia).
  apply Nat.ltb_ge. exact Hdeep.
Qed.

(** From 500 triangles on the ASCII sub-parser does what C1 says: it
    displays nine floats per triangle, and no indices, colors or UVs. *)
Lemma ascii_large_file_is_parsed array_limit stack_limit (data : blob) w n :
  length (split newline (readAsText data)) = 7 * n + 3 ->
  PER_BATCH <= n ->
  (Z.of_nat n * 9 <= array_limit)%Z ->
  depth n <= stack_limit ->
  exists w' vs,
    onload_ascii array_limit stack_limit data w = (Normal tt, w')
    /\ displays w' = displays w ++ [Display vs None None None None]
    /\ length vs = 9 * n
    /\ viewer w' = viewer w.
Proof.
  intros Hlen Hlarge Hlimit Hdeep.
  destruct (ascii_accepts array_limit stack_limit _ n Hlen Hlarge Hlimit Hdeep)
    as [Hcount Hfails].
  pose proof (onload_ascii_returns array_limit stack_limit data w Hfails) as Hrun.
  cbv zeta in Hrun. rewrite Hcount, Nat2Z.id in Hrun.
  eexists _, _. split; [exact Hrun|]. rewrite displays_parse.
  repeat split. by rewrite length_flat_ascii, length_seq.
Qed.

(** On a host with 32-bit array lengths the minimal file is never
    displayed: the binary sub-parser, tried next, reads a count out of the
    text and is refused the array. *)
Lemma minimal_stl_is_never_displayed :
  let w := event_loop limit32 stack1000 3
             (parseSTL (list_byte_of_string minimal_stl) new_world).2 in
  displays w = [] /\ pending w = [] /\ viewer w = mkViewer true true
  /\ uncaught w = [].
Proof. vm_compute. auto. Qed.

(** C2, as the code has it. When both STL sub-formats have been attempted
    on a file and both have failed, nothing is surfaced to the host: every
    handler completes normally, no exception leaves a handler,
    [viewer.display] is never called and no read is left pending; both
    flags are true, and any further call of either sub-parser on that
    viewer returns at once without starting a read. *)
Theorem stl_double_failure_is_silent array_limit stack_limit (data : blob) :
  ascii_fails array_limit stack_limit (readAsText data) = true ->
  binary_fails array_limit stack_limit data = true ->
  let w := event_loop array_limit stack_limit 3 (parseSTL data new_world).2 in
  pending w = []
  /\ viewer w = mkViewer true true
  /\ displays w = []
  /\ uncaught w = []
  /\ forall data' : blob,
       stl_ascii data' w = (Normal tt, w) /\ stl_binary data' w = (Normal tt, w).
Proof.
  intros Hascii Hbinary.
  assert (Hend : forall w : world,
    pending w = [] -> viewer w = mkViewer true true ->
    forall data' : blob,
      stl_ascii data' w = (Normal tt, w) /\ stl_binary data' w = (Normal tt, w)).
  { intros w _ Hv data'. unfold stl_ascii, stl_binary. by rewrite Hv. }
  rewrite indicator_step.
  destruct (includes "solid" (readAsText (take 6 data))).
  - (* the ASCII sub-parser is tried first *)
    erewrite event_loop_step by reflexivity. cbn [run_handler].
    match goal with |- context [onload_ascii array_limit stack_limit data ?w0] =>
      destruct (onload_ascii_fails array_limit stack_limit data w0 Hascii)
        as (w1 & -> & Hv1 & Hp1 & Hu1 & Hd1) end.
    cbn in Hv1, Hp1, Hu1, Hd1. cbn [settle].
    erewrite event_loop_step by exact Hp1. cbn [run_handler].
    match goal with |- context [onload_binary array_limit stack_limit data ?w0] =>
      destruct (onload_binary_fails array_limit stack_limit data w0 Hbinary)
        as (w2 & -> & Hv2 & Hp2 & Hu2 & Hd2) end.
    cbn [viewer pending uncaught] in Hv2, Hp2, Hu2.
    rewrite Hv1 in Hv2, Hp2. cbn in Hv2, Hp2. cbn [settle event_loop].
    unfold displays in Hd2, Hd1. cbn [history] in Hd2.
    repeat split; try apply Hend; auto; unfold displays; congruence.
  - (* the binary sub-parser is tried first *)
    erewrite event_loop_step by reflexivity. cbn [run_handler].
    match goal with |- context [onload_binary array_limit stack_limit data ?w0] =>
      destruct (onload_binary_fails array_limit stack_limit data w0 Hbinary)
        as (w1 & -> & Hv1 & Hp1 & Hu1 & Hd1) end.
    cbn in Hv1, Hp1, Hu1, Hd1. cbn [settle].
    erewrite event_loop_step by exact Hp1. cbn [run_handler].
    match goal with |- context [onload_ascii array_limit stack_limit data ?w0] =>
      destruct (onload_ascii_fails array_limit stack_limit data w0 Hascii)
        as (w2 & -> & Hv2 & Hp2 & Hu2 & Hd2) end.
    cbn [viewer pending uncaught] in Hv2, Hp2, Hu2.
    rewrite Hv1 in Hv2, Hp2. cbn in Hv2, Hp2. cbn [settle event_loop].
    unfold displays in Hd2, Hd1. cbn [history] in Hd2.
    repeat split; try apply Hend; auto; unfold displays; congruence.
Qed.

(** C2 at a blob that neither sub-parser accepts. *)
Lemma stl_double_failure_is_silent_witness :
  ascii_fails limit32 stack1000 (readAsText not_stl) = true
  /\ binary_fails limit32 stack1000 not_stl = true
  /\ let w := event_loop limit32 stack1000 3 (parseSTL not_stl new_world).2 in
     pending w = []
     /\ viewer w = mkViewer true true
     /\ displays w = []
     /\ uncaught w = []
     /\ forall data' : blob,
          stl_ascii data' w = (Normal tt, w) /\ stl_binary data' w = (Normal tt, w).
Proof.
  assert (H1 : ascii_fails limit32 stack1000 (readAsText not_stl) = true)
    by (vm_compute; reflexivity).
  assert (H2 : binary_fails limit32 stack1000 not_stl = true) by (vm_compute; reflexivity).
  split; [exact H1|]. split; [exact H2|].
  exact (stl_double_failure_is_silent limit32 stack1000 not_stl H1 H2).
Defined.

(** C2, against the claim as stated: on a blob that is no STL file both
    sub-parsers are attempted and both fail, and yet the run ends with no
    exception out of any handler and with an empty history: the host is
    told nothing, so no [UnrecognizedOrCorruptStl] error is surfaced. *)
Lemma stl_double_failure_surfaces_nothing :
  let w := event_loop limit32 stack1000 3 (parseSTL not_stl new_world).2 in
  viewer w = mkViewer true true /\ pending w = []
  /\ history w = [] /\ uncaught w = [].
Proof. vm_compute. auto. Qed.

(** A buffer too short to hold a count is one of the failures. *)
Lemma binary_fails_short array_limit stack_limit (data : blob) :
  length data < 84 -> binary_fails array_limit stack_limit data = true.
Proof.
  intros Hshort. unfold binary_fails, Uint32Array_over.
  assert (Hs : length (slice data 80 84) < 4) by (rewrite length_slice; lia).
  destruct (slice data 80 84) as [|b0 [|b1 [|b2 [|b3 rest]]]]; try reflexivity.
  cbn [length] in Hs. lia.
Qed.

(** The float that a window gives for its position [k]: the four bytes at
    [96 + 50i + 4k] when the buffer holds them, and [NaN] otherwise. *)
Lemma float_of_window buffer i k :
  window_ok buffer i = true -> k < 9 ->
  float_at (binary_triangle buffer i) k
  = default F32_NaN (f32_at buffer (96 + 50 * i + 4 * k)).
Proof.
  unfold window_ok. intros Hok%Nat.eqb_eq Hk.
  pose proof (elements4_spec F32_of_bytes _
                (slice buffer (96 + 50 * i) (132 + 50 * i)) (Nat.le_refl _)) as H.
  rewrite Hok in H. cbn [Nat.eqb] in H. destruct H as (l & Hl & Hlen).
  unfold binary_triangle, Float32Array_over. rewrite Hl.
  pose proof (length_slice buffer (96 + 50 * i) (132 + 50 * i)) as Hwin.
  destruct (decide (k < length l)) as [Hin|Hout].
  - assert (Hget : forall t, t < 4 -> exists b,
              buffer !! (96 + 50 * i + 4 * k + t) = Some b
              /\ slice buffer (96 + 50 * i) (132 + 50 * i) !! (4 * k + t) = Some b).
    { intros t Ht.
      destruct (lookup_lt_is_Some_2 buffer (96 + 50 * i + 4 * k + t)) as [b Hb];
        [lia|].
      exists b. split; [exact Hb|].
      rewrite lookup_slice by lia. rewrite <- Hb. f_equal. lia. }
    destruct (Hget 0) as (b0 & Hb0 & Hs0); [lia|].
    destruct (Hget 1) as (b1 & Hb1 & Hs1); [lia|].
    destruct (Hget 2) as (b2 & Hb2 & Hs2); [lia|].
    destruct (Hget 3) as (b3 & Hb3 & Hs3); [lia|].
    rewrite Nat.add_0_r in Hb0, Hs0.
    unfold f32_at, float_at. rewrite Hb0, Hb1, Hb2, Hb3.
    by rewrite (elements4_lookup F32_of_bytes k _ _ b0 b1 b2 b3 Hl Hs0 Hs1 Hs2 Hs3).
  - unfold float_at, f32_at.
    rewrite (lookup_ge_None_2 l k) by lia.
    rewrite (lookup_ge_None_2 buffer (96 + 50 * i + 4 * k)) by lia.
    reflexivity.
Qed.

(** What the binary handler displays when its [try] block returns: nine
    floats per declared triangle, those that the buffer does not hold
    being [NaN]. *)
Lemma onload_binary_displays array_limit stack_limit (data : blob) w :
  binary_fails array_limit stack_limit data = false ->
  let n := Z.to_nat (binary_count data) in
  exists vs,
    onload_binary array_limit stack_limit data w
    = (Normal tt, ran vs (parse_events n vs) w)
    /\ length vs = 9 * n
    /\ forall i k, i < n -> k < 9 ->
         vs !! (9 * i + k)
         = Some (default F32_NaN (f32_at data (96 + 50 * i + 4 * k))).
Proof.
  intros Hfails n.
  pose proof (onload_binary_returns array_limit stack_limit data w Hfails) as Hrun.
  cbv zeta in Hrun. fold n in Hrun.
  eexists. split; [exact Hrun|]. split.
  - by rewrite length_flat_cells, length_seq.
  - intros i k Hi Hk. rewrite lookup_flat_cells by assumption. f_equal.
    apply float_of_window; [|exact Hk].
    unfold binary_fails, binary_count in *.
    destruct (Uint32Array_over (slice data 80 84)) as [[|c counts]|]; try discriminate.
    destruct (array_limit <? c * 9)%Z; [discriminate|].
    destruct (stack_limit <? depth (Z.to_nat c))%nat; [discriminate|].
    apply negb_false_iff in Hfails. rewrite forallb_forall in Hfails.
    apply Hfails, in_seq. pose proof (triCount_visited (Z.to_nat c)). lia.
Qed.

(** In a buffer that ends before the last declared record, the only
    windows with a broken float are those in which the buffer ends. *)
Lemma windows_of_a_short_buffer (data : blob) n :
  length data < 84 + 50 * n ->
  forallb (window_ok data) (seq 0 (visited n))
  = negb (ends_in_a_float (length data)).
Proof.
  intros Hshort. unfold ends_in_a_float.
  destruct (Nat.ltb_spec 96 (length data)) as [Hbody|Hbody]; cbn [andb negb].
  - pose proof (Nat.div_mod_eq (length data - 96) 50) as Hdiv.
    pose proof (Nat.mod_upper_bound (length data - 96) 50 ltac:(lia)) as Hr.
    set (r := (length data - 96) mod 50) in *.
    set (q := (length data - 96) / 50) in *.
    destruct (Nat.ltb_spec r 36) as [Hin|Hout]; cbn [andb negb].
    + destruct (Nat.eqb_spec (r mod 4) 0) as [Hfour|Hfour]; cbn [negb].
      * apply forallb_forall. intros i _. unfold window_ok.
        rewrite length_slice. apply Nat.eqb_eq.
        destruct (decide (i = q)) as [->|Hne].
        -- replace (_ `min` _) with r by lia. exact Hfour.
        -- destruct (decide (i < q)).
           ++ by replace (_ `min` _) with 36 by lia.
           ++ by replace (_ `min` _) with 0 by lia.
      * apply not_true_iff_false. intros Hall. rewrite forallb_forall in Hall.
        assert (Hq : In q (seq 0 (visited n))).
        { apply in_seq. pose proof (triCount_visited n). lia. }
        specialize (Hall q Hq). unfold window_ok in Hall.
        rewrite length_slice in Hall. apply Nat.eqb_eq in Hall.
        replace (_ `min` _) with r in Hall by lia. contradiction.
    + apply forallb_forall. intros i _. unfold window_ok.
      rewrite length_slice. apply Nat.eqb_eq.
      destruct (decide (i <= q)).
      * destruct (decide (i = q)) as [->|Hne].
        -- by replace (_ `min` _) with 36 by lia.
        -- by replace (_ `min` _) with 36 by lia.
      * by replace (_ `min` _) with 0 by lia.
  - apply forallb_forall. intros i _. unfold window_ok.
    rewrite length_slice. apply Nat.eqb_eq.
    by replace (_ `min` _) with 0 by lia.
Qed.

(** C3, as the code has it. The binary sub-parser never compares the
    declared triangle count with the buffer length. On a buffer that holds
    a count [n] and ends before the last of the [n] records, that is with
    [84 <= bufferLength < 84 + 50 n], its parse fails, sets
    [attemptedBINARY_STL] and falls back to the ASCII sub-parser without
    display exactly when the host refuses an array of [9 n] floats, or its
    stack does not hold the nested batches, or the buffer ends inside the
    vertex bytes [96+50i, 132+50i) of a record at a position that breaks a
    float. Otherwise the handler displays [9 n] floats and leaves the
    flags alone: those floats that the buffer holds, and [NaN] for the
    others. A buffer under 84 bytes always fails. *)
Theorem binary_failure_is_a_failed_read array_limit stack_limit (data : blob) w n :
  84 <= length data ->
  binary_count data = Z.of_nat n ->
  length data < 84 + 50 * n ->
  (if (array_limit <? Z.of_nat n * 9)%Z || (stack_limit <? depth n)%nat
      || ends_in_a_float (length data)
   then exists w',
          onload_binary array_limit stack_limit data w = (Normal tt, w')
          /\ fell_back (mkViewer (attemptedASCII_STL (viewer w)) true)
                       (if attemptedASCII_STL (viewer w) then [] else [ReadAscii data])
                       w w'
   else exists w' vs,
          onload_binary array_limit stack_limit data w = (Normal tt, w')
          /\ displays w' = displays w ++ [Display vs None None None None]
          /\ length vs = 9 * n
          /\ (forall i k, i < n -> k < 9 ->
                vs !! (9 * i + k)
                = Some (default F32_NaN (f32_at data (96 + 50 * i + 4 * k))))
          /\ viewer w' = viewer w /\ pending w' = pending w
          /\ uncaught w' = uncaught w)
  /\ forall short : blob,
       length short < 84 ->
       exists w',
         onload_binary array_limit stack_limit short w = (Normal tt, w')
         /\ fell_back (mkViewer (attemptedASCII_STL (viewer w)) true)
                      (if attemptedASCII_STL (viewer w) then [] else [ReadAscii short])
                      w w'.
Proof.
  intros Hlen Hcount Hshort. split.
  - assert (Hfails : binary_fails array_limit stack_limit data
                     = (array_limit <? Z.of_nat n * 9)%Z || (stack_limit <? depth n)%nat
                       || ends_in_a_float (length data)).
    { unfold binary_fails.
      destruct (binary_reads_count data Hlen) as (b0 & b1 & b2 & b3 & _ & _ & _ & _ & Hc).
      unfold binary_count in Hcount. rewrite Hc in *. rewrite Hcount, Nat2Z.id.
      destruct (array_limit <? Z.of_nat n * 9)%Z; [reflexivity|].
      destruct (stack_limit <? depth n)%nat; [reflexivity|].
      rewrite windows_of_a_short_buffer by exact Hshort.
      by rewrite negb_involutive. }
    rewrite <- Hfails.
    destruct (binary_fails array_limit stack_limit data) eqn:Hf.
    + by apply onload_binary_fails.
    + destruct (onload_binary_displays array_limit stack_limit data w Hf)
        as (vs & Hrun & Hlength & Hcells).
      rewrite Hcount, Nat2Z.id in Hrun, Hlength, Hcells.
      exists (ran vs (parse_events n vs) w), vs.
      split; [exact Hrun|]. rewrite displays_parse. by repeat split.
  - intros short Hs. apply onload_binary_fails. by apply binary_fails_short.
Qed.

(** C3 at a buffer of 84 bytes that declares five triangles. *)
Lemma binary_failure_is_a_failed_read_witness :
  84 <= length header_only
  /\ binary_count header_only = Z.of_nat 5
  /\ length header_only < 84 + 50 * 5
  /\ (if (limit32 <? Z.of_nat 5 * 9)%Z || (stack1000 <? depth 5)%nat
         || ends_in_a_float (length header_only)
      then exists w',
             onload_binary limit32 stack1000 header_only new_world = (Normal tt, w')
             /\ fell_back (mkViewer (attemptedASCII_STL (viewer new_world)) true)
                          (if attemptedASCII_STL (viewer new_world) then []
                           else [ReadAscii header_only])
                          new_world w'
      else exists w' vs,
             onload_binary limit32 stack1000 header_only new_world = (Normal tt, w')
             /\ displays w' = displays new_world ++ [Display vs None None None None]
             /\ length vs = 9 * 5
             /\ (forall i k, i < 5 -> k < 9 ->
                   vs !! (9 * i + k)
                   = Some (default F32_NaN (f32_at header_only (96 + 50 * i + 4 * k))))
             /\ viewer w' = viewer new_world /\ pending w' = pending new_world
             /\ uncaught w' = uncaught new_world)
     /\ forall short : blob,
          length short < 84 ->
          exists w',
            onload_binary limit32 stack1000 short new_world = (Normal tt, w')
            /\ fell_back (mkViewer (attemptedASCII_STL (viewer new_world)) true)
                         (if attemptedASCII_STL (viewer new_world) then []
                          else [ReadAscii short])
                         new_world w'.
Proof.
  assert (H1 : 84 <= length header_only) by (cbn; lia).
  assert (H2 : binary_count header_only = Z.of_nat 5) by reflexivity.
  assert (H3 : length header_only < 84 + 50 * 5) by (cbn; lia).
  repeat (split; [assumption|]).
  exact (binary_failure_is_a_failed_read limit32 stack1000 header_only new_world 5
           H1 H2 H3).
Defined.

(** C3, against the claim as stated: a buffer of 84 bytes that declares
    five triangles violates [84 + 50 * triCount <= bufferLength], and the
    binary handler neither fails nor falls back: it displays 45 floats,
    all of them [NaN], and [attemptedBINARY_STL] stays false. *)
Lemma binary_count_is_not_checked :
  (Z.of_nat (length header_only) < 84 + 50 * binary_count header_only)%Z
  /\ exists w',
       onload_binary limit32 stack1000 header_only new_world = (Normal tt, w')
       /\ displays w' = [Display (repeat F32_NaN 45) None None None None]
       /\ attemptedBINARY_STL (viewer w') = false
       /\ pending w' = [].
Proof.
  split; [vm_compute; reflexivity|].
  assert (Hfails : binary_fails limit32 stack1000 header_only = false)
    by (vm_compute; reflexivity).
  pose proof (onload_binary_returns limit32 stack1000 header_only new_world Hfails) as Hrun.
  cbv zeta in Hrun. eexists. split; [exact Hrun|].
  rewrite displays_parse. repeat split.
Qed.

(** The same header followed by thirteen bytes: the buffer ends one byte
    into the first vertex float, and the handler falls back. *)
Lemma binary_cut_record_falls_back :
  ends_in_a_float (length cut_record) = true
  /\ exists w',
       onload_binary limit32 stack1000 cut_record new_world = (Normal tt, w')
       /\ displays w' = [] /\ viewer w' = mkViewer false true
       /\ pending w' = [ReadAscii cut_record].
Proof.
  split; [reflexivity|].
  assert (Hfails : binary_fails limit32 stack1000 cut_record = true)
    by (vm_compute; reflexivity).
  destruct (onload_binary_fails limit32 stack1000 cut_record new_world Hfails)
    as (w' & Hrun & Hv & Hp & _ & Hd).
  exists w'. auto.
Qed.

(** C4, as the code has it. The binary sub-parser reads the triangle count
    as the unsigned 32-bit little-endian integer at bytes [80,84), and on
    a file that holds all its records (and nothing after them when it has
    fewer than 500), on a host that allocates the array and whose stack
    holds the nested batches, it takes the nine vertex floats of triangle
    [i], in order, from bytes [12,48) of the 50-byte record that begins at
    byte [84 + 50i]: it skips the 12 bytes of the normal and ignores the
    two attribute bytes. *)
Theorem binary_record_layout array_limit stack_limit (data : blob) w b0 b1 b2 b3 :
  data !! 80 = Some b0 -> data !! 81 = Some b1 ->
  data !! 82 = Some b2 -> data !! 83 = Some b3 ->
  let triCount := Z.to_nat (uint32_le b0 b1 b2 b3) in
  (length data = 84 + 50 * triCount
   \/ (PER_BATCH <= triCount /\ 84 + 50 * triCount <= length data)) ->
  (uint32_le b0 b1 b2 b3 * 9 <= array_limit)%Z ->
  depth triCount <= stack_limit ->
  exists vs,
    onload_binary array_limit stack_limit data w
    = (Normal tt, ran vs (parse_events triCount vs) w)
    /\ displays (ran vs (parse_events triCount vs) w)
       = displays w ++ [Display vs None None None None]
    /\ length vs = 9 * triCount
    /\ forall i k, i < triCount -> k < 9 ->
         vs !! (9 * i + k) = f32_at data (84 + 50 * i + 12 + 4 * k)
         /\ is_Some (vs !! (9 * i + k)).
Proof.
  intros H0 H1 H2 H3 triCount Hvalid Hlimit Hdeep.
  pose proof (uint32_le_nonneg b0 b1 b2 b3) as Hpos.
  destruct (binary_whole_file array_limit stack_limit data w triCount)
    as (Hrun & Hlen & Hcells).
  - lia.
  - rewrite (binary_count_at data b0 b1 b2 b3) by assumption.
    subst triCount. lia.
  - subst triCount. lia.
  - exact Hdeep.
  - tauto.
  - eexists. split; [exact Hrun|]. split; [apply displays_parse|].
    split; [exact Hlen|]. intros i k Hi Hk. split; [by apply Hcells|].
    apply lookup_lt_is_Some. rewrite Hlen. lia.
Qed.

(** C4 at a binary file of two triangles. *)
Lemma binary_record_layout_witness :
  two_records !! 80 = Some x02 /\ two_records !! 81 = Some x00
  /\ two_records !! 82 = Some x00 /\ two_records !! 83 = Some x00
  /\ (length two_records = 84 + 50 * Z.to_nat (uint32_le x02 x00 x00 x00)
      \/ (PER_BATCH <= Z.to_nat (uint32_le x02 x00 x00 x00)
          /\ 84 + 50 * Z.to_nat (uint32_le x02 x00 x00 x00) <= length two_records))
  /\ (uint32_le x02 x00 x00 x00 * 9 <= limit32)%Z
  /\ depth (Z.to_nat (uint32_le x02 x00 x00 x00)) <= stack1000
  /\ exists vs,
       onload_binary limit32 stack1000 two_records new_world
       = (Normal tt, ran vs (parse_events 2 vs) new_world)
       /\ displays (ran vs (parse_events 2 vs) new_world)
          = displays new_world ++ [Display vs None None None None]
       /\ length vs = 9 * 2
       /\ forall i k, i < 2 -> k < 9 ->
            vs !! (9 * i + k) = f32_at two_records (84 + 50 * i + 12 + 4 * k)
            /\ is_Some (vs !! (9 * i + k)).
Proof.
  assert (H0 : two_records !! 80 = Some x02) by reflexivity.
  assert (H1 : two_records !! 81 = Some x00) by reflexivity.
  assert (H2 : two_records !! 82 = Some x00) by reflexivity.
  assert (H3 : two_records !! 83 = Some x00) by reflexivity.
  assert (H4 : length two_records = 84 + 50 * Z.to_nat (uint32_le x02 x00 x00 x00)
      \/ (PER_BATCH <= Z.to_nat (uint32_le x02 x00 x00 x00)
          /\ 84 + 50 * Z.to_nat (uint32_le x02 x00 x00 x00) <= length two_records))
    by (left; vm_compute; reflexivity).
  assert (H5 : (uint32_le x02 x00 x00 x00 * 9 <= limit32)%Z)
    by (vm_compute; discriminate).
  assert (H6 : depth (Z.to_nat (uint32_le x02 x00 x00 x00)) <= stack1000)
    by (apply Nat.leb_le; vm_compute; reflexivity).
  repeat (split; [assumption|]).
  exact (binary_record_layout limit32 stack1000 two_records new_world x02 x00 x00 x00
           H0 H1 H2 H3 H4 H5 H6).
Defined.

(** The floats displayed for the file of two triangles: bytes 13 to 48 of
    the first record, then bytes 13 to 48 of the second, which are the
    bytes 63 to 98 of the records taken together. *)
Lemma two_records_are_displayed :
  displays (onload_binary limit32 stack1000 two_records new_world).2
  = [Display
       [F32_of_bytes x0d x0e x0f x10; F32_of_bytes x11 x12 x13 x14;
        F32_of_bytes x15 x16 x17 x18; F32_of_bytes x19 x1a x1b x1c;
        F32_of_bytes x1d x1e x1f x20; F32_of_bytes x21 x22 x23 x24;
        F32_of_bytes x25 x26 x27 x28; F32_of_bytes x29 x2a x2b x2c;
        F32_of_bytes x2d x2e x2f x30;
        F32_of_bytes x3f x40 x41 x42; F32_of_bytes x43 x44 x45 x46;
        F32_of_bytes x47 x48 x49 x4a; F32_of_bytes x4b x4c x4d x4e;
        F32_of_bytes x4f x50 x51 x52; F32_of_bytes x53 x54 x55 x56;
        F32_of_bytes x57 x58 x59 x5a; F32_of_bytes x5b x5c x5d x5e;
        F32_of_bytes x5f x60 x61 x62]
       None None None None].
Proof.
  assert (Hfails : binary_fails limit32 stack1000 two_records = false)
    by (vm_compute; reflexivity).
  pose proof (onload_binary_returns limit32 stack1000 two_records new_world Hfails)
    as Hrun.
  cbv zeta in Hrun. rewrite Hrun. cbn [snd]. rewrite displays_parse. reflexivity.
Qed.

(** C4, against the claim as stated: in the one-triangle file whose record
    holds the bytes 1 to 50, the first float displayed is made of bytes
    [96,100) of the file, that is bytes 13 to 16 of the record, and not of
    the first four bytes of the record, at [84,88). *)
Lemma binary_vertices_are_not_the_first_36_bytes :
  exists vs,
    displays (onload_binary limit32 stack1000 one_record new_world).2
    = [Display vs None None None None]
    /\ vs !! 0 = Some (F32_of_bytes x0d x0e x0f x10)
    /\ f32_at one_record 96 = Some (F32_of_bytes x0d x0e x0f x10)
    /\ f32_at one_record 84 = Some (F32_of_bytes x01 x02 x03 x04)
    /\ vs !! 0 <> f32_at one_record 84.
Proof.
  assert (Hfails : binary_fails limit32 stack1000 one_record = false)
    by (vm_compute; reflexivity).
  pose proof (onload_binary_returns limit32 stack1000 one_record new_world Hfails) as Hrun.
  cbv zeta in Hrun. rewrite Hrun. cbn [snd]. rewrite displays_parse.
  eexists. split; [reflexivity|].
  repeat split; try reflexivity. vm_compute. discriminate.
Qed.

(** Where [getTriangle] of [stl_ascii] is right: when the second and the
    third vertex line have the same number of tokens, the nine values it
    stores are the last three tokens of each of the three lines. *)
Lemma ascii_triangle_even splice i l1 l2 l3 :
  splice !! (3 + 7 * i) = Some l1 ->
  splice !! (4 + 7 * i) = Some l2 ->
  splice !! (5 + 7 * i) = Some l3 ->
  length (split space l2) = length (split space l3) ->
  ascii_triangle splice i = last_three l1 ++ last_three l2 ++ last_three l3.
Proof.
  intros H1 H2 H3 Heven. unfold ascii_triangle, last_three.
  rewrite H1, H2, H3. cbn [default from_option]. unfold id.
  rewrite Heven. reflexivity.
Qed.

(** C5 (the code departs from the claim). In a file of 500 triangles whose
    first facet has the vertex lines [vertex 1 2 3], [x vertex 4 5 6] and
    [vertex 7 8 9], the lines are found at offsets 3, 4 and 5, but the
    nine values stored for triangle 0 are 1 2 3 4 5 5 8 8 9 and not the
    last three tokens of each line: the sixth is read in the second line
    at the position computed from the length of the third, the seventh in
    the third line at the position computed from the length of the
    second. *)
Theorem uneven_vertex_lines_mix_tokens :
  let splice := split newline uneven_stl in
  splice !! 3 = Some "vertex 1 2 3"
  /\ splice !! 4 = Some "x vertex 4 5 6"
  /\ splice !! 5 = Some "vertex 7 8 9"
  /\ last_three "vertex 1 2 3" ++ last_three "x vertex 4 5 6"
     ++ last_three "vertex 7 8 9"
     = map F32_of_string ["1"; "2"; "3"; "4"; "5"; "6"; "7"; "8"; "9"]
  /\ exists vs,
       displays (onload_ascii limit32 stack1000 (list_byte_of_string uneven_stl) new_world).2
       = [Display vs None None None None]
       /\ length vs = 9 * 500
       /\ take 9 vs
          = map F32_of_string ["1"; "2"; "3"; "4"; "5"; "5"; "8"; "8"; "9"].
Proof.
  split; [reflexivity|]. split; [reflexivity|]. split; [reflexivity|].
  split; [reflexivity|].
  assert (Hfails : ascii_fails limit32 stack1000 uneven_stl = false)
    by (vm_compute; reflexivity).
  assert (Hcount : Z.to_nat (ascii_count uneven_stl) = 500)
    by (vm_compute; reflexivity).
  pose proof (onload_ascii_returns limit32 stack1000 (list_byte_of_string uneven_stl)
                new_world) as Hrun.
  unfold readAsText in Hrun. rewrite string_of_list_byte_of_string in Hrun.
  specialize (Hrun Hfails). cbv zeta in Hrun. rewrite Hcount in Hrun.
  eexists. split; [rewrite Hrun; cbn [snd]; rewrite displays_parse; reflexivity|].
  split; [by rewrite length_flat_ascii, length_seq|].
  change (seq 0 500) with (0 :: seq 1 499). cbn [flat_map].
  rewrite take_app_length' by reflexivity. reflexivity.
Qed.

Lemma js_index_end {A : Type} (pre suffix : list A) (back : Z) j :
  (back = Z.of_nat (length suffix) - Z.of_nat j)%Z ->
  j < length suffix ->
  js_index (pre ++ suffix) (Z.of_nat (length (pre ++ suffix)) - back)
  = suffix !! j.
Proof.
  intros -> Hj. unfold js_index. rewrite length_app.
  destruct (Z.ltb_spec (Z.of_nat (length pre + length suffix)
                        - (Z.of_nat (length suffix) - Z.of_nat j)) 0); [lia|].
  replace (Z.to_nat _) with (length pre + j) by lia.
  by rewrite lookup_app_r, Nat.add_comm, Nat.add_sub by lia.
Qed.

Lemma flat_map_nine {A : Type} (f : nat -> list A) n i :
  (forall j, length (f j) = 9) -> i < n ->
  take 9 (drop (9 * i) (flat_map f (seq 0 n))) = f i.
Proof.
  intros Hf Hi.
  assert (Hlen : forall l, length (flat_map f l) = 9 * length l).
  { induction l as [|j l IH]; [reflexivity|].
    cbn [flat_map]. rewrite length_app, Hf, IH. cbn [length]. lia. }
  replace n with (i + S (n - S i)) by lia.
  rewrite seq_app, flat_map_app. cbn [seq flat_map].
  rewrite drop_app_length' by (rewrite Hlen, length_seq; lia).
  rewrite take_app_length' by (symmetry; apply Hf). reflexivity.
Qed.

(** The last three tokens of a line whose tokens are known. *)
Lemma last_three_tokens line pre x y z :
  split space line = pre ++ [x; y; z] ->
  last_three line = [F32_of_string x; F32_of_string y; F32_of_string z].
Proof.
  intros H. unfold last_three. rewrite H.
  rewrite (js_index_end pre [x; y; z] 3 0) by (cbn; lia).
  rewrite (js_index_end pre [x; y; z] 2 1) by (cbn; lia).
  rewrite (js_index_end pre [x; y; z] 1 2) by (cbn; lia).
  reflexivity.
Qed.

(** The nine values of a triangle whose three vertex lines end with three
    coordinates each, the second and the third line having the same
    number of tokens. *)
Lemma ascii_triangle_tokens splice i l1 l2 l3 pre1 pre2 pre3 x1 y1 z1 x2 y2 z2 x3 y3 z3 :
  splice !! (3 + 7 * i) = Some l1 ->
  splice !! (4 + 7 * i) = Some l2 ->
  splice !! (5 + 7 * i) = Some l3 ->
  split space l1 = pre1 ++ [x1; y1; z1] ->
  split space l2 = pre2 ++ [x2; y2; z2] ->
  split space l3 = pre3 ++ [x3; y3; z3] ->
  length pre2 = length pre3 ->
  ascii_triangle splice i
  = [F32_of_string x1; F32_of_string y1; F32_of_string z1;
     F32_of_string x2; F32_of_string y2; F32_of_string z2;
     F32_of_string x3; F32_of_string y3; F32_of_string z3].
Proof.
  intros H1 H2 H3 S1 S2 S3 Hpre.
  rewrite (ascii_triangle_even splice i l1 l2 l3 H1 H2 H3)
    by (rewrite S2, S3, !length_app, Hpre; reflexivity).
  by rewrite (last_three_tokens l1 pre1 x1 y1 z1 S1),
    (last_three_tokens l2 pre2 x2 y2 z2 S2), (last_three_tokens l3 pre3 x3 y3 z3 S3).
Qed.

(** C6. For an STL parse of 1250 triangles, by either sub-parser, with
    batches of 500, on a host that allocates the array and whose stack
    holds two nested calls: [runBatch] runs twice, each time with a full
    batch of 500 calls of [getTriangle], the second run then makes the
    partial batch of 250 calls; the triangle indices are 0, 1, ..., 1249 in
    this order; [viewer.display] is called once, after the last call of
    [getTriangle], with the array of all 1250 triangles in their original
    order (nine cells per triangle), and nothing is stored after that
    call. The nine cells of triangle [i] hold, for the binary sub-parser,
    the nine floats at bytes [96 + 50i, 132 + 50i) of the buffer, and for
    the ASCII sub-parser the last three tokens of each of the lines
    [3 + 7i], [4 + 7i] and [5 + 7i], when these lines end with three
    coordinates each and the last two have the same number of tokens. *)
Theorem batches_of_1250 array_limit stack_limit w (ascii_data binary_data : blob) :
  (9 * 1250 <= array_limit)%Z ->
  2 <= stack_limit ->
  length (split newline (readAsText ascii_data)) = 7 * 1250 + 3 ->
  binary_count binary_data = 1250%Z ->
  84 + 50 * 1250 <= length binary_data ->
  (let splice := split newline (readAsText ascii_data) in
   let final := flat_map (ascii_triangle splice) (seq 0 1250) in
   onload_ascii array_limit stack_limit ascii_data w
   = (Normal tt, ran final (events_1250 final) w)
   /\ length final = 9 * 1250
   /\ displays (ran final (events_1250 final) w)
      = displays w ++ [Display final None None None None]
   /\ forall i l1 l2 l3 pre1 pre2 pre3 x1 y1 z1 x2 y2 z2 x3 y3 z3,
        i < 1250 ->
          splice !! (3 + 7 * i) = Some l1 ->
          splice !! (4 + 7 * i) = Some l2 ->
          splice !! (5 + 7 * i) = Some l3 ->
          split space l1 = pre1 ++ [x1; y1; z1] ->
          split space l2 = pre2 ++ [x2; y2; z2] ->
          split space l3 = pre3 ++ [x3; y3; z3] ->
          length pre2 = length pre3 ->
          take 9 (drop (9 * i) final)
          = [F32_of_string x1; F32_of_string y1; F32_of_string z1;
             F32_of_string x2; F32_of_string y2; F32_of_string z2;
             F32_of_string x3; F32_of_string y3; F32_of_string z3])
  /\ (let final :=
        flat_map (fun i => cells (binary_triangle binary_data i)) (seq 0 1250) in
      onload_binary array_limit stack_limit binary_data w
      = (Normal tt, ran final (events_1250 final) w)
      /\ length final = 9 * 1250
      /\ displays (ran final (events_1250 final) w)
         = displays w ++ [Display final None None None None]
      /\ forall i k, i < 1250 -> k < 9 ->
           final !! (9 * i + k) = f32_at binary_data (84 + 50 * i + 12 + 4 * k))
  /\ (forall final, exists before,
        events_1250 final
        = before ++ [EvDisplay (Display final None None None None); EvSetTimeout]
        /\ batch_calls before = [0; 1]
        /\ triangle_calls before = seq 0 1250).
Proof.
  intros Hlimit Hdeep Hlines Hcount Hlen.
  assert (Hevents : forall final, parse_events 1250 final = events_1250 final).
  { intros final. unfold parse_events, events_1250.
    change (1250 mod PER_BATCH) with 250.
    change (max (1250 / PER_BATCH) 1 - 1) with 1.
    cbn [batch_events].
    change (PER_BATCH * 0) with 0. change (PER_BATCH * 1) with 500.
    change (PER_BATCH * 2) with 1000. change PER_BATCH with 500.
    reflexivity. }
  assert (Hdepth : depth 1250 <= stack_limit) by (change (depth 1250) with 2; exact Hdeep).
  split.
  - destruct (ascii_accepts array_limit stack_limit (readAsText ascii_data) 1250)
      as [Hc Hfails]; [exact Hlines|unfold PER_BATCH; lia|lia|exact Hdepth|].
    pose proof (onload_ascii_returns array_limit stack_limit ascii_data w Hfails) as Hrun.
    cbv zeta in *. rewrite Hc in Hrun.
    change (Z.to_nat (Z.of_nat 1250)) with 1250 in Hrun. rewrite Hevents in Hrun.
    split; [exact Hrun|]. split; [|split].
    + by rewrite length_flat_ascii, length_seq.
    + rewrite <- Hevents. apply displays_parse.
    + intros i l1 l2 l3 pre1 pre2 pre3 x1 y1 z1 x2 y2 z2 x3 y3 z3
        Hi H1 H2 H3 S1 S2 S3 Hpre.
      rewrite flat_map_nine by (try reflexivity; exact Hi).
      exact (ascii_triangle_tokens _ i l1 l2 l3 pre1 pre2 pre3 _ _ _ _ _ _ _ _ _
               H1 H2 H3 S1 S2 S3 Hpre).
  - destruct (binary_whole_file array_limit stack_limit binary_data w 1250)
      as (Hrun & Hlength & Hcells); try assumption.
    + right. unfold PER_BATCH. lia.
    + cbv zeta in *. rewrite Hevents in Hrun. split.
      * repeat split; try assumption. rewrite <- Hevents. apply displays_parse.
      * intros final.
        exists (EvRunBatch 0 :: map EvGetTriangle (seq 0 500)
                ++ EvRunBatch 1 :: map EvGetTriangle (seq 500 500)
                ++ map EvGetTriangle (seq 1000 250)).
        split; [|split].
        -- unfold events_1250. cbn [app]. rewrite <- !app_assoc. cbn [app].
           rewrite <- !app_assoc. reflexivity.
        -- unfold batch_calls.
           change (EvRunBatch 0 :: ?l) with ([EvRunBatch 0] ++ l).
           change (EvRunBatch 1 :: ?l) with ([EvRunBatch 1] ++ l).
           rewrite !omap_app, !omap_map_GetTriangle_batch. reflexivity.
        -- unfold triangle_calls.
           change (EvRunBatch 0 :: ?l) with ([EvRunBatch 0] ++ l).
           change (EvRunBatch 1 :: ?l) with ([EvRunBatch 1] ++ l).
           rewrite !omap_app, !omap_map_GetTriangle. cbn [omap list_omap app].
           change 1250 with (500 + (500 + 250)).
           rewrite (seq_app 500 (500 + 250) 0), (seq_app 500 250 (0 + 500)).
           reflexivity.
Qed.

(** C6 at an ASCII and a binary file of 1250 triangles. *)
Lemma batches_of_1250_witness :
  (9 * 1250 <= limit32)%Z
  /\ 2 <= stack1000
  /\ length (split newline (readAsText (list_byte_of_string stl_1250))) = 7 * 1250 + 3
  /\ binary_count binary_1250 = 1250%Z
  /\ 84 + 50 * 1250 <= length binary_1250
  /\ (let splice := split newline (readAsText (list_byte_of_string stl_1250)) in
   let final := flat_map (ascii_triangle splice) (seq 0 1250) in
   onload_ascii limit32 stack1000 (list_byte_of_string stl_1250) new_world
   = (Normal tt, ran final (events_1250 final) new_world)
   /\ length final = 9 * 1250
   /\ displays (ran final (events_1250 final) new_world)
      = displays new_world ++ [Display final None None None None]
   /\ forall i l1 l2 l3 pre1 pre2 pre3 x1 y1 z1 x2 y2 z2 x3 y3 z3,
        i < 1250 ->
          splice !! (3 + 7 * i) = Some l1 ->
          splice !! (4 + 7 * i) = Some l2 ->
          splice !! (5 + 7 * i) = Some l3 ->
          split space l1 = pre1 ++ [x1; y1; z1] ->
          split space l2 = pre2 ++ [x2; y2; z2] ->
          split space l3 = pre3 ++ [x3; y3; z3] ->
          length pre2 = length pre3 ->
          take 9 (drop (9 * i) final)
          = [F32_of_string x1; F32_of_string y1; F32_of_string z1;
             F32_of_string x2; F32_of_string y2; F32_of_string z2;
             F32_of_string x3; F32_of_string y3; F32_of_string z3])
  /\ (let final :=
        flat_map (fun i => cells (binary_triangle binary_1250 i)) (seq 0 1250) in
      onload_binary limit32 stack1000 binary_1250 new_world
      = (Normal tt, ran final (events_1250 final) new_world)
      /\ length final = 9 * 1250
      /\ displays (ran final (events_1250 final) new_world)
         = displays new_world ++ [Display final None None None None]
      /\ forall i k, i < 1250 -> k < 9 ->
           final !! (9 * i + k) = f32_at binary_1250 (84 + 50 * i + 12 + 4 * k))
  /\ (forall final, exists before,
        events_1250 final
        = before ++ [EvDisplay (Display final None None None None); EvSetTimeout]
        /\ batch_calls before = [0; 1]
        /\ triangle_calls before = seq 0 1250).
Proof.
  assert (H1 : (9 * 1250 <= limit32)%Z) by (vm_compute; discriminate).
  assert (H0 : 2 <= stack1000) by (unfold stack1000; lia).
  assert (H2 : length (split newline (readAsText (list_byte_of_string stl_1250)))
               = 7 * 1250 + 3).
  { unfold stl_1250. rewrite splice_of_plain_facets.
    cbn [length]. rewrite length_app, length_concat_repeat. reflexivity. }
  assert (H3 : binary_count binary_1250 = 1250%Z) by (vm_compute; reflexivity).
  assert (H4 : 84 + 50 * 1250 <= length binary_1250)
    by (apply Nat.leb_le; vm_compute; reflexivity).
  repeat (split; [assumption|]).
  exact (batches_of_1250 limit32 stack1000 new_world _ _ H1 H0 H2 H3 H4).
Defined.

(** The ASCII file of 1250 plain facets: every triangle is displayed with
    the coordinates of its three vertex lines. *)
Lemma stl_1250_is_displayed :
  exists vs,
    displays (onload_ascii limit32 stack1000 (list_byte_of_string stl_1250) new_world).2
    = [Display vs None None None None]
    /\ length vs = 9 * 1250
    /\ forall i, i < 1250 ->
         take 9 (drop (9 * i) vs)
         = map F32_of_string ["0"; "0"; "0"; "1"; "0"; "0"; "0"; "1"; "0"].
Proof.
  destruct (same_vertex_lines "solid packit" "solid packit" plain_facet plain_facet
              ["endsolid packit"; ""] ["endsolid packit"; ""] 1250)
    as (L1 & _ & _); try reflexivity.
  pose proof (lookup_facets "solid packit" plain_facet ["endsolid packit"; ""] 1250)
    as Hline.
  rewrite <- (splice_of_plain_facets 1250) in L1, Hline. fold stl_1250 in L1, Hline.
  destruct (ascii_accepts limit32 stack1000
              (readAsText (list_byte_of_string stl_1250)) 1250 L1)
    as [Hcount Hfails];
    [unfold PER_BATCH; lia|vm_compute; discriminate
    |apply Nat.leb_le; vm_compute; reflexivity|].
  pose proof (onload_ascii_returns limit32 stack1000 (list_byte_of_string stl_1250)
                new_world Hfails) as Hrun.
  cbv zeta in Hrun. rewrite Hcount, Nat2Z.id in Hrun.
  eexists. split; [rewrite Hrun; cbn [snd]; rewrite displays_parse; reflexivity|].
  split; [by rewrite length_flat_ascii, length_seq|].
  intros i Hi. rewrite flat_map_nine by (try reflexivity; exact Hi).
  apply (ascii_triangle_tokens _ i "vertex 0 0 0" "vertex 1 0 0" "vertex 0 1 0"
           ["vertex"] ["vertex"] ["vertex"]); try reflexivity.
  - exact (Hline i 2 eq_refl Hi ltac:(lia)).
  - exact (Hline i 3 eq_refl Hi ltac:(lia)).
  - exact (Hline i 4 eq_refl Hi ltac:(lia)).
Qed.

(** * The OBJ parser *)

(** ** Arithmetic on integers that are numbers *)

Lemma Qred_inject_Z z : Qred (inject_Z z) = inject_Z z.
Proof.
  unfold Qred, inject_Z. cbn [Qnum Qden].
  pose proof (Z.ggcd_gcd z 1) as Hg. pose proof (Z.ggcd_correct_divisors z 1) as Hd.
  destruct (Z.ggcd z 1) as [g [a b]]. cbn [fst snd] in *.
  rewrite Z.gcd_1_r in Hg. subst g. destruct Hd as [Ha Hb].
  rewrite Z.mul_1_l in Ha, Hb. subst a b. reflexivity.
Qed.

Lemma Qred_integer (q : Q) z : q == inject_Z z -> Qred q = inject_Z z.
Proof. intros H. rewrite (Qred_complete _ _ H). apply Qred_inject_Z. Qed.

Lemma floor_log2_integer p :
  (0 < p)%Z -> floor_log2 (Qmake p 1) = Z.log2 p.
Proof.
  intros Hp. unfold floor_log2. cbn [Qnum Qden].
  change (Z.log2 1) with 0%Z. rewrite Z.sub_0_r.
  pose proof (Z.log2_nonneg p) as He.
  pose proof (proj1 (Z.log2_spec p Hp)) as Hlow.
  set (e := Z.log2 p) in *. unfold scale2.
  destruct (Z.leb_spec 0 (- e)) as [H0|H0]; cbn [Qnum Qden].
  - replace (- e)%Z with 0%Z by lia.
    destruct (Z.leb_spec 1 (p * 2 ^ 0)); [reflexivity|lia].
  - rewrite Z.opp_involutive, Pos.mul_1_l, Z2Pos.id by (apply Z.pow_pos_nonneg; lia).
    destruct (Z.leb_spec (2 ^ e) p); [reflexivity|lia].
Qed.

Lemma round_half_even_integer n : round_half_even n 1 = n.
Proof.
  unfold round_half_even. rewrite Z.mod_1_r, Z.div_1_r. reflexivity.
Qed.

(** An integer of magnitude 2^53 at most is a number as it is. *)
Lemma to_double_integer z :
  (Z.abs z <= 2 ^ 53)%Z -> to_double (inject_Z z) = Num (inject_Z z).
Proof.
  intros Hz. unfold to_double. rewrite Qred_inject_Z. cbn [inject_Z Qnum Qden].
  destruct (Z.eqb_spec z 0) as [->|Hne]; [reflexivity|].
  cbv zeta. set (p := Z.abs z) in *. assert (Hp : (0 < p)%Z) by lia.
  rewrite (floor_log2_integer p Hp).
  pose proof (Z.log2_nonneg p) as He.
  pose proof (Z.log2_spec p Hp) as [Hlow Hhigh].
  assert (He53 : (Z.log2 p <= 53)%Z).
  { apply Z.log2_le_mono in Hz. change (Z.log2 (2 ^ 53)) with 53%Z in Hz. exact Hz. }
  set (e := Z.log2 p) in *.
  rewrite Z.max_l by lia.
  destruct (decide (e = 53%Z)) as [He'|He'].
  - assert (p = 2 ^ 53)%Z as Hp53 by (rewrite He' in Hlow; lia).
    rewrite Hp53, He'.
    assert (z = 2 ^ 53 \/ z = - 2 ^ 53)%Z as [-> | ->] by lia; vm_compute; reflexivity.
  - assert (e <= 52)%Z by lia.
    assert (Hx : scale2 (Qmake p 1) (- (e - 52)) = Qmake (p * 2 ^ (52 - e)) 1).
    { unfold scale2. cbn [Qnum Qden].
      destruct (Z.leb_spec 0 (- (e - 52))); [|lia].
      do 2 f_equal. f_equal. lia. }
    rewrite Hx. cbn [Qnum Qden]. rewrite round_half_even_integer.
    assert (Hpow : (0 < 2 ^ (52 - e))%Z) by (apply Z.pow_pos_nonneg; lia).
    assert (Hm : (p * 2 ^ (52 - e) < 2 ^ 53)%Z).
    { replace 53%Z with (Z.succ e + (52 - e))%Z by lia.
      rewrite Z.pow_add_r by lia. apply Z.mul_lt_mono_pos_r; assumption. }
    assert (Hbig : (2 ^ 53 <= 2 ^ (1024 - (e - 52)))%Z)
      by (apply Z.pow_le_mono_r; lia).
    destruct (Z.leb_spec (2 ^ (1024 - (e - 52))) (p * 2 ^ (52 - e))); [lia|].
    assert (Hr : Qred (scale2 (inject_Z (p * 2 ^ (52 - e))) (e - 52)) = inject_Z p).
    { apply Qred_integer. unfold scale2, inject_Z, Qeq. cbn [Qnum Qden].
      destruct (Z.leb_spec 0 (e - 52)).
      - cbn [Qnum Qden]. replace (e - 52)%Z with 0%Z by lia.
        replace (52 - e)%Z with 0%Z by lia. lia.
      - cbn [Qnum Qden]. rewrite Pos.mul_1_l, Z2Pos.id.
        + replace (- (e - 52))%Z with (52 - e)%Z by lia. lia.
        + apply Z.pow_pos_nonneg; lia. }
    rewrite Hr. f_equal.
    destruct (Z.ltb_spec z 0).
    + unfold Qopp, inject_Z. cbn [Qnum Qden]. f_equal. lia.
    + unfold inject_Z. f_equal. lia.
Qed.

Lemma to_double_eq (q q' : Q) : q == q' -> to_double q = to_double q'.
Proof. intros H. unfold to_double. by rewrite (Qred_complete _ _ H). Qed.

Lemma to_double_of_integer (q : Q) z :
  q == inject_Z z -> (Z.abs z <= 2 ^ 53)%Z -> to_double q = Num (inject_Z z).
Proof. intros Hq Hz. rewrite (to_double_eq _ _ Hq). by apply to_double_integer. Qed.

Lemma num_add_Z a b :
  (Z.abs (a + b) <= 2 ^ 53)%Z ->
  num_add (Num (inject_Z a)) (Num (inject_Z b)) = Num (inject_Z (a + b)).
Proof.
  intros H. unfold num_add. apply to_double_of_integer; [|exact H].
  by rewrite inject_Z_plus.
Qed.

Lemma num_sub_Z a b :
  (Z.abs (a - b) <= 2 ^ 53)%Z ->
  num_sub (Num (inject_Z a)) (Num (inject_Z b)) = Num (inject_Z (a - b)).
Proof.
  intros H. unfold num_sub. apply to_double_of_integer; [|exact H].
  unfold Z.sub, Qminus. by rewrite inject_Z_plus, inject_Z_opp.
Qed.

Lemma third_of_triples {A : Type} (arr : list A) n :
  length arr = 3 * n -> (Z.of_nat n <= 2 ^ 53)%Z ->
  third_of_length arr = Num (inject_Z (Z.of_nat n)).
Proof.
  intros H Hn. unfold third_of_length. apply to_double_of_integer; [|lia].
  rewrite H, Nat2Z.inj_mul, inject_Z_mult. change (inject_Z (Z.of_nat 3)) with 3%Q.
  field.
Qed.

Lemma resolve_Z n count :
  (0 <= count < 2 ^ 53)%Z -> (- 2 ^ 53 <= n)%Z ->
  resolve (Num (inject_Z n)) (Num (inject_Z count))
  = Num (inject_Z (if (n <? 0)%Z then n + (count + 1) else n)).
Proof.
  intros Hcount Hn.
  unfold resolve, is_negative, num_of_nat. cbn [inject_Z Qnum].
  destruct (Z.ltb_spec n 0); [|reflexivity].
  change (Num (Qmake (Z.of_nat 1) 1)) with (Num (inject_Z 1)).
  change (Num (Qmake n 1)) with (Num (inject_Z n)).
  change (Num (Qmake count 1)) with (Num (inject_Z count)).
  rewrite num_add_Z by lia. rewrite num_add_Z by lia. reflexivity.
Qed.

(** ** The loops *)

Lemma push_floats_spec arr : forall acc,
  push_floats arr acc = acc ++ omap parseFloat arr.
Proof.
  unfold push_floats.
  induction arr as [|tok arr IH]; intros acc; simpl.
  - by rewrite app_nil_r.
  - rewrite IH. destruct (parseFloat tok); [|reflexivity].
    by rewrite <- app_assoc.
Qed.

Lemma push_corner_first i x arr :
  exists extra, push_corner i x arr = arr ++ Some x :: extra.
Proof.
  unfold push_corner. destruct (3 <? i)%nat.
  - eexists [_; _]. rewrite <- !app_assoc. reflexivity.
  - by exists [].
Qed.

Lemma face_corner_vertices i tok st :
  obj_vertices (face_corner i tok st) = obj_vertices st
  /\ obj_uvs (face_corner i tok st) = obj_uvs st.
Proof.
  unfold face_corner. by destruct (isNaN (parseInt (split "/" tok !! 0))).
Qed.

Lemma face_loop_vertices arr st :
  obj_vertices (face_loop arr st) = obj_vertices st
  /\ obj_uvs (face_loop arr st) = obj_uvs st.
Proof.
  unfold face_loop. generalize (seq 1 (length arr - 1 - 1)) as l.
  intros l. revert st. induction l as [|i l IH]; intros st; cbn [fold_left].
  - done.
  - destruct (IH (face_corner i (default "" (arr !! i)) st)) as [-> ->].
    apply face_corner_vertices.
Qed.

Lemma obj_lines_floats lines : forall st,
  obj_vertices (fold_left obj_line lines st)
  = obj_vertices st
    ++ flat_map (fun line => omap parseFloat (split space line))
                (List.filter (fun line => String.eqb (substring 0 2 line) "v ") lines)
  /\ obj_uvs (fold_left obj_line lines st)
     = obj_uvs st
       ++ flat_map (fun line => omap parseFloat (split space line))
                   (List.filter (fun line => String.eqb (substring 0 2 line) "vt") lines).
Proof.
  induction lines as [|line lines IH]; intros st; cbn [fold_left List.filter].
  - by rewrite !app_nil_r.
  - destruct (IH (obj_line st line)) as [-> ->]. unfold obj_line.
    destruct (String.eqb (substring 0 2 line) "v ") eqn:Hv.
    + apply String.eqb_eq in Hv. rewrite Hv. cbn [String.eqb Ascii.eqb Bool.eqb].
      cbn [parseVertex obj_vertices obj_uvs flat_map].
      by rewrite push_floats_spec, <- app_assoc.
    + destruct (String.eqb (substring 0 2 line) "vt") eqn:Hvt.
      * cbn [parseUV obj_vertices obj_uvs flat_map].
        by rewrite push_floats_spec, <- app_assoc.
      * destruct (String.eqb (substring 0 2 line) "f "); [|done].
        unfold parseFace. by destruct (face_loop_vertices (split space line) st) as [-> ->].
Qed.

Lemma face_corner_faces i tok st :
  is_corner tok = true ->
  obj_faces (face_corner i tok st)
  = push_corner i (vertex_index st tok) (obj_faces st)
  /\ obj_uvfaces (face_corner i tok st)
     = push_corner i (uv_index st tok) (obj_uvfaces st).
Proof.
  unfold is_corner, face_corner, vertex_index, uv_index.
  intros H%negb_true_iff. by rewrite H.
Qed.

Lemma vertex_index_ext st st' tok :
  obj_vertices st' = obj_vertices st -> vertex_index st' tok = vertex_index st tok.
Proof. unfold vertex_index. by intros ->. Qed.

(** * The OBJ claims *)

(** C7 (the code departs from the claim). A face record of four corners
    written as in the claim, with nothing after the fourth corner, adds
    the first three corners only: the loop of [parseFace] stops one token
    short and never reads the fourth. The line [f 1 2 3 4] so yields
    [0,1,2] and not [0,1,2,0,2,3]. When one more token follows (as the
    empty token that a trailing space leaves), the fourth corner is read
    and adds its own index and then the first and the third corner: the
    list grows by (c1, c2, c3, c4, c1, c3), and [f 1 2 3 4 ] yields
    [0,1,2,3,0,2]. From the fifth corner on the two indices added after
    the corner are no longer the first and the previous corner: the five
    corners of [f 1 2 3 4 5 ] yield [0,1,2,3,0,2,4,3,2], whose last
    triangle is (4, 3, 2) and not (0, 3, 4). *)
Theorem quad_face_drops_its_fourth_corner (marker t1 t2 t3 t4 : string) st :
  is_corner t1 = true -> is_corner t2 = true -> is_corner t3 = true ->
  obj_faces (face_loop [marker; t1; t2; t3; t4] st)
  = obj_faces st ++ [Some (vertex_index st t1); Some (vertex_index st t2); Some (vertex_index st t3)]
  /\ (forall last : string,
        is_corner t4 = true ->
        obj_faces (face_loop [marker; t1; t2; t3; t4; last] st)
        = obj_faces st
          ++ [Some (vertex_index st t1); Some (vertex_index st t2); Some (vertex_index st t3);
              Some (vertex_index st t4); Some (vertex_index st t1); Some (vertex_index st t3)])
  /\ map ToUint32 (obj_faces (parseFace "f 1 2 3 4" empty_obj)) = [0; 1; 2]%N
  /\ map ToUint32 (obj_faces (parseFace "f 1 2 3 4" empty_obj))
     <> [0; 1; 2; 0; 2; 3]%N
  /\ map ToUint32 (obj_faces (parseFace "f 1 2 3 4 " empty_obj))
     = [0; 1; 2; 3; 0; 2]%N
  /\ map ToUint32 (obj_faces (parseFace "f 1 2 3 4 5 " empty_obj))
     = [0; 1; 2; 3; 0; 2; 4; 3; 2]%N.
Proof.
  intros H1 H2 H3.
  assert (Hthree : forall arr : list string,
    arr !! 1 = Some t1 -> arr !! 2 = Some t2 -> arr !! 3 = Some t3 ->
    obj_faces (fold_left (fun st i => face_corner i (default "" (arr !! i)) st)
                         [1; 2; 3] st)
    = obj_faces st ++ [Some (vertex_index st t1); Some (vertex_index st t2);
                       Some (vertex_index st t3)]
    /\ obj_vertices (fold_left (fun st i => face_corner i (default "" (arr !! i)) st)
                               [1; 2; 3] st)
       = obj_vertices st).
  { intros arr A1 A2 A3. cbn [fold_left]. rewrite A1, A2, A3.
    cbn [default from_option id].
    set (st1 := face_corner 1 t1 st).
    set (st2 := face_corner 2 t2 st1).
    assert (E1 : obj_vertices st1 = obj_vertices st) by apply face_corner_vertices.
    assert (E2 : obj_vertices st2 = obj_vertices st)
      by (etrans; [apply face_corner_vertices|exact E1]).
    split; [|etrans; [apply face_corner_vertices|exact E2]].
    rewrite (proj1 (face_corner_faces 3 t3 st2 H3)), (vertex_index_ext st st2 t3 E2).
    subst st2. rewrite (proj1 (face_corner_faces 2 t2 st1 H2)),
      (vertex_index_ext st st1 t2 E1).
    subst st1. rewrite (proj1 (face_corner_faces 1 t1 st H1)).
    unfold push_corner.
    change (3 <? 1)%nat with false. change (3 <? 2)%nat with false.
    change (3 <? 3)%nat with false. cbv iota.
    by rewrite <- !app_assoc. }
  split; [|split].
  - unfold face_loop. cbn [length Nat.sub seq].
    by apply (Hthree [marker; t1; t2; t3; t4]).
  - intros last H4. unfold face_loop. cbn [length Nat.sub seq].
    change [1; 2; 3; 4] with ([1; 2; 3] ++ [4]). rewrite fold_left_app.
    destruct (Hthree [marker; t1; t2; t3; t4; last]) as [Ef Ev]; try reflexivity.
    set (st3 := fold_left _ [1; 2; 3] st) in *.
    cbn [fold_left lookup list_lookup default from_option id].
    rewrite (proj1 (face_corner_faces 4 t4 st3 H4)), (vertex_index_ext st st3 t4 Ev), Ef.
    unfold push_corner. change (3 <? 4)%nat with true. cbv iota.
    rewrite <- !app_assoc. cbn [app].
    rewrite (js_index_end (obj_faces st) [_; _; _; _] 4 0) by (cbn; lia).
    cbn [lookup list_lookup mjoin option_join].
    rewrite (js_index_end (obj_faces st) [_; _; _; _; _] 3 2) by (cbn; lia).
    reflexivity.
  - repeat split; vm_compute; congruence.
Qed.

(** C7 at the tokens of the line [f 1 2 3 4]. *)
Lemma quad_face_drops_its_fourth_corner_witness :
  is_corner "1" = true /\ is_corner "2" = true /\ is_corner "3" = true
  /\ obj_faces (face_loop ["f"; "1"; "2"; "3"; "4"] empty_obj)
  = obj_faces empty_obj ++ [Some (vertex_index empty_obj "1"); Some (vertex_index empty_obj "2"); Some (vertex_index empty_obj "3")]
  /\ (forall last : string,
        is_corner "4" = true ->
        obj_faces (face_loop ["f"; "1"; "2"; "3"; "4"; last] empty_obj)
        = obj_faces empty_obj
          ++ [Some (vertex_index empty_obj "1"); Some (vertex_index empty_obj "2"); Some (vertex_index empty_obj "3");
              Some (vertex_index empty_obj "4"); Some (vertex_index empty_obj "1"); Some (vertex_index empty_obj "3")])
  /\ map ToUint32 (obj_faces (parseFace "f 1 2 3 4" empty_obj)) = [0; 1; 2]%N
  /\ map ToUint32 (obj_faces (parseFace "f 1 2 3 4" empty_obj))
     <> [0; 1; 2; 0; 2; 3]%N
  /\ map ToUint32 (obj_faces (parseFace "f 1 2 3 4 " empty_obj))
     = [0; 1; 2; 3; 0; 2]%N
  /\ map ToUint32 (obj_faces (parseFace "f 1 2 3 4 5 " empty_obj))
     = [0; 1; 2; 3; 0; 2; 4; 3; 2]%N.
Proof.
  assert (H1 : is_corner "1" = true) by reflexivity.
  assert (H2 : is_corner "2" = true) by reflexivity.
  assert (H3 : is_corner "3" = true) by reflexivity.
  repeat (split; [assumption|]).
  exact (quad_face_drops_its_fourth_corner "f" "1" "2" "3" "4" empty_obj H1 H2 H3).
Defined.

(** C8 (the code departs from the claim). In a corner token of a face
    record, a negative vertex index [n] is resolved as [n + V + 1], [V]
    being a third of the number of vertex floats read so far, before the
    conversion to a 0-based index by [- 1]; a positive one is only
    converted; the token [-1] resolves to the vertex index [V - 1]. The UV
    index of the token is resolved by the same rule, whatever the sign of
    the vertex index, but against a third of the number of UV floats read
    so far, which is the number of UV records only when every [vt] record
    has three floats. After three [vt] records of two floats each the
    count used is 2 and not 3: the corners [-3/-3], [-2/-2] and [-1/-1]
    get the vertex indices 0, 1, 2 and the UV indices -1, 0, 1 instead of
    0, 1, 2. The integers are those of magnitude 2^53 at most, and the
    lists are arrays, of fewer than 2^32 elements. *)
Theorem negative_index_resolution i tok st (V : nat) (n : Z) :
  length (obj_vertices st) = 3 * V ->
  (Z.of_nat V < 2 ^ 32)%Z ->
  parseInt (split "/" tok !! 0) = Num (inject_Z n) ->
  (Z.abs n <= 2 ^ 53)%Z ->
  obj_faces (face_corner i tok st) !! length (obj_faces st)
  = Some (Some (Num (inject_Z
       (if (n <? 0)%Z then n + (Z.of_nat V + 1) - 1 else n - 1))))
  /\ obj_faces (face_corner i "-1" st) !! length (obj_faces st)
     = Some (Some (Num (inject_Z (Z.of_nat V - 1))))
  /\ (forall (U : nat) (m : Z),
        length (obj_uvs st) = 3 * U ->
        (Z.of_nat U < 2 ^ 32)%Z ->
        parseInt (split "/" tok !! 1) = Num (inject_Z m) ->
        (Z.abs m <= 2 ^ 53)%Z ->
        obj_uvfaces (face_corner i tok st) !! length (obj_uvfaces st)
        = Some (Some (Num (inject_Z
             (if (m <? 0)%Z then m + (Z.of_nat U + 1) - 1 else m - 1)))))
  /\ (let d := obj_display (obj_lines uv_pairs_obj) in
      length (List.filter (fun line => String.eqb (substring 0 2 line) "vt")
                          (split newline uv_pairs_obj)) = 3
      /\ faceIndices d = Some [0; 1; 2]%N
      /\ uvs d = Some [F32_of_Q (-1); F32_of_Q 0; F32_of_Q 1]
      /\ uvs d <> Some [F32_of_Q 0; F32_of_Q 1; F32_of_Q 2]).
Proof.
  intros HV HVsmall Hn Hnsmall.
  assert (Hgen : forall tok' n',
    parseInt (split "/" tok' !! 0) = Num (inject_Z n') ->
    (Z.abs n' <= 2 ^ 53)%Z ->
    obj_faces (face_corner i tok' st) !! length (obj_faces st)
    = Some (Some (Num (inject_Z
         (if (n' <? 0)%Z then n' + (Z.of_nat V + 1) - 1 else n' - 1))))).
  { intros tok' n' Hn' Hsmall.
    destruct (face_corner_faces i tok' st) as [-> _];
      [unfold is_corner; by rewrite Hn'|].
    destruct (push_corner_first i (vertex_index st tok') (obj_faces st))
      as [extra ->].
    rewrite lookup_app_r, Nat.sub_diag by lia. cbn [lookup list_lookup].
    unfold vertex_index. rewrite Hn', (third_of_triples _ V HV) by lia.
    rewrite resolve_Z by lia.
    change (num_of_nat 1) with (Num (inject_Z 1)).
    rewrite num_sub_Z by (destruct (n' <? 0)%Z eqn:E; lia).
    by destruct (n' <? 0)%Z. }
  split; [by apply Hgen|]. split; [|split].
  - rewrite (Hgen "-1" (-1)%Z) by (try reflexivity; lia).
    change (-1 <? 0)%Z with true. cbv iota.
    replace (-1 + (Z.of_nat V + 1) - 1)%Z with (Z.of_nat V - 1)%Z by lia.
    reflexivity.
  - intros U m HU HUsmall Hm Hmsmall.
    destruct (face_corner_faces i tok st) as [_ ->];
      [unfold is_corner; by rewrite Hn|].
    destruct (push_corner_first i (uv_index st tok) (obj_uvfaces st))
      as [extra ->].
    rewrite lookup_app_r, Nat.sub_diag by lia. cbn [lookup list_lookup].
    unfold uv_index. rewrite Hm, (third_of_triples _ U HU) by lia.
    rewrite resolve_Z by lia.
    change (num_of_nat 1) with (Num (inject_Z 1)).
    rewrite num_sub_Z by (destruct (m <? 0)%Z eqn:E; lia).
    by destruct (m <? 0)%Z.
  - repeat split; try (vm_compute; reflexivity). vm_compute. discriminate.
Qed.

(** C8 at the token [-2/-1], with three vertices and one UV record of
    three floats read. *)
Lemma negative_index_resolution_witness :
  length (obj_vertices three_vertices) = 3 * 3
  /\ (Z.of_nat 3 < 2 ^ 32)%Z
  /\ parseInt (split "/" "-2/-1" !! 0) = Num (inject_Z (-2))
  /\ (Z.abs (-2) <= 2 ^ 53)%Z
  /\ obj_faces (face_corner 1 "-2/-1" three_vertices) !! length (obj_faces three_vertices)
  = Some (Some (Num (inject_Z
       (if ((-2) <? 0)%Z then (-2) + (Z.of_nat 3 + 1) - 1 else (-2) - 1))))
  /\ obj_faces (face_corner 1 "-1" three_vertices) !! length (obj_faces three_vertices)
     = Some (Some (Num (inject_Z (Z.of_nat 3 - 1))))
  /\ (forall (U : nat) (m : Z),
        length (obj_uvs three_vertices) = 3 * U ->
        (Z.of_nat U < 2 ^ 32)%Z ->
        parseInt (split "/" "-2/-1" !! 1) = Num (inject_Z m) ->
        (Z.abs m <= 2 ^ 53)%Z ->
        obj_uvfaces (face_corner 1 "-2/-1" three_vertices) !! length (obj_uvfaces three_vertices)
        = Some (Some (Num (inject_Z
             (if (m <? 0)%Z then m + (Z.of_nat U + 1) - 1 else m - 1)))))
  /\ (let d := obj_display (obj_lines uv_pairs_obj) in
      length (List.filter (fun line => String.eqb (substring 0 2 line) "vt")
                          (split newline uv_pairs_obj)) = 3
      /\ faceIndices d = Some [0; 1; 2]%N
      /\ uvs d = Some [F32_of_Q (-1); F32_of_Q 0; F32_of_Q 1]
      /\ uvs d <> Some [F32_of_Q 0; F32_of_Q 1; F32_of_Q 2]).
Proof.
  assert (H1 : length (obj_vertices three_vertices) = 3 * 3) by reflexivity.
  assert (H2 : (Z.of_nat 3 < 2 ^ 32)%Z) by (vm_compute; reflexivity).
  assert (H3 : parseInt (split "/" "-2/-1" !! 0) = Num (inject_Z (-2)))
    by (vm_compute; reflexivity).
  assert (H4 : (Z.abs (-2) <= 2 ^ 53)%Z) by (vm_compute; discriminate).
  repeat (split; [assumption|]).
  exact (negative_index_resolution 1 "-2/-1" three_vertices 3 (-2) H1 H2 H3 H4).
Defined.

(** The UV index of that token, after one UV record of three floats. *)
Lemma negative_uv_index_of_a_triple :
  obj_uvfaces (face_corner 1 "-2/-1" three_vertices) = [Some (Num (inject_Z 0))].
Proof. vm_compute. reflexivity. Qed.

(** Negative indices in a whole text: the three corners of the face are
    the three vertices read before it. *)
Lemma negative_indices_in_a_text :
  map ToUint32
      (obj_faces (obj_lines "v 0 0 0
v 1 0 0
v 0 1 0
f -3 -2 -1 "))
  = [0; 1; 2]%N.
Proof. vm_compute. reflexivity. Qed.

(** C9 (the code departs from the claim). The single display call of the
    OBJ handler carries the floats of the [v ] records as vertices, the
    resolved indices as face indices and no colors; but its UV argument is
    the list of resolved UV indices of the faces, not the floats parsed
    from the [vt] records, which are sent nowhere. On a triangle whose
    corners all map to the UV record [0.5 0.25 0], the UV argument is
    [0, 0, 0]. *)
Theorem obj_uvs_are_the_uv_indices :
  (forall (data : blob) w,
     let text := readAsText data in
     let st := obj_lines text in
     exists d,
       displays (onload_obj data w).2 = displays w ++ [d]
       /\ vertices d = map F32_of_string (record_floats "v " text)
       /\ faceIndices d = Some (map ToUint32 (obj_faces st))
       /\ colors d = None
       /\ uvs d = Some (map float32_of_value (obj_uvfaces st))
       /\ obj_uvs st = record_floats "vt" text)
  /\ (let d := obj_display (obj_lines obj_sample) in
      record_floats "vt" obj_sample = ["0.5"; "0.25"; "0"]
      /\ uvs d = Some [F32_of_Q 0; F32_of_Q 0; F32_of_Q 0]
      /\ uvs d <> Some (map F32_of_string (record_floats "vt" obj_sample))
      /\ faceIndices d = Some [0; 1; 2]%N
      /\ vertices d
         = map F32_of_string ["0"; "0"; "0"; "1"; "0"; "0"; "0"; "1"; "0"]).
Proof.
  split.
  - intros data w text st. exists (obj_display st).
    unfold onload_obj. fold text st.
    destruct (obj_lines_floats (split newline text) empty_obj) as [Hv Hu].
    repeat split.
    + unfold displays, emit. cbn [snd history]. by rewrite omap_app.
    + cbn [obj_display vertices]. f_equal. exact Hv.
    + exact Hu.
  - repeat split; try (vm_compute; reflexivity). vm_compute. discriminate.
Qed.

(** C10. The OBJ handler never signals an error: whatever the text, it
    completes normally, calls [viewer.display] exactly once, starts no
    read, throws nothing and leaves the flags alone. What does not read
    as a number is skipped in silence: the vertex and UV lists hold exactly
    the tokens of the [v ] and [vt] records that [parseFloat] reads as
    numbers, a coordinate token that does not is the same as no token, and
    a corner token whose vertex index is not a number changes nothing. *)
Theorem obj_parser_never_fails array_limit stack_limit (data : blob) w :
  let text := readAsText data in
  (exists w',
     run_handler array_limit stack_limit (ReadObj data) w = (Normal tt, w')
     /\ history w' = history w ++ [EvDisplay (obj_display (obj_lines text))]
     /\ displays w' = displays w ++ [obj_display (obj_lines text)]
     /\ viewer w' = viewer w /\ pending w' = pending w
     /\ uncaught w' = uncaught w)
  /\ obj_vertices (obj_lines text) = record_floats "v " text
  /\ obj_uvs (obj_lines text) = record_floats "vt" text
  /\ (forall before tok after acc,
        match parseFloat tok with
        | Some _ => True
        | None => push_floats (before ++ tok :: after) acc
                  = push_floats (before ++ after) acc
        end)
  /\ (forall i tok st,
        if is_corner tok then True else face_corner i tok st = st).
Proof.
  intros text. split; [|split; [|split; [|split]]].
  - eexists. split; [reflexivity|]. cbn [onload_obj emit history viewer pending
                                         uncaught]. fold text.
    repeat split. unfold displays. cbn [history]. by rewrite omap_app.
  - apply (obj_lines_floats (split newline text) empty_obj).
  - apply (obj_lines_floats (split newline text) empty_obj).
  - intros before tok after acc. destruct (parseFloat tok) eqn:Htok; [done|].
    rewrite !push_floats_spec, !omap_app. cbn. by rewrite Htok.
  - intros i tok st. unfold is_corner, face_corner.
    by destruct (isNaN (parseInt (split "/" tok !! 0))).
Qed.

(** A text with a coordinate and a corner that are not numbers. *)
Lemma obj_skips_what_is_not_a_number :
  obj_display (obj_lines "v 1 abc 2
f 1 x 2 ")
  = Display [F32_of_string "1"; F32_of_string "2"] None
            (Some [0; 1]%N) None (Some [F32_NaN; F32_NaN]).
Proof. vm_compute. reflexivity. Qed.

(** * Further properties of the STL parsers *)

(** ** Sniffing *)

Lemma prefix_of_bytes p : forall l : blob,
  String.prefix p (readAsText l)
  = String.eqb (readAsText (take (String.length p) l)) p.
Proof.
  unfold readAsText.
  induction p as [|c p IH]; intros l.
  - by destruct l.
  - destruct l as [|b l]; [reflexivity|].
    cbn [String.length take].
    change (string_of_list_byte (b :: l))
      with (String (ascii_of_byte b) (string_of_list_byte l)).
    change (string_of_list_byte (b :: take (String.length p) l))
      with (String (ascii_of_byte b) (string_of_list_byte (take (String.length p) l))).
    cbn [String.prefix String.eqb].
    destruct (ascii_dec c (ascii_of_byte b)) as [Heq|Hne].
    + rewrite <- Heq, Ascii.eqb_refl, IH. reflexivity.
    + apply not_eq_sym, Ascii.eqb_neq in Hne. by rewrite Hne.
Qed.

Lemma prefix_too_short p : forall s,
  String.length s < String.length p -> String.prefix p s = false.
Proof.
  induction p as [|c p IH]; intros s Hlen; [cbn in Hlen; lia|].
  destruct s as [|d s]; [reflexivity|]. cbn in Hlen. cbn [String.prefix].
  destruct (ascii_dec c d); [|reflexivity]. apply IH. lia.
Qed.

Lemma includes_too_short p : forall s,
  String.length s < String.length p -> includes p s = false.
Proof.
  induction s as [|d s IH]; intros Hlen; cbn [includes].
  - rewrite prefix_too_short by assumption. reflexivity.
  - rewrite prefix_too_short by assumption. cbn in Hlen. apply IH. lia.
Qed.

Lemma length_readAsText (l : blob) : String.length (readAsText l) = length l.
Proof.
  unfold readAsText. induction l as [|b l IH]; [reflexivity|].
  change (string_of_list_byte (b :: l))
    with (String (ascii_of_byte b) (string_of_list_byte l)).
  cbn [String.length length]. by rewrite IH.
Qed.

Lemma sniff_solid (data : blob) :
  includes "solid" (readAsText (take 6 data)) = solid_at 0 data || solid_at 1 data.
Proof.
  unfold solid_at. rewrite drop_0.
  destruct data as [|b data].
  - reflexivity.
  - change (take 6 (b :: data)) with (b :: take 5 data).
    change (readAsText (b :: take 5 data))
      with (String (ascii_of_byte b) (readAsText (take 5 data))).
    cbn [includes].
    change (String (ascii_of_byte b) (readAsText (take 5 data)))
      with (readAsText (take 6 (b :: data))).
    rewrite prefix_of_bytes. change (String.length "solid") with 5.
    rewrite take_take. change (5 `min` 6) with 5.
    f_equal.
    cbn [drop]. rewrite drop_0.
    destruct (take 5 data) as [|c l] eqn:Htake.
    + reflexivity.
    + change (readAsText (c :: l)) with (String (ascii_of_byte c) (readAsText l)).
      cbn [includes].
      change (String (ascii_of_byte c) (readAsText l)) with (readAsText (c :: l)).
      rewrite includes_too_short, orb_false_r.
      * rewrite prefix_of_bytes. change (String.length "solid") with 5.
        rewrite <- Htake, take_take. reflexivity.
      * rewrite length_readAsText.
        assert (length (c :: l) <= 5) by (rewrite <- Htake, length_take; lia).
        cbn in *. lia.
Qed.

(** X1. [parseSTL] decides by the first six bytes of the blob alone, in
    which it looks for the word [solid]: the blob is handed to the ASCII
    sub-parser first exactly when its bytes 0 to 4 or its bytes 1 to 5
    spell [solid], and to the binary sub-parser first otherwise. The
    sniffing handler starts this one read and does nothing else: it
    displays nothing, sets no flag and throws nothing. *)
Theorem solid_is_sought_at_bytes_0_and_1 array_limit stack_limit (data : blob) :
  includes "solid" (readAsText (take 6 data)) = solid_at 0 data || solid_at 1 data
  /\ let w := event_loop array_limit stack_limit 1 (parseSTL data new_world).2 in
     pending w = [if solid_at 0 data || solid_at 1 data
                  then ReadAscii data else ReadBinary data]
     /\ displays w = [] /\ viewer w = mkViewer false false /\ uncaught w = [].
Proof.
  split; [apply sniff_solid|]. cbv zeta.
  rewrite indicator_step, sniff_solid. cbn [event_loop].
  by destruct (solid_at 0 data || solid_at 1 data).
Qed.

(** ** One load, from the sniffing to the last handler *)

Lemma event_loop_done array_limit stack_limit fuel w :
  pending w = [] -> event_loop array_limit stack_limit fuel w = w.
Proof. intros H. destruct fuel; cbn [event_loop]; [reflexivity|]. by rewrite H. Qed.

Lemma onload_ascii_shows array_limit stack_limit data w :
  ascii_fails array_limit stack_limit (readAsText data) = false ->
  exists w', onload_ascii array_limit stack_limit data w = (Normal tt, w')
             /\ shows (ascii_mesh data) w w'.
Proof.
  intros H. eexists. split; [exact (onload_ascii_returns array_limit stack_limit data w H)|].
  unfold shows. rewrite displays_parse. by repeat split.
Qed.

Lemma onload_binary_shows array_limit stack_limit data w :
  binary_fails array_limit stack_limit data = false ->
  exists w', onload_binary array_limit stack_limit data w = (Normal tt, w')
             /\ shows (binary_mesh data) w w'.
Proof.
  intros H. eexists. split; [exact (onload_binary_returns array_limit stack_limit data w H)|].
  unfold shows. rewrite displays_parse. by repeat split.
Qed.

(** One round of the event loop on a read of [stl_ascii]. *)
Lemma ascii_step array_limit stack_limit fuel w (data : blob) rest :
  pending w = ReadAscii data :: rest ->
  exists w1,
    event_loop array_limit stack_limit (S fuel) w = event_loop array_limit stack_limit fuel w1
    /\ uncaught w1 = uncaught w
    /\ if ascii_fails array_limit stack_limit (readAsText data)
       then viewer w1 = mkViewer true (attemptedBINARY_STL (viewer w))
            /\ pending w1
               = rest ++ (if attemptedBINARY_STL (viewer w) then []
                          else [ReadBinary data])
            /\ displays w1 = displays w
       else viewer w1 = viewer w /\ pending w1 = rest
            /\ displays w1 = displays w ++ [ascii_mesh data].
Proof.
  intros Hp. rewrite (event_loop_step _ _ _ _ _ _ Hp). cbn [run_handler].
  destruct (ascii_fails array_limit stack_limit (readAsText data)) eqn:Hfails.
  - match goal with |- context [onload_ascii array_limit stack_limit data ?w0] =>
      destruct (onload_ascii_fails array_limit stack_limit data w0 Hfails)
        as (w1 & -> & Hv & Hp1 & Hu & Hd) end.
    exists w1. cbn [settle]. split; [reflexivity|]. auto.
  - match goal with |- context [onload_ascii array_limit stack_limit data ?w0] =>
      destruct (onload_ascii_shows array_limit stack_limit data w0 Hfails)
        as (w1 & -> & Hv & Hp1 & Hu & Hd) end.
    exists w1. cbn [settle]. split; [reflexivity|]. auto.
Qed.

(** One round of the event loop on a read of [stl_binary]. *)
Lemma binary_step array_limit stack_limit fuel w (data : blob) rest :
  pending w = ReadBinary data :: rest ->
  exists w1,
    event_loop array_limit stack_limit (S fuel) w = event_loop array_limit stack_limit fuel w1
    /\ uncaught w1 = uncaught w
    /\ if binary_fails array_limit stack_limit data
       then viewer w1 = mkViewer (attemptedASCII_STL (viewer w)) true
            /\ pending w1
               = rest ++ (if attemptedASCII_STL (viewer w) then []
                          else [ReadAscii data])
            /\ displays w1 = displays w
       else viewer w1 = viewer w /\ pending w1 = rest
            /\ displays w1 = displays w ++ [binary_mesh data].
Proof.
  intros Hp. rewrite (event_loop_step _ _ _ _ _ _ Hp). cbn [run_handler].
  destruct (binary_fails array_limit stack_limit data) eqn:Hfails.
  - match goal with |- context [onload_binary array_limit stack_limit data ?w0] =>
      destruct (onload_binary_fails array_limit stack_limit data w0 Hfails)
        as (w1 & -> & Hv & Hp1 & Hu & Hd) end.
    exists w1. cbn [settle]. split; [reflexivity|]. auto.
  - match goal with |- context [onload_binary array_limit stack_limit data ?w0] =>
      destruct (onload_binary_shows array_limit stack_limit data w0 Hfails)
        as (w1 & -> & Hv & Hp1 & Hu & Hd) end.
    exists w1. cbn [settle]. split; [reflexivity|]. auto.
Qed.

(** X2. A load by [parseSTL] on a fresh viewer is over after at most three
    handlers, whatever the blob: no read is left pending and no exception
    has left a handler. The viewer displays at most one mesh: that of the
    sub-parser chosen by the sniffing when its [try] block returns,
    otherwise that of the other sub-parser when its [try] block returns,
    and nothing when both throw. A flag is set exactly for each sub-parser
    that has run and thrown. *)
Theorem parseSTL_outcome array_limit stack_limit (data : blob) :
  let w := event_loop array_limit stack_limit 3 (parseSTL data new_world).2 in
  let ascii_first := includes "solid" (readAsText (take 6 data)) in
  let ascii_ok := negb (ascii_fails array_limit stack_limit (readAsText data)) in
  let binary_ok := negb (binary_fails array_limit stack_limit data) in
  pending w = [] /\ uncaught w = []
  /\ displays w
     = (if ascii_first
        then if ascii_ok then [ascii_mesh data]
             else if binary_ok then [binary_mesh data] else []
        else if binary_ok then [binary_mesh data]
             else if ascii_ok then [ascii_mesh data] else [])
  /\ viewer w
     = mkViewer ((ascii_first || negb binary_ok) && negb ascii_ok)
                ((negb ascii_first || negb ascii_ok) && negb binary_ok).
Proof.
  cbv zeta. rewrite indicator_step.
  destruct (includes "solid" (readAsText (take 6 data))).
  - edestruct (ascii_step array_limit stack_limit 1) as (w1 & -> & Hu1 & H1); [reflexivity|].
    destruct (ascii_fails array_limit stack_limit (readAsText data)).
    + destruct H1 as (Hv1 & Hp1 & Hd1). cbn in Hv1, Hp1, Hd1, Hu1.
      edestruct (binary_step array_limit stack_limit 0) as (w2 & -> & Hu2 & H2); [exact Hp1|].
      cbn [event_loop].
      destruct (binary_fails array_limit stack_limit data).
      * destruct H2 as (Hv2 & Hp2 & Hd2). rewrite Hv1 in Hv2, Hp2.
        cbn in Hv2, Hp2. cbn [negb orb andb]. repeat split; congruence.
      * destruct H2 as (Hv2 & Hp2 & Hd2).
        rewrite Hd1 in Hd2. cbn [app] in Hd2. cbn [negb orb andb].
        repeat split; congruence.
    + destruct H1 as (Hv1 & Hp1 & Hd1). cbn in Hv1, Hp1, Hd1, Hu1.
      rewrite event_loop_done by assumption.
      destruct (binary_fails array_limit stack_limit data); cbn [negb orb andb];
        repeat split; assumption.
  - edestruct (binary_step array_limit stack_limit 1) as (w1 & -> & Hu1 & H1); [reflexivity|].
    destruct (binary_fails array_limit stack_limit data).
    + destruct H1 as (Hv1 & Hp1 & Hd1). cbn in Hv1, Hp1, Hd1, Hu1.
      edestruct (ascii_step array_limit stack_limit 0) as (w2 & -> & Hu2 & H2); [exact Hp1|].
      cbn [event_loop].
      destruct (ascii_fails array_limit stack_limit (readAsText data)).
      * destruct H2 as (Hv2 & Hp2 & Hd2). rewrite Hv1 in Hv2, Hp2.
        cbn in Hv2, Hp2. cbn [negb orb andb]. repeat split; congruence.
      * destruct H2 as (Hv2 & Hp2 & Hd2).
        rewrite Hd1 in Hd2. cbn [app] in Hd2. cbn [negb orb andb].
        repeat split; congruence.
    + destruct H1 as (Hv1 & Hp1 & Hd1). cbn in Hv1, Hp1, Hd1, Hu1.
      rewrite event_loop_done by assumption.
      destruct (ascii_fails array_limit stack_limit (readAsText data)); cbn [negb orb andb];
        repeat split; assumption.
Qed.

(** ** The attempt flags *)

Lemma flags_kept_refl v : flags_kept v v = true.
Proof. unfold flags_kept. by destruct v as [[] []]. Qed.

Lemma flags_kept_trans v1 v2 v3 :
  flags_kept v1 v2 = true -> flags_kept v2 v3 = true -> flags_kept v1 v3 = true.
Proof. unfold flags_kept. by destruct v1 as [[] []], v2 as [[] []], v3 as [[] []]. Qed.

Lemma run_handler_keeps_flags array_limit stack_limit r w :
  flags_kept (viewer w) (viewer (settle (run_handler array_limit stack_limit r w))) = true.
Proof.
  destruct r as [data|data|data|data]; cbn [run_handler].
  - unfold onload_indicator, stl_ascii, stl_binary.
    destruct (includes "solid" (readAsText (take 6 data)));
      [destruct (attemptedASCII_STL (viewer w))
      |destruct (attemptedBINARY_STL (viewer w))];
      apply flags_kept_refl.
  - destruct (ascii_fails array_limit stack_limit (readAsText data)) eqn:Hfails.
    + destruct (onload_ascii_fails array_limit stack_limit data w Hfails) as (w1 & -> & Hv & _).
      cbn [settle]. rewrite Hv. unfold flags_kept.
      by destruct (viewer w) as [[] []].
    + rewrite (onload_ascii_returns array_limit stack_limit data w Hfails). apply flags_kept_refl.
  - destruct (binary_fails array_limit stack_limit data) eqn:Hfails.
    + destruct (onload_binary_fails array_limit stack_limit data w Hfails) as (w1 & -> & Hv & _).
      cbn [settle]. rewrite Hv. unfold flags_kept.
      by destruct (viewer w) as [[] []].
    + rewrite (onload_binary_returns array_limit stack_limit data w Hfails). apply flags_kept_refl.
  - apply flags_kept_refl.
Qed.

(** X3. No handler ever resets an attempt flag: whatever reads are pending
    and however many handlers run, a flag of the viewer that is true stays
    true. *)
Theorem attempt_flags_are_never_reset array_limit stack_limit fuel : forall w,
  flags_kept (viewer w) (viewer (event_loop array_limit stack_limit fuel w)) = true.
Proof.
  induction fuel as [|fuel IH]; intros w; cbn [event_loop].
  - apply flags_kept_refl.
  - destruct (pending w) as [|r rest]; [apply flags_kept_refl|].
    eapply flags_kept_trans; [|apply IH].
    apply (run_handler_keeps_flags array_limit stack_limit r
             (mkWorld (viewer w) (triangleData w) (history w) rest (uncaught w))).
Qed.

(** X4. A sub-parser that has failed once on a viewer is not tried again
    on it: when the flag of the sub-parser that the sniffing chooses is
    already set, a further call of [parseSTL] on that viewer changes
    nothing at all. No read of the blob is started and nothing is
    displayed, whatever the blob holds. *)
Theorem a_failed_attempt_is_not_repeated array_limit stack_limit fuel (data : blob) w :
  pending w = [] ->
  (if includes "solid" (readAsText (take 6 data))
   then attemptedASCII_STL (viewer w) else attemptedBINARY_STL (viewer w)) = true ->
  event_loop array_limit stack_limit (S fuel) (parseSTL data w).2 = w.
Proof.
  intros Hp Hflag. destruct w as [v td h p u]. cbn in Hp. subst p.
  cbn [event_loop parseSTL schedule snd pending app run_handler
       viewer triangleData history uncaught].
  unfold onload_indicator, stl_ascii, stl_binary. cbn [viewer] in *.
  revert Hflag.
  destruct (includes "solid" (readAsText (take 6 data))); intros Hflag;
    cbv beta; cbn [viewer]; rewrite Hflag; cbn [ret settle];
    by rewrite event_loop_done.
Qed.

(** X4 at the minimal ASCII file, on a viewer whose ASCII flag is set. *)
Lemma a_failed_attempt_is_not_repeated_witness :
  pending fell_back_once = []
  /\ (if includes "solid" (readAsText (take 6 (list_byte_of_string minimal_stl)))
      then attemptedASCII_STL (viewer fell_back_once)
      else attemptedBINARY_STL (viewer fell_back_once)) = true
  /\ event_loop limit32 stack1000 (S 2) (parseSTL (list_byte_of_string minimal_stl) fell_back_once).2
     = fell_back_once.
Proof.
  assert (H1 : pending fell_back_once = []) by reflexivity.
  assert (H2 : (if includes "solid"
                     (readAsText (take 6 (list_byte_of_string minimal_stl)))
                then attemptedASCII_STL (viewer fell_back_once)
                else attemptedBINARY_STL (viewer fell_back_once)) = true)
    by (vm_compute; reflexivity).
  split; [exact H1|]. split; [exact H2|].
  exact (a_failed_attempt_is_not_repeated limit32 stack1000 2
           (list_byte_of_string minimal_stl) fell_back_once H1 H2).
Defined.

(** ** What the ASCII sub-parser checks and what it reads *)

(** X5. The ASCII sub-parser checks the number of lines before it reads
    any: when the text does not have [7n + 3] lines (as a file whose last
    line is not ended by a newline), its handler throws inside the [try]
    block, sets [attemptedASCII_STL], hands the blob to the binary
    sub-parser unless that one has failed already, and displays
    nothing. *)
Theorem ascii_line_count_is_checked array_limit stack_limit (data : blob) w :
  length (split newline (readAsText data)) mod 7 <> 3 ->
  exists w',
    onload_ascii array_limit stack_limit data w = (Normal tt, w')
    /\ fell_back (mkViewer true (attemptedBINARY_STL (viewer w)))
                 (if attemptedBINARY_STL (viewer w) then [] else [ReadBinary data])
                 w w'.
Proof.
  intros Hlen. apply onload_ascii_fails. unfold ascii_fails.
  replace ((Z.of_nat (length (split newline (readAsText data))) - 3) mod 7 =? 0)%Z
    with false; [reflexivity|].
  symmetry. apply Z.eqb_neq.
  pose proof (Nat2Z.inj_mod (length (split newline (readAsText data))) 7) as Hmod.
  assert (Hlen' : Z.of_nat (length (split newline (readAsText data)) mod 7) <> 3%Z)
    by lia.
  rewrite Hmod in Hlen'. clear Hmod Hlen.
  Z.div_mod_to_equations. lia.
Qed.

(** X5 at the minimal file without its last newline: nine lines. *)
Lemma ascii_line_count_is_checked_witness :
  length (split newline (readAsText (list_byte_of_string unterminated_stl))) mod 7 <> 3
  /\ exists w',
       onload_ascii limit32 stack1000 (list_byte_of_string unterminated_stl) new_world
       = (Normal tt, w')
       /\ fell_back (mkViewer true (attemptedBINARY_STL (viewer new_world)))
                    (if attemptedBINARY_STL (viewer new_world) then []
                     else [ReadBinary (list_byte_of_string unterminated_stl)])
                    new_world w'.
Proof.
  assert (H : length (split newline (readAsText (list_byte_of_string unterminated_stl)))
              mod 7 <> 3) by (vm_compute; discriminate).
  split; [exact H|].
  exact (ascii_line_count_is_checked limit32 stack1000 _ new_world H).
Defined.



Lemma ascii_triangle_ext splice1 splice2 i :
  splice1 !! (3 + 7 * i) = splice2 !! (3 + 7 * i) ->
  splice1 !! (4 + 7 * i) = splice2 !! (4 + 7 * i) ->
  splice1 !! (5 + 7 * i) = splice2 !! (5 + 7 * i) ->
  ascii_triangle splice1 i = ascii_triangle splice2 i.
Proof. unfold ascii_triangle. by intros -> -> ->. Qed.

(** X7. The ASCII sub-parser reads nothing of a text but the number of its
    lines and its vertex lines: two texts with the same number of lines
    and the same lines [3 + 7i], [4 + 7i] and [5 + 7i] are accepted or
    rejected alike, and leave the same displays and the same flags. The
    header, the footer and the lines of the keywords [facet], [outer loop],
    [endloop] and [endfacet] are never looked at. *)
Theorem ascii_reads_only_the_vertex_lines array_limit stack_limit (data1 data2 : blob) w :
  let splice1 := split newline (readAsText data1) in
  let splice2 := split newline (readAsText data2) in
  length splice1 = length splice2 ->
  (forall i, splice1 !! (3 + 7 * i) = splice2 !! (3 + 7 * i)
             /\ splice1 !! (4 + 7 * i) = splice2 !! (4 + 7 * i)
             /\ splice1 !! (5 + 7 * i) = splice2 !! (5 + 7 * i)) ->
  ascii_fails array_limit stack_limit (readAsText data1) = ascii_fails array_limit stack_limit (readAsText data2)
  /\ displays (onload_ascii array_limit stack_limit data1 w).2
     = displays (onload_ascii array_limit stack_limit data2 w).2
  /\ viewer (onload_ascii array_limit stack_limit data1 w).2
     = viewer (onload_ascii array_limit stack_limit data2 w).2.
Proof.
  intros splice1 splice2 Hlen Hlines.
  assert (Hcount : ascii_count (readAsText data1) = ascii_count (readAsText data2)).
  { unfold ascii_count. fold splice1 splice2. by rewrite Hlen. }
  assert (Hfails : ascii_fails array_limit stack_limit (readAsText data1)
                   = ascii_fails array_limit stack_limit (readAsText data2)).
  { unfold ascii_fails. fold splice1 splice2. by rewrite Hlen, Hcount. }
  split; [exact Hfails|].
  destruct (ascii_fails array_limit stack_limit (readAsText data2)) eqn:H2.
  - destruct (onload_ascii_fails array_limit stack_limit data1 w Hfails)
      as (w1 & -> & Hv1 & _ & _ & Hd1).
    destruct (onload_ascii_fails array_limit stack_limit data2 w H2)
      as (w2 & -> & Hv2 & _ & _ & Hd2).
    cbn [snd]. split; congruence.
  - rewrite (onload_ascii_returns array_limit stack_limit data1 w Hfails).
    rewrite (onload_ascii_returns array_limit stack_limit data2 w H2).
    cbn [snd]. rewrite !displays_parse. fold splice1 splice2. rewrite Hcount.
    split; [|reflexivity]. do 3 f_equal.
    apply flat_map_ext. intros i. apply ascii_triangle_ext; apply Hlines.
Qed.

(** X7 at a file of 500 triangles and a text of as many lines that
    shares nothing with it but the vertex lines: both are accepted, and
    the same 4500 floats are displayed for both. *)
Lemma ascii_reads_only_the_vertex_lines_witness :
  let splice1 := split newline (readAsText (list_byte_of_string stl_500)) in
  let splice2 := split newline (readAsText (list_byte_of_string unlabelled_500)) in
  length splice1 = length splice2
  /\ (forall i, splice1 !! (3 + 7 * i) = splice2 !! (3 + 7 * i)
                /\ splice1 !! (4 + 7 * i) = splice2 !! (4 + 7 * i)
                /\ splice1 !! (5 + 7 * i) = splice2 !! (5 + 7 * i))
  /\ splice1 !! 0 <> splice2 !! 0
  /\ ascii_fails limit32 stack1000 (readAsText (list_byte_of_string stl_500)) = false
  /\ (exists vs,
        displays (onload_ascii limit32 stack1000 (list_byte_of_string stl_500) new_world).2
        = [Display vs None None None None]
        /\ length vs = 9 * 500)
  /\ ascii_fails limit32 stack1000 (readAsText (list_byte_of_string stl_500))
     = ascii_fails limit32 stack1000 (readAsText (list_byte_of_string unlabelled_500))
  /\ displays (onload_ascii limit32 stack1000 (list_byte_of_string stl_500) new_world).2
     = displays (onload_ascii limit32 stack1000 (list_byte_of_string unlabelled_500) new_world).2
  /\ viewer (onload_ascii limit32 stack1000 (list_byte_of_string stl_500) new_world).2
     = viewer (onload_ascii limit32 stack1000 (list_byte_of_string unlabelled_500) new_world).2.
Proof.
  cbv zeta.
  destruct (same_vertex_lines "solid packit" "this is" plain_facet unlabelled_facet
              ["endsolid packit"; ""] ["no STL file"; ""] 500)
    as (L1 & L2 & Hlines); try reflexivity.
  assert (E0 : ("solid packit" :: concat (repeat plain_facet 500)
                  ++ ["endsolid packit"; ""]) !! 0
               <> ("this is" :: concat (repeat unlabelled_facet 500)
                     ++ ["no STL file"; ""]) !! 0) by discriminate.
  rewrite <- (splice_of_plain_facets 500) in L1, Hlines, E0.
  fold stl_500 in L1, Hlines, E0.
  rewrite <- splice_of_unlabelled_500 in L2, Hlines, E0.
  assert (H1 : length (split newline (readAsText (list_byte_of_string stl_500)))
               = length (split newline (readAsText (list_byte_of_string unlabelled_500))))
    by congruence.
  assert (Hlarge : PER_BATCH <= 500) by (unfold PER_BATCH; lia).
  assert (Hlimit : (Z.of_nat 500 * 9 <= limit32)%Z) by (vm_compute; discriminate).
  assert (Hdeep : depth 500 <= stack1000) by (apply Nat.leb_le; vm_compute; reflexivity).
  split; [exact H1|]. split; [exact Hlines|]. split; [exact E0|].
  split; [exact (proj2 (ascii_accepts limit32 stack1000 _ 500 L1 Hlarge Hlimit Hdeep))|].
  split.
  { destruct (ascii_large_file_is_parsed limit32 stack1000 (list_byte_of_string stl_500) new_world
                500 L1 Hlarge Hlimit Hdeep) as (w' & vs & Hrun & Hd & Hl & _).
    exists vs. rewrite Hrun. by split. }
  exact (ascii_reads_only_the_vertex_lines limit32 stack1000
           (list_byte_of_string stl_500) (list_byte_of_string unlabelled_500) new_world H1 Hlines).
Defined.

(** ** The batches, for any number of triangles *)

Lemma triangle_calls_app l1 l2 :
  triangle_calls (l1 ++ l2) = triangle_calls l1 ++ triangle_calls l2.
Proof. apply omap_app. Qed.

Lemma batch_calls_app l1 l2 :
  batch_calls (l1 ++ l2) = batch_calls l1 ++ batch_calls l2.
Proof. apply omap_app. Qed.

Lemma batch_events_split remainder final more : forall batchCount,
  batch_events remainder final more batchCount
  = batch_calls_before remainder more batchCount
    ++ EvDisplay (Display final None None None None) :: repeat EvSetTimeout more.
Proof.
  induction more as [|more IH]; intros c; cbn [batch_events batch_calls_before];
    generalize (map EvGetTriangle (seq (PER_BATCH * c) PER_BATCH)); intros A.
  - generalize (map EvGetTriangle (seq (PER_BATCH * S c) remainder)); intros B.
    cbn [repeat app]. f_equal. rewrite <- app_assoc. reflexivity.
  - rewrite IH.
    generalize (batch_calls_before remainder more (S c)); intros B.
    cbn [app]. f_equal. rewrite <- !app_assoc. f_equal. f_equal.
    cbn [app]. f_equal.
    cbn [repeat]. symmetry. apply repeat_cons.
Qed.

Lemma batch_calls_before_calls remainder more : forall batchCount,
  batch_calls (batch_calls_before remainder more batchCount) = seq batchCount (S more)
  /\ triangle_calls (batch_calls_before remainder more batchCount)
     = seq (PER_BATCH * batchCount) (PER_BATCH * S more + remainder)
  /\ length (batch_calls_before remainder more batchCount)
     = S more + (PER_BATCH * S more + remainder).
Proof.
  induction more as [|more IH]; intros c; cbn [batch_calls_before].
  - change (EvRunBatch c :: ?l) with ([EvRunBatch c] ++ l).
    rewrite !batch_calls_app, !triangle_calls_app, !length_app, !length_map, !length_seq.
    unfold batch_calls at 2 3, triangle_calls at 2 3.
    rewrite !omap_map_GetTriangle_batch, !omap_map_GetTriangle.
    split; [reflexivity|]. split.
    + cbn [triangle_calls omap list_omap app].
      replace (PER_BATCH * 1 + remainder) with (PER_BATCH + remainder) by lia.
      rewrite seq_app. do 2 f_equal. unfold PER_BATCH. lia.
    + cbn [length]. unfold PER_BATCH. lia.
  - destruct (IH (S c)) as (IHb & IHt & IHl).
    change (EvRunBatch c :: ?l) with ([EvRunBatch c] ++ l).
    rewrite !batch_calls_app, !triangle_calls_app, !length_app, !length_map, !length_seq.
    rewrite IHb, IHt, IHl.
    unfold batch_calls at 2, triangle_calls at 2.
    rewrite !omap_map_GetTriangle_batch, !omap_map_GetTriangle.
    split; [reflexivity|]. split.
    + cbn [triangle_calls omap list_omap app].
      replace (PER_BATCH * S (S more) + remainder)
        with (PER_BATCH + (PER_BATCH * S more + remainder)) by (unfold PER_BATCH; lia).
      rewrite (seq_app PER_BATCH (PER_BATCH * S more + remainder) (PER_BATCH * c)).
      do 2 f_equal. unfold PER_BATCH. lia.
    + cbn [length]. unfold PER_BATCH. lia.
Qed.

Lemma parse_events_trace triCount final :
  batch_trace triCount final (parse_events triCount final).
Proof.
  unfold batch_trace, parse_events.
  exists (batch_calls_before (triCount mod PER_BATCH) (max (triCount / PER_BATCH) 1 - 1) 0).
  destruct (batch_calls_before_calls (triCount mod PER_BATCH)
              (max (triCount / PER_BATCH) 1 - 1) 0) as (Hb & Ht & Hl).
  split; [apply batch_events_split|].
  assert (Hmore : S (max (triCount / PER_BATCH) 1 - 1) = max (triCount / PER_BATCH) 1)
    by lia.
  rewrite Hmore in *.
  assert (Hvisited : PER_BATCH * max (triCount / PER_BATCH) 1 + triCount mod PER_BATCH
                     = if (triCount <? PER_BATCH)%nat then PER_BATCH + triCount
                       else triCount).
  { fold (visited triCount).
    destruct (triCount <? PER_BATCH)%nat eqn:Hlt.
    - apply visited_small. by apply Nat.ltb_lt.
    - apply visited_large. by apply Nat.ltb_ge. }
  rewrite Hvisited in *.
  rewrite Hb, Ht, Hl, !length_seq. replace (PER_BATCH * 0) with 0 by lia.
  auto.
Qed.

(** X8. Whatever the number [n] of triangles, a handler whose [try] block
    returns does all its work at once, in this order: the calls of
    [runBatch], one per full batch and one at least, and the calls of
    [getTriangle] on the indices 0, 1, 2, ... in increasing order, then
    the single call of [viewer.display], and only then the calls of
    [setTimeout], one per batch but the last. With [n >= 500] the indices
    are those of the [n] triangles; with [n < 500] there are [500 + n] of
    them, since the first batch is always full. No read is started: no
    batch is deferred. This holds of both sub-parsers. *)
Theorem batches_of_any_count array_limit stack_limit (ascii_data binary_data : blob) w :
  ascii_fails array_limit stack_limit (readAsText ascii_data) = false ->
  binary_fails array_limit stack_limit binary_data = false ->
  (exists evs,
     history (onload_ascii array_limit stack_limit ascii_data w).2 = history w ++ evs
     /\ pending (onload_ascii array_limit stack_limit ascii_data w).2 = pending w
     /\ batch_trace (Z.to_nat (ascii_count (readAsText ascii_data)))
                    (vertices (ascii_mesh ascii_data)) evs)
  /\ (exists evs,
        history (onload_binary array_limit stack_limit binary_data w).2 = history w ++ evs
        /\ pending (onload_binary array_limit stack_limit binary_data w).2 = pending w
        /\ batch_trace (Z.to_nat (binary_count binary_data))
                       (vertices (binary_mesh binary_data)) evs).
Proof.
  intros Hascii Hbinary. split.
  - rewrite (onload_ascii_returns array_limit stack_limit ascii_data w Hascii).
    eexists. split; [reflexivity|]. split; [reflexivity|]. apply parse_events_trace.
  - rewrite (onload_binary_returns array_limit stack_limit binary_data w Hbinary).
    eexists. split; [reflexivity|]. split; [reflexivity|]. apply parse_events_trace.
Qed.

(** X8 at an ASCII file of 500 triangles and a binary file of one. *)
Lemma batches_of_any_count_witness :
  ascii_fails limit32 stack1000 (readAsText (list_byte_of_string uneven_stl)) = false
  /\ binary_fails limit32 stack1000 one_record = false
  /\ (exists evs,
        history (onload_ascii limit32 stack1000 (list_byte_of_string uneven_stl) new_world).2
        = history new_world ++ evs
        /\ pending (onload_ascii limit32 stack1000 (list_byte_of_string uneven_stl) new_world).2
           = pending new_world
        /\ batch_trace
             (Z.to_nat (ascii_count (readAsText (list_byte_of_string uneven_stl))))
             (vertices (ascii_mesh (list_byte_of_string uneven_stl))) evs)
  /\ (exists evs,
        history (onload_binary limit32 stack1000 one_record new_world).2 = history new_world ++ evs
        /\ pending (onload_binary limit32 stack1000 one_record new_world).2 = pending new_world
        /\ batch_trace (Z.to_nat (binary_count one_record))
                       (vertices (binary_mesh one_record)) evs).
Proof.
  assert (H1 : ascii_fails limit32 stack1000 (readAsText (list_byte_of_string uneven_stl)) = false)
    by (vm_compute; reflexivity).
  assert (H2 : binary_fails limit32 stack1000 one_record = false) by (vm_compute; reflexivity).
  split; [exact H1|]. split; [exact H2|].
  exact (batches_of_any_count limit32 stack1000 _ _ new_world H1 H2).
Defined.

(** ** Bytes after the records of a small binary file *)

(** X9. A binary file of fewer than 500 triangles is read past its
    records, the first batch being always full. When its records are
    followed by [t] more bytes, with [12 < t < 48] and [t] not a multiple
    of 4, the window of the first triangle that does not exist holds a
    broken float: the handler throws inside the [try] block, sets
    [attemptedBINARY_STL], hands the blob to the ASCII sub-parser unless
    that one has failed already, and displays nothing. *)
Theorem binary_small_file_reads_past_its_records array_limit stack_limit (data : blob) w n t :
  binary_count data = Z.of_nat n ->
  n < PER_BATCH ->
  length data = 84 + 50 * n + t ->
  12 < t < 48 ->
  t mod 4 <> 0 ->
  exists w',
    onload_binary array_limit stack_limit data w = (Normal tt, w')
    /\ fell_back (mkViewer (attemptedASCII_STL (viewer w)) true)
                 (if attemptedASCII_STL (viewer w) then [] else [ReadAscii data])
                 w w'.
Proof.
  intros Hcount Hsmall Hlen Ht Hmod. apply onload_binary_fails.
  unfold binary_fails.
  destruct (binary_reads_count data) as (b0 & b1 & b2 & b3 & H0 & H1 & H2 & H3 & Hread);
    [lia|].
  rewrite Hread.
  rewrite <- (binary_count_at data b0 b1 b2 b3 H0 H1 H2 H3), Hcount.
  destruct (array_limit <? Z.of_nat n * 9)%Z; [reflexivity|].
  destruct (stack_limit <? depth (Z.to_nat (Z.of_nat n)))%nat; [reflexivity|].
  apply negb_true_iff. rewrite Nat2Z.id.
  apply not_true_iff_false. intros Hall.
  rewrite forallb_forall in Hall.
  specialize (Hall n). rewrite visited_small in Hall by assumption.
  assert (Hin : In n (seq 0 (PER_BATCH + n))) by (apply in_seq; lia).
  specialize (Hall Hin). unfold window_ok in Hall.
  rewrite length_slice, Hlen in Hall.
  replace ((132 + 50 * n - (96 + 50 * n)) `min` (84 + 50 * n + t - (96 + 50 * n)))
    with (t - 12) in Hall by lia.
  apply Nat.eqb_eq in Hall.
  pose proof (Nat.div_mod_eq (t - 12) 4). pose proof (Nat.div_mod_eq t 4).
  pose proof (Nat.mod_upper_bound t 4). lia.
Qed.

(** X9 at the file of one triangle followed by thirteen bytes. *)
Lemma binary_small_file_reads_past_its_records_witness :
  binary_count one_record_and_more = Z.of_nat 1
  /\ 1 < PER_BATCH
  /\ length one_record_and_more = 84 + 50 * 1 + 13
  /\ 12 < 13 < 48
  /\ 13 mod 4 <> 0
  /\ exists w',
       onload_binary limit32 stack1000 one_record_and_more new_world = (Normal tt, w')
       /\ fell_back (mkViewer (attemptedASCII_STL (viewer new_world)) true)
                    (if attemptedASCII_STL (viewer new_world) then []
                     else [ReadAscii one_record_and_more])
                    new_world w'.
Proof.
  assert (H1 : binary_count one_record_and_more = Z.of_nat 1) by (vm_compute; reflexivity).
  assert (H2 : 1 < PER_BATCH) by (unfold PER_BATCH; lia).
  assert (H3 : length one_record_and_more = 84 + 50 * 1 + 13) by reflexivity.
  assert (H4 : 12 < 13 < 48) by lia.
  assert (H5 : 13 mod 4 <> 0) by (vm_compute; discriminate).
  repeat (split; [assumption|]).
  exact (binary_small_file_reads_past_its_records limit32 stack1000 one_record_and_more
           new_world 1 13 H1 H2 H3 H4 H5).
Defined.

(** ** The lines of [index.js], again *)

Lemma length_split sep s : length (split sep s) = S (count_char sep s).
Proof.
  induction s as [|c s IH]; cbn [split count_char]; [reflexivity|].
  destruct (Ascii.eqb c sep).
  - cbn [length]. by rewrite IH.
  - destruct (split sep s) as [|t ts]; cbn [length] in *; lia.
Qed.

Lemma count_char_replace s :
  count_char "|" (replace_char newline "|" s)
  = count_char newline s + count_char "|" s.
Proof.
  induction s as [|c s IH]; cbn [replace_char count_char]; [reflexivity|].
  rewrite IH.
  destruct (Ascii.eqb c newline) eqn:Hnl; cbv iota.
  - apply Ascii.eqb_eq in Hnl. subst c.
    change (Ascii.eqb "|" "|") with true. change (Ascii.eqb newline "|") with false.
    cbv iota. lia.
  - lia.
Qed.

(** X10. The older [stl_ascii] of [index.js] breaks the text at every
    vertical bar as well as at every newline: it sees one more line than
    [packit.js] for each bar of the text, and the very same lines when the
    text has no bar. *)
Theorem index_js_splits_at_bars (text : string) :
  length (splice_index_js text) = length (split newline text) + count_char "|" text
  /\ if has_char "|" text then True else splice_index_js text = split newline text.
Proof.
  split.
  - unfold splice_index_js. rewrite !length_split, count_char_replace. lia.
  - destruct (has_char "|" text) eqn:H; [exact I|].
    by apply splice_index_js_plain.
Qed.

(** * Further properties of the OBJ parser *)

(** ** A face record of any number of corners *)

Lemma face_loop_corners marker toks last st :
  face_loop (marker :: toks ++ [last]) st = corners_from 1 toks st.
Proof.
  unfold face_loop.
  replace (length (marker :: toks ++ [last]) - 1 - 1) with (length toks)
    by (cbn [length]; rewrite length_app; cbn [length]; lia).
  assert (Hlookup : forall j, j < length toks ->
            (marker :: toks ++ [last]) !! (1 + j) = toks !! j).
  { intros j Hj.
    change ((marker :: toks ++ [last]) !! (1 + j)) with ((toks ++ [last]) !! j).
    by rewrite lookup_app_l. }
  revert Hlookup. generalize (marker :: toks ++ [last]) as arr. generalize 1 as a.
  intros a arr. revert a st.
  induction toks as [|tok toks IH]; intros a st Hlookup; cbn [length seq fold_left corners_from].
  - reflexivity.
  - pose proof (Hlookup 0 ltac:(cbn; lia)) as H0. rewrite Nat.add_0_r in H0.
    rewrite H0. cbn [lookup list_lookup default from_option]. unfold id.
    apply IH. intros j Hj.
    replace (S a + j) with (a + S j) by lia. rewrite Hlookup by (cbn; lia). reflexivity.
Qed.

Lemma length_push_corner i x arr :
  length (push_corner i x arr) = length arr + (if (3 <? i)%nat then 3 else 1).
Proof.
  unfold push_corner. destruct (3 <? i)%nat; rewrite ?length_app; cbn [length]; lia.
Qed.

Lemma push_corner_early i x arr :
  i <= 3 -> push_corner i x arr = arr ++ [Some x].
Proof.
  intros Hi. unfold push_corner.
  destruct (Nat.ltb_spec 3 i); [lia|reflexivity].
Qed.

Lemma push_corner_late i c arr pre previous x third :
  3 < i ->
  arr = pre ++ [Some previous; x; Some third] ->
  push_corner i c arr = arr ++ [Some c; Some previous; Some third].
Proof.
  intros Hi ->. unfold push_corner.
  destruct (Nat.ltb_spec 3 i); [|lia].
  rewrite <- !app_assoc. cbn [app].
  rewrite (js_index_end pre [_; _; _; _] 4 0) by (cbn; lia).
  cbn [lookup list_lookup mjoin option_join].
  rewrite (js_index_end pre [_; _; _; _; _] 3 2) by (cbn; lia).
  reflexivity.
Qed.

Lemma uv_index_ext st st' tok :
  obj_uvs st' = obj_uvs st -> uv_index st' tok = uv_index st tok.
Proof. unfold uv_index. by intros ->. Qed.

Lemma corners_from_late toks : forall i st pre previous x third upre uprevious ux uthird,
  3 < i ->
  forallb is_corner toks = true ->
  obj_faces st = pre ++ [Some previous; x; Some third] ->
  obj_uvfaces st = upre ++ [Some uprevious; ux; Some uthird] ->
  obj_faces (corners_from i toks st)
  = obj_faces st ++ fan third previous (map (vertex_index st) toks)
  /\ obj_uvfaces (corners_from i toks st)
     = obj_uvfaces st ++ fan uthird uprevious (map (uv_index st) toks).
Proof.
  induction toks as [|tok toks IH];
    intros i st pre previous x third upre uprevious ux uthird Hi Hall Hf Hu;
    cbn [corners_from map fan].
  - by rewrite !app_nil_r.
  - cbn [forallb] in Hall. apply andb_true_iff in Hall as [Htok Hall].
    destruct (face_corner_faces i tok st Htok) as [Ef Eu].
    rewrite (push_corner_late i _ _ pre previous x third Hi Hf) in Ef.
    rewrite (push_corner_late i _ _ upre uprevious ux uthird Hi Hu) in Eu.
    destruct (face_corner_vertices i tok st) as [Ev Et].
    destruct (IH (S i) (face_corner i tok st)
                (obj_faces st) (vertex_index st tok) (Some previous) third
                (obj_uvfaces st) (uv_index st tok) (Some uprevious) uthird)
      as [-> ->]; [lia|assumption|exact Ef|exact Eu|].
    rewrite Ef, Eu, <- !app_assoc. cbn [app].
    rewrite (map_ext (vertex_index (face_corner i tok st)) (vertex_index st))
      by (intros t; by apply vertex_index_ext).
    rewrite (map_ext (uv_index (face_corner i tok st)) (uv_index st))
      by (intros t; by apply uv_index_ext).
    done.
Qed.

Lemma length_fan third previous cs : length (fan third previous cs) = 3 * length cs.
Proof.
  revert previous. induction cs as [|c cs IH]; intros previous; cbn [fan length].
  - reflexivity.
  - rewrite IH. lia.
Qed.

(** X11. A face record whose corner tokens all carry a vertex index, with
    one more token after them, adds to the index list its first three
    corners, then for the fourth corner the triple (fourth, first, third),
    and for every corner [c] after the fourth the triple ([c], the corner
    before [c], third); the UV indices of the corners are added to the UV
    index list in the same way. A record of [k >= 3] corners so adds
    [3 (k - 2)] indices, and a record of fewer than three corners adds one
    index per corner. *)
Theorem polygon_face_indices (marker last : string) toks st :
  forallb is_corner toks = true ->
  obj_faces (face_loop (marker :: toks ++ [last]) st)
  = obj_faces st ++ polygon (map (vertex_index st) toks)
  /\ obj_uvfaces (face_loop (marker :: toks ++ [last]) st)
     = obj_uvfaces st ++ polygon (map (uv_index st) toks)
  /\ length (polygon (map (vertex_index st) toks))
     = if (length toks <? 3)%nat then length toks else 3 * (length toks - 2).
Proof.
  intros Hall. rewrite face_loop_corners.
  destruct toks as [|t1 [|t2 [|t3 toks]]].
  - cbn. by rewrite !app_nil_r.
  - cbn [forallb] in Hall. apply andb_true_iff in Hall as [H1 _].
    cbn [corners_from map polygon length].
    destruct (face_corner_faces 1 t1 st H1) as [-> ->].
    rewrite !push_corner_early by lia. done.
  - cbn [forallb] in Hall. apply andb_true_iff in Hall as [H1 Hall].
    apply andb_true_iff in Hall as [H2 _].
    cbn [corners_from map polygon length].
    destruct (face_corner_vertices 1 t1 st) as [Ev1 Et1].
    destruct (face_corner_faces 2 t2 (face_corner 1 t1 st) H2) as [-> ->].
    destruct (face_corner_faces 1 t1 st H1) as [-> ->].
    rewrite !push_corner_early by lia.
    rewrite (vertex_index_ext st _ t2 Ev1), (uv_index_ext st _ t2 Et1).
    rewrite <- !app_assoc. done.
  - cbn [forallb] in Hall. apply andb_true_iff in Hall as [H1 Hall].
    apply andb_true_iff in Hall as [H2 Hall].
    apply andb_true_iff in Hall as [H3 Hall].
    cbn [corners_from map polygon].
    set (st1 := face_corner 1 t1 st).
    set (st2 := face_corner 2 t2 st1).
    set (st3 := face_corner 3 t3 st2).
    destruct (face_corner_vertices 1 t1 st) as [Ev1 Et1]. fold st1 in Ev1, Et1.
    destruct (face_corner_vertices 2 t2 st1) as [Ev2 Et2]. fold st2 in Ev2, Et2.
    destruct (face_corner_vertices 3 t3 st2) as [Ev3 Et3]. fold st3 in Ev3, Et3.
    rewrite Ev1 in Ev2. rewrite Ev2 in Ev3. rewrite Et1 in Et2. rewrite Et2 in Et3.
    assert (Ef : obj_faces st3
                 = obj_faces st ++ [Some (vertex_index st t1); Some (vertex_index st t2);
                                    Some (vertex_index st t3)]
                 /\ obj_uvfaces st3
                    = obj_uvfaces st ++ [Some (uv_index st t1); Some (uv_index st t2);
                                         Some (uv_index st t3)]).
    { subst st3. destruct (face_corner_faces 3 t3 st2 H3) as [-> ->].
      subst st2. destruct (face_corner_faces 2 t2 st1 H2) as [-> ->].
      subst st1. destruct (face_corner_faces 1 t1 st H1) as [-> ->].
      rewrite !push_corner_early by lia.
      rewrite (vertex_index_ext st _ t2 Ev1), (uv_index_ext st _ t2 Et1).
      rewrite (vertex_index_ext st _ t3 Ev2), (uv_index_ext st _ t3 Et2).
      rewrite <- !app_assoc. done. }
    destruct Ef as [Ef Eu].
    destruct (corners_from_late toks 4 st3
                (obj_faces st) (vertex_index st t1) (Some (vertex_index st t2))
                (vertex_index st t3)
                (obj_uvfaces st) (uv_index st t1) (Some (uv_index st t2))
                (uv_index st t3)) as [-> ->]; [lia|assumption|exact Ef|exact Eu|].
    rewrite Ef, Eu, <- !app_assoc. cbn [app].
    rewrite (map_ext (vertex_index st3) (vertex_index st))
      by (intros t; by apply vertex_index_ext).
    rewrite (map_ext (uv_index st3) (uv_index st))
      by (intros t; by apply uv_index_ext).
    split; [done|]. split; [done|].
    cbn [length]. rewrite length_fan, length_map.
    destruct (Nat.ltb_spec (S (S (S (length toks)))) 3); lia.
Qed.

(** X11 at a record of five corners, each with a UV index. *)
Lemma polygon_face_indices_witness :
  forallb is_corner ["1/1"; "2/1"; "3/2"; "4/2"; "5/1"] = true
  /\ obj_faces (face_loop ("f" :: ["1/1"; "2/1"; "3/2"; "4/2"; "5/1"] ++ [""]) empty_obj)
     = obj_faces empty_obj
       ++ polygon (map (vertex_index empty_obj) ["1/1"; "2/1"; "3/2"; "4/2"; "5/1"])
  /\ obj_uvfaces (face_loop ("f" :: ["1/1"; "2/1"; "3/2"; "4/2"; "5/1"] ++ [""]) empty_obj)
     = obj_uvfaces empty_obj
       ++ polygon (map (uv_index empty_obj) ["1/1"; "2/1"; "3/2"; "4/2"; "5/1"])
  /\ length (polygon (map (vertex_index empty_obj) ["1/1"; "2/1"; "3/2"; "4/2"; "5/1"]))
     = if (length ["1/1"; "2/1"; "3/2"; "4/2"; "5/1"] <? 3)%nat
       then length ["1/1"; "2/1"; "3/2"; "4/2"; "5/1"]
       else 3 * (length ["1/1"; "2/1"; "3/2"; "4/2"; "5/1"] - 2).
Proof.
  assert (H : forallb is_corner ["1/1"; "2/1"; "3/2"; "4/2"; "5/1"] = true)
    by (vm_compute; reflexivity).
  split; [exact H|].
  exact (polygon_face_indices "f" "" ["1/1"; "2/1"; "3/2"; "4/2"; "5/1"] empty_obj H).
Defined.

(** ** The two index lists *)

Lemma face_corner_lengths i tok st :
  length (obj_faces st) = length (obj_uvfaces st) ->
  length (obj_faces (face_corner i tok st))
  = length (obj_uvfaces (face_corner i tok st)).
Proof.
  intros H. unfold face_corner.
  destruct (isNaN (parseInt (split "/" tok !! 0))); [exact H|].
  cbn [obj_faces obj_uvfaces]. rewrite !length_push_corner. lia.
Qed.

Lemma face_loop_lengths arr st :
  length (obj_faces st) = length (obj_uvfaces st) ->
  length (obj_faces (face_loop arr st)) = length (obj_uvfaces (face_loop arr st)).
Proof.
  unfold face_loop. generalize (seq 1 (length arr - 1 - 1)) as l.
  intros l. revert st. induction l as [|i l IH]; intros st H; cbn [fold_left].
  - exact H.
  - apply IH. by apply face_corner_lengths.
Qed.

Lemma obj_line_lengths st line :
  length (obj_faces st) = length (obj_uvfaces st) ->
  length (obj_faces (obj_line st line)) = length (obj_uvfaces (obj_line st line)).
Proof.
  intros H. unfold obj_line.
  destruct (String.eqb (substring 0 2 line) "v "); [exact H|].
  destruct (String.eqb (substring 0 2 line) "vt"); [exact H|].
  destruct (String.eqb (substring 0 2 line) "f "); [|exact H].
  by apply face_loop_lengths.
Qed.

(** X12. Whatever the text, the single display call of the OBJ handler
    carries an index array and a UV array, neither of them [null], and the
    two have the same length: every corner that adds to the one adds as
    much to the other, also when it has no UV index. *)
Theorem obj_indices_and_uvs_have_one_length (data : blob) w :
  exists d indices uvws,
    displays (onload_obj data w).2 = displays w ++ [d]
    /\ faceIndices d = Some indices
    /\ uvs d = Some uvws
    /\ length indices = length uvws.
Proof.
  exists (obj_display (obj_lines (readAsText data))).
  eexists _, _. split; [|split; [reflexivity|split; [reflexivity|]]].
  - unfold onload_obj. rewrite emit_ran. cbn [snd]. by rewrite displays_app.
  - rewrite !length_map. unfold obj_lines.
    generalize (split newline (readAsText data)) as lines.
    assert (H0 : length (obj_faces (mkObj [] [] [] []))
                 = length (obj_uvfaces (mkObj [] [] [] []))) by reflexivity.
    revert H0. generalize (mkObj [] [] [] []) as st.
    intros st H0 lines. revert st H0.
    induction lines as [|line lines IH]; intros st H0; cbn [fold_left].
    + exact H0.
    + apply IH. by apply obj_line_lengths.
Qed.

Lemma fold_left_ext_in {A B : Type} (f g : A -> B -> A) l : forall a,
  (forall a b, In b l -> f a b = g a b) -> fold_left f l a = fold_left g l a.
Proof.
  induction l as [|b l IH]; intros a H; cbn [fold_left]; [reflexivity|].
  rewrite (H a b) by (left; reflexivity). apply IH. intros a' b' Hin. apply H. by right.
Qed.

(** X13. The loop of [parseFace] stops one token short: the last token of
    a face record is never read, so that the record gives the same lists
    whatever its last token is. *)
Theorem last_token_of_a_face_is_not_read (arr : list string) (x y : string) st :
  face_loop (arr ++ [x]) st = face_loop (arr ++ [y]) st.
Proof.
  unfold face_loop. rewrite !length_app. cbn [length].
  apply fold_left_ext_in. intros st' i Hin. apply in_seq in Hin.
  rewrite !lookup_app_l by lia. reflexivity.
Qed.

Lemma ToUint32_integer z :
  ToUint32 (Some (Num (inject_Z z))) = Z.to_N (z mod 4294967296).
Proof. unfold ToUint32. cbn [inject_Z Qnum Qden]. by rewrite Z.quot_1_r. Qed.

(** X14. The vertex index of a corner is never checked against the number
    of vertices. With [V] vertices read so far, the integer [n] of a corner
    token, of magnitude 2^53 at most, is displayed as [n - 1] when
    [n >= 0] and as [n + V] when [n < 0], reduced modulo 2^32 by the index
    array: an index beyond the vertices is kept as it is, and the index 0
    becomes 4294967295. Beyond 2^53 the subtraction rounds: the index
    9007199254740994 is displayed as 0, and not as 1. *)
Theorem obj_index_is_not_range_checked i tok st (V : nat) (n : Z) :
  length (obj_vertices st) = 3 * V ->
  (Z.of_nat V < 2 ^ 32)%Z ->
  parseInt (split "/" tok !! 0) = Num (inject_Z n) ->
  (Z.abs n <= 2 ^ 53)%Z ->
  map ToUint32 (obj_faces (face_corner i tok st)) !! length (obj_faces st)
  = Some (Z.to_N ((if (n <? 0)%Z then n + Z.of_nat V else n - 1) mod 4294967296))
  /\ map ToUint32 (obj_faces (face_corner i "0" st)) !! length (obj_faces st)
     = Some 4294967295%N
  /\ map ToUint32 (obj_faces (face_corner 1 "9007199254740994" empty_obj)) = [0%N].
Proof.
  intros HV HVsmall Hn Hnsmall.
  assert (Hgen : forall tok' n',
    parseInt (split "/" tok' !! 0) = Num (inject_Z n') ->
    (Z.abs n' <= 2 ^ 53)%Z ->
    map ToUint32 (obj_faces (face_corner i tok' st)) !! length (obj_faces st)
    = Some (Z.to_N ((if (n' <? 0)%Z then n' + Z.of_nat V else n' - 1)
                    mod 4294967296))).
  { intros tok' n' Hn' Hsmall.
    assert (Hcorner : is_corner tok' = true) by (unfold is_corner; by rewrite Hn').
    destruct (face_corner_faces i tok' st Hcorner) as [-> _].
    destruct (push_corner_first i (vertex_index st tok') (obj_faces st))
      as [extra ->].
    rewrite list_lookup_fmap, lookup_app_r, Nat.sub_diag by lia.
    cbn [lookup list_lookup fmap option_fmap option_map].
    unfold vertex_index. rewrite Hn', (third_of_triples _ V HV) by lia.
    rewrite resolve_Z by lia.
    unfold num_of_nat.
    rewrite num_sub_Z by (destruct (n' <? 0)%Z eqn:E; change (Z.of_nat 1) with 1%Z; lia).
    rewrite ToUint32_integer.
    do 3 f_equal. destruct (n' <? 0)%Z; lia. }
  split; [by apply Hgen|]. split; [|vm_compute; reflexivity].
  rewrite (Hgen "0" 0%Z) by (try reflexivity; lia). reflexivity.
Qed.

(** X14 at the corner token [7], with three vertices read. *)
Lemma obj_index_is_not_range_checked_witness :
  length (obj_vertices three_vertices) = 3 * 3
  /\ (Z.of_nat 3 < 2 ^ 32)%Z
  /\ parseInt (split "/" "7" !! 0) = Num (inject_Z 7)
  /\ (Z.abs 7 <= 2 ^ 53)%Z
  /\ map ToUint32 (obj_faces (face_corner 1 "7" three_vertices)) !! length (obj_faces three_vertices)
  = Some (Z.to_N ((if (7 <? 0)%Z then 7 + Z.of_nat 3 else 7 - 1) mod 4294967296))
  /\ map ToUint32 (obj_faces (face_corner 1 "0" three_vertices)) !! length (obj_faces three_vertices)
     = Some 4294967295%N
  /\ map ToUint32 (obj_faces (face_corner 1 "9007199254740994" empty_obj)) = [0%N].
Proof.
  assert (H1 : length (obj_vertices three_vertices) = 3 * 3) by reflexivity.
  assert (H2 : (Z.of_nat 3 < 2 ^ 32)%Z) by (vm_compute; reflexivity).
  assert (H3 : parseInt (split "/" "7" !! 0) = Num (inject_Z 7))
    by (vm_compute; reflexivity).
  assert (H4 : (Z.abs 7 <= 2 ^ 53)%Z) by (vm_compute; discriminate).
  repeat (split; [assumption|]).
  exact (obj_index_is_not_range_checked 1 "7" three_vertices 3 7 H1 H2 H3 H4).
Defined.

(** The index that the token [7] is displayed as, with three vertices
    read, and the index of the token [-5]. *)
Lemma indices_beyond_the_vertices :
  map ToUint32 (obj_faces (face_corner 1 "7" three_vertices)) = [6%N]
  /\ map ToUint32 (obj_faces (face_corner 1 "-5" three_vertices)) = [4294967294%N].
Proof. split; vm_compute; reflexivity. Qed.

(** * Properties of the page *)

(** ** The extension of a path *)

Lemma js_index_last {A : Type} (l : list A) (x : A) :
  js_index (l ++ [x]) (Z.of_nat (length (l ++ [x])) - 1) = Some x.
Proof. by rewrite (js_index_end l [x] 1 0) by (cbn; lia). Qed.

Lemma last_of_path (base ext : string) :
  has_char "." ext = false ->
  let parts := split "." (String.append base (String "." ext)) in
  js_index parts (Z.of_nat (length parts) - 1) = Some ext.
Proof.
  intros Hext. cbv zeta. rewrite split_app, (split_plain "." ext Hext).
  apply js_index_last.
Qed.

(** X15. [readFrom] goes by what follows the last dot of the [src]
    attribute, in lower case: for a path [base.ext] in which [ext] has no
    dot, it creates a viewer and sends a request for the path exactly when
    [ext] in lower case is [stl] or [obj], and otherwise does nothing, in
    silence. A path without any dot is its own extension. *)
Theorem readFrom_goes_by_the_last_extension (base ext : string) p :
  has_char "." ext = false ->
  let path := String.append base (String "." ext) in
  readFrom (mkElement (Some path)) p
  = (Normal tt,
     if existsb (String.eqb (toLowerCase ext)) VALID_EXTENSIONS
     then load path (toLowerCase ext) p else p)
  /\ readFrom (mkElement (Some ext)) p
     = (Normal tt,
        if existsb (String.eqb (toLowerCase ext)) VALID_EXTENSIONS
        then load ext (toLowerCase ext) p else p).
Proof.
  intros Hext. cbv zeta. split.
  - unfold readFrom. cbn [src]. rewrite (last_of_path base ext Hext).
    cbv beta iota.
    by destruct (existsb (String.eqb (toLowerCase ext)) VALID_EXTENSIONS).
  - unfold readFrom. cbn [src]. rewrite (split_plain "." ext Hext).
    change (js_index [ext] (Z.of_nat (length [ext]) - 1)) with (Some ext).
    cbv beta iota.
    by destruct (existsb (String.eqb (toLowerCase ext)) VALID_EXTENSIONS).
Qed.

(** X15 at the path [parts/gear.v2.STL]. *)
Lemma readFrom_goes_by_the_last_extension_witness :
  has_char "." "STL" = false
  /\ readFrom (mkElement (Some (String.append "parts/gear.v2" (String "." "STL"))))
              empty_page
     = (Normal tt,
        if existsb (String.eqb (toLowerCase "STL")) VALID_EXTENSIONS
        then load (String.append "parts/gear.v2" (String "." "STL"))
                  (toLowerCase "STL") empty_page
        else empty_page)
  /\ readFrom (mkElement (Some "STL")) empty_page
     = (Normal tt,
        if existsb (String.eqb (toLowerCase "STL")) VALID_EXTENSIONS
        then load "STL" (toLowerCase "STL") empty_page else empty_page).
Proof.
  assert (H : has_char "." "STL" = false) by reflexivity.
  split; [exact H|].
  exact (readFrom_goes_by_the_last_extension "parts/gear.v2" "STL" empty_page H).
Defined.

(** ** What the page keeps *)

Lemma js_index_last_default {A : Type} (l : list A) (d : A) :
  l <> [] -> js_index l (Z.of_nat (length l) - 1) = Some (List.last l d).
Proof.
  intros Hne. destruct (exists_last Hne) as (l' & x & ->).
  by rewrite js_index_last, last_last.
Qed.

Lemma readFrom_loaded o p :
  readFrom o p
  = match src o with
    | None => (Throw TypeError, p)
    | Some path =>
        (Normal tt,
         if loaded o
         then load path (toLowerCase (List.last (split "." path) "")) p
         else p)
    end.
Proof.
  unfold readFrom, loaded. destruct (src o) as [path|]; [|reflexivity].
  rewrite (js_index_last_default _ "" (split_nonempty "." path)).
  by destruct (existsb _ VALID_EXTENSIONS).
Qed.

Lemma valid_extension e :
  existsb (String.eqb e) VALID_EXTENSIONS = true -> e = "stl" \/ e = "obj".
Proof.
  cbn [existsb VALID_EXTENSIONS]. rewrite orb_false_r.
  intros [H|H]%orb_true_iff; apply String.eqb_eq in H; auto.
Qed.

Lemma readFrom_ok o p : page_ok p -> page_ok (readFrom o p).2.
Proof.
  intros (Hc & Hl & Hr). rewrite readFrom_loaded.
  destruct (src o) as [path|] eqn:Hsrc; [|by split].
  cbn [snd]. destruct (loaded o) eqn:Hloaded; [|by split].
  unfold loaded in Hloaded. rewrite Hsrc in Hloaded.
  split; [exact Hc|]. split.
  - cbn [load viewers requests]. rewrite !length_app. cbn [length]. lia.
  - cbn [load requests]. intros k r Hk.
    apply lookup_app_Some in Hk as [Hk|[Hge Hk]]; [by apply Hr|].
    apply list_lookup_singleton_Some in Hk as [Hk <-]. cbn [req_viewer req_extension].
    split; [lia|]. by apply valid_extension.
Qed.

Lemma read_all_ok objects : forall p, page_ok p -> page_ok (read_all objects p).2.
Proof.
  induction objects as [|o objects IH]; intros p Hp; cbn [read_all]; [exact Hp|].
  pose proof (readFrom_ok o p Hp) as Ho.
  destruct (readFrom o p) as [[[]|e] p1]; cbn [snd] in Ho; [by apply IH|exact Ho].
Qed.

Lemma on_DOMContentLoaded_ok objects p :
  page_ok p -> page_ok (on_DOMContentLoaded objects p).2.
Proof.
  intros Hp. unfold on_DOMContentLoaded.
  pose proof (read_all_ok objects p Hp) as Hall.
  by destruct (read_all objects p) as [[[]|e] p1].
Qed.

Lemma on_viewer_ok k f p : page_ok p -> page_ok (on_viewer k f p).
Proof.
  intros (Hc & Hl & Hr). unfold on_viewer.
  destruct (viewers p !! k) as [w|]; [|by split].
  split; [exact Hc|]. split; [|exact Hr].
  cbn [viewers requests]. by rewrite length_insert.
Qed.

Lemma host_step_ok array_limit stack_limit p ev : page_ok p -> page_ok (host_step array_limit stack_limit p ev).
Proof.
  intros Hp. destruct ev as [k readyState status response|k fuel]; cbn [host_step].
  - destruct (requests p !! k) as [r|] eqn:Hk; [|exact Hp].
    unfold onreadystatechange.
    destruct ((readyState =? 4)%nat && (status =? 200)%nat); [|exact Hp].
    destruct Hp as (Hc & Hl & Hr).
    destruct (Hr k r Hk) as [_ [-> | ->]]; cbn [String.eqb Ascii.eqb Bool.eqb];
      by apply on_viewer_ok.
  - by apply on_viewer_ok.
Qed.

(** X16. The [default] branch of the [switch] of [readFrom] is never
    taken. On a page set up by the listener of [DOMContentLoaded],
    whatever elements the document has and whatever the requests and the
    handlers do afterwards, nothing is ever printed ([Incorrect File Type]
    in particular), there are as many viewers as requests, and a state
    change of the request at position [k] either does nothing or, in state
    4 with status 200, hands the response to [parseSTL] or to [parseOBJ]
    with the viewer at position [k]. *)
Theorem incorrect_file_type_is_never_logged array_limit stack_limit objects events :
  let p := fold_left (host_step array_limit stack_limit) events
             (on_DOMContentLoaded objects empty_page).2 in
  console p = []
  /\ length (viewers p) = length (requests p)
  /\ forall k r readyState status response,
       requests p !! k = Some r ->
       onreadystatechange r readyState status response p
       = if (readyState =? 4)%nat && (status =? 200)%nat
         then on_viewer k
                (fun w => if String.eqb (req_extension r) "stl"
                          then (parseSTL response w).2
                          else (parseOBJ response w).2) p
         else p.
Proof.
  cbv zeta.
  assert (Hok : page_ok (fold_left (host_step array_limit stack_limit) events
                           (on_DOMContentLoaded objects empty_page).2)).
  { assert (H0 : page_ok (on_DOMContentLoaded objects empty_page).2)
      by (apply on_DOMContentLoaded_ok; by split).
    revert H0. generalize (on_DOMContentLoaded objects empty_page).2 as p.
    induction events as [|ev events IH]; intros p Hp; cbn [fold_left]; [exact Hp|].
    apply IH. by apply host_step_ok. }
  destruct Hok as (Hc & Hl & Hr). split; [exact Hc|]. split; [exact Hl|].
  intros k r readyState status response Hk. unfold onreadystatechange.
  destruct ((readyState =? 4)%nat && (status =? 200)%nat); [|reflexivity].
  destruct (Hr k r Hk) as [-> [-> | ->]]; reflexivity.
Qed.

(** ** An element without [src] *)

Lemma read_all_with_src objects : forall p,
  forallb has_src objects = true ->
  exists p',
    read_all objects p = (Normal tt, p')
    /\ length (viewers p') = length (viewers p) + length (List.filter loaded objects)
    /\ resize_listener p' = resize_listener p.
Proof.
  induction objects as [|o objects IH]; intros p Hall; cbn [read_all List.filter].
  - exists p. cbn [length]. split; [reflexivity|]. split; [lia|reflexivity].
  - cbn [forallb] in Hall. apply andb_true_iff in Hall as [Ho Hall].
    rewrite readFrom_loaded. unfold has_src in Ho.
    destruct (src o) as [path|]; [|discriminate].
    destruct (loaded o).
    + edestruct IH as (p' & -> & Hl & Hr); [exact Hall|].
      exists p'. split; [reflexivity|].
      cbn [load viewers resize_listener] in Hl, Hr. rewrite length_app in Hl.
      cbn [length] in *. split; [lia|exact Hr].
    + edestruct IH as (p' & -> & Hl & Hr); [exact Hall|].
      exists p'. auto.
Qed.

Lemma read_all_app before : forall after p p',
  read_all before p = (Normal tt, p') ->
  read_all (before ++ after) p = read_all after p'.
Proof.
  induction before as [|o before IH]; intros after p p' H; cbn [read_all app] in *.
  - by inversion H.
  - destruct (readFrom o p) as [[[]|e] p1]; [by apply IH|discriminate].
Qed.

(** X17. An element of the class that has no [src] attribute stops the
    listener of [DOMContentLoaded] with a [TypeError]: the elements before
    it are read, one viewer being created for each that has an accepted
    extension, but the elements after it are never read and the listener
    of [resize] is not added. Without that element the listener returns
    and adds the listener of [resize]. *)
Theorem an_element_without_src_stops_the_listener before after p :
  forallb has_src before = true ->
  exists p',
    read_all before p = (Normal tt, p')
    /\ on_DOMContentLoaded (before ++ mkElement None :: after) p = (Throw TypeError, p')
    /\ resize_listener p' = resize_listener p
    /\ length (viewers p') = length (viewers p) + length (List.filter loaded before)
    /\ on_DOMContentLoaded before p
       = (Normal tt, mkPage (viewers p') (requests p') (console p') true).
Proof.
  intros Hall.
  destruct (read_all_with_src before p Hall) as (p' & Hread & Hl & Hr).
  exists p'. split; [exact Hread|]. split; [|split; [exact Hr|split; [exact Hl|]]].
  - unfold on_DOMContentLoaded. rewrite (read_all_app before _ p p' Hread).
    reflexivity.
  - unfold on_DOMContentLoaded. by rewrite Hread.
Qed.

(** X17 at a document of four elements, the third without [src]. *)
Lemma an_element_without_src_stops_the_listener_witness :
  forallb has_src [mkElement (Some "gear.stl"); mkElement (Some "notes.txt")] = true
  /\ exists p',
       read_all [mkElement (Some "gear.stl"); mkElement (Some "notes.txt")] empty_page
       = (Normal tt, p')
       /\ on_DOMContentLoaded
            ([mkElement (Some "gear.stl"); mkElement (Some "notes.txt")]
             ++ mkElement None :: [mkElement (Some "cube.obj")]) empty_page
          = (Throw TypeError, p')
       /\ resize_listener p' = resize_listener empty_page
       /\ length (viewers p')
          = length (viewers empty_page)
            + length (List.filter loaded
                        [mkElement (Some "gear.stl"); mkElement (Some "notes.txt")])
       /\ on_DOMContentLoaded
            [mkElement (Some "gear.stl"); mkElement (Some "notes.txt")] empty_page
          = (Normal tt, mkPage (viewers p') (requests p') (console p') true).
Proof.
  assert (H : forallb has_src [mkElement (Some "gear.stl"); mkElement (Some "notes.txt")]
              = true) by reflexivity.
  split; [exact H|].
  exact (an_element_without_src_stops_the_listener
           [mkElement (Some "gear.stl"); mkElement (Some "notes.txt")]
           [mkElement (Some "cube.obj")] empty_page H).
Defined.

(** ** From the element to the parser *)

(** X18. On a page whose only element has a path [base.ext] with an
    accepted extension, the listener sends one request, for viewer 0. When
    that request reaches state 4 with status 200, the response is handed
    to [parseSTL] if the extension in lower case is [stl] and to
    [parseOBJ] if it is [obj], on the fresh viewer, whose handlers then
    run as for a direct call. In any other state or with any other status
    the page does not change: the viewer stays empty. *)
Theorem a_loaded_element_runs_its_parser array_limit stack_limit (base ext : string)
    (response : blob) fuel :
  has_char "." ext = false ->
  existsb (String.eqb (toLowerCase ext)) VALID_EXTENSIONS = true ->
  let path := String.append base (String "." ext) in
  let p := (on_DOMContentLoaded [mkElement (Some path)] empty_page).2 in
  requests p = [mkRequest path (toLowerCase ext) 0]
  /\ viewers (fold_left (host_step array_limit stack_limit)
                [StateChange 0 4 200 response; Handlers 0 fuel] p)
     = [event_loop array_limit stack_limit fuel
          (if String.eqb (toLowerCase ext) "stl"
           then (parseSTL response new_world).2
           else (parseOBJ response new_world).2)]
  /\ forall readyState status,
       (readyState =? 4)%nat && (status =? 200)%nat = false ->
       host_step array_limit stack_limit p (StateChange 0 readyState status response) = p.
Proof.
  intros Hext Hvalid. cbv zeta.
  unfold on_DOMContentLoaded. cbn [read_all].
  unfold readFrom. cbn [src]. rewrite (last_of_path base ext Hext). cbv beta iota.
  rewrite Hvalid. cbn [createViewer empty_page viewers requests console resize_listener
                       length app snd].
  split; [reflexivity|]. split.
  - cbn [fold_left host_step requests lookup list_lookup].
    unfold onreadystatechange. cbn [Nat.eqb andb req_extension req_viewer].
    destruct (valid_extension _ Hvalid) as [-> | ->]; reflexivity.
  - intros readyState status Hstate. cbn [host_step requests lookup list_lookup].
    unfold onreadystatechange. by rewrite Hstate.
Qed.

(** X18 at the path [models/cube.OBJ] and the sample OBJ text. *)
Lemma a_loaded_element_runs_its_parser_witness :
  has_char "." "OBJ" = false
  /\ existsb (String.eqb (toLowerCase "OBJ")) VALID_EXTENSIONS = true
  /\ requests (on_DOMContentLoaded
                 [mkElement (Some (String.append "models/cube" (String "." "OBJ")))]
                 empty_page).2
     = [mkRequest (String.append "models/cube" (String "." "OBJ")) (toLowerCase "OBJ") 0]
  /\ viewers (fold_left (host_step limit32 stack1000)
                [StateChange 0 4 200 (list_byte_of_string obj_sample); Handlers 0 1]
                (on_DOMContentLoaded
                   [mkElement (Some (String.append "models/cube" (String "." "OBJ")))]
                   empty_page).2)
     = [event_loop limit32 stack1000 1
          (if String.eqb (toLowerCase "OBJ") "stl"
           then (parseSTL (list_byte_of_string obj_sample) new_world).2
           else (parseOBJ (list_byte_of_string obj_sample) new_world).2)]
  /\ forall readyState status,
       (readyState =? 4)%nat && (status =? 200)%nat = false ->
       host_step limit32 stack1000
         (on_DOMContentLoaded
            [mkElement (Some (String.append "models/cube" (String "." "OBJ")))]
            empty_page).2
         (StateChange 0 readyState status (list_byte_of_string obj_sample))
       = (on_DOMContentLoaded
            [mkElement (Some (String.append "models/cube" (String "." "OBJ")))]
            empty_page).2.
Proof.
  assert (H1 : has_char "." "OBJ" = false) by reflexivity.
  assert (H2 : existsb (String.eqb (toLowerCase "OBJ")) VALID_EXTENSIONS = true)
    by reflexivity.
  split; [exact H1|]. split; [exact H2|].
  exact (a_loaded_element_runs_its_parser limit32 stack1000 "models/cube" "OBJ"
           (list_byte_of_string obj_sample) 1 H1 H2).
Defined.

(** * Small blobs, skipped tokens and missing UV indices *)

Lemma count_char_le c s : count_char c s <= String.length s.
Proof.
  induction s as [|d s IH]; cbn [count_char String.length]; [lia|].
  destruct (Ascii.eqb d c); lia.
Qed.

Lemma few_lines_fail array_limit stack_limit text :
  length (split newline text) < 7 * PER_BATCH + 3 ->
  ascii_fails array_limit stack_limit text = true.
Proof.
  intros Hlen. unfold ascii_fails, ascii_count.
  destruct ((Z.of_nat (length (split newline text)) - 3) mod 7 =? 0)%Z;
    [|reflexivity].
  cbn [negb].
  replace ((Z.of_nat (length (split newline text)) - 3) / 7 <? Z.of_nat PER_BATCH)%Z
    with true; [reflexivity|].
  symmetry. apply Z.ltb_lt. unfold PER_BATCH in *.
  apply Z.div_lt_upper_bound; lia.
Qed.

(** X19. A blob of fewer than 84 bytes is never displayed by [parseSTL]:
    it has too few lines for the ASCII sub-parser, whose first batch needs
    500 triangles, and too few bytes for the binary sub-parser to read a
    count. Whatever the sniffing chooses, both sub-parsers run and fail,
    both flags end up set, and the host is told nothing. The empty blob is
    one of them. *)
Theorem a_blob_under_84_bytes_is_never_displayed array_limit stack_limit (data : blob) :
  length data < 84 ->
  let w := event_loop array_limit stack_limit 3 (parseSTL data new_world).2 in
  displays w = [] /\ viewer w = mkViewer true true
  /\ pending w = [] /\ uncaught w = [].
Proof.
  intros Hlen. cbv zeta.
  assert (Hascii : ascii_fails array_limit stack_limit (readAsText data) = true).
  { apply few_lines_fail. rewrite length_split.
    pose proof (count_char_le newline (readAsText data)) as Hle.
    rewrite length_readAsText in Hle. unfold PER_BATCH. lia. }
  assert (Hbinary : binary_fails array_limit stack_limit data = true)
    by (by apply binary_fails_short).
  rewrite indicator_step.
  destruct (includes "solid" (readAsText (take 6 data))).
  - edestruct (ascii_step array_limit stack_limit 1) as (w1 & -> & Hu1 & H1); [reflexivity|].
    rewrite Hascii in H1. destruct H1 as (Hv1 & Hp1 & Hd1).
    cbn in Hv1, Hp1, Hd1, Hu1.
    edestruct (binary_step array_limit stack_limit 0) as (w2 & -> & Hu2 & H2); [exact Hp1|].
    rewrite Hbinary in H2. destruct H2 as (Hv2 & Hp2 & Hd2).
    rewrite Hv1 in Hv2, Hp2. cbn in Hv2, Hp2. cbn [event_loop].
    repeat split; congruence.
  - edestruct (binary_step array_limit stack_limit 1) as (w1 & -> & Hu1 & H1); [reflexivity|].
    rewrite Hbinary in H1. destruct H1 as (Hv1 & Hp1 & Hd1).
    cbn in Hv1, Hp1, Hd1, Hu1.
    edestruct (ascii_step array_limit stack_limit 0) as (w2 & -> & Hu2 & H2); [exact Hp1|].
    rewrite Hascii in H2. destruct H2 as (Hv2 & Hp2 & Hd2).
    rewrite Hv1 in Hv2, Hp2. cbn in Hv2, Hp2. cbn [event_loop].
    repeat split; congruence.
Qed.

(** X19 at the empty blob. *)
Lemma a_blob_under_84_bytes_is_never_displayed_witness :
  length ([] : list byte) < 84
  /\ displays (event_loop limit32 stack1000 3 (parseSTL [] new_world).2) = []
  /\ viewer (event_loop limit32 stack1000 3 (parseSTL [] new_world).2) = mkViewer true true
  /\ pending (event_loop limit32 stack1000 3 (parseSTL [] new_world).2) = []
  /\ uncaught (event_loop limit32 stack1000 3 (parseSTL [] new_world).2) = [].
Proof.
  assert (H : length ([] : list byte) < 84) by (cbn; lia).
  split; [exact H|].
  exact (a_blob_under_84_bytes_is_never_displayed limit32 stack1000 [] H).
Defined.

(** X20. The test [i > 3] of [parseFace] counts the tokens of the record,
    not the corners read. When the first token after the marker carries no
    vertex index (as the empty token that a second space leaves) and three
    corners follow, the third corner is at position 4 and is taken for a
    fourth: after the three corners the record adds two more indices, the
    last index that was in the list before the record ([undefined] when
    there was none) and the second corner. *)
Theorem a_skipped_token_still_counts (marker junk t1 t2 t3 last : string) st :
  is_corner junk = false ->
  is_corner t1 = true -> is_corner t2 = true -> is_corner t3 = true ->
  obj_faces (face_loop [marker; junk; t1; t2; t3; last] st)
  = obj_faces st
    ++ [Some (vertex_index st t1); Some (vertex_index st t2);
        Some (vertex_index st t3);
        mjoin (js_index (obj_faces st) (Z.of_nat (length (obj_faces st)) - 1));
        Some (vertex_index st t2)].
Proof.
  intros Hjunk H1 H2 H3.
  unfold face_loop. cbn [length Nat.sub seq fold_left lookup list_lookup default
                         from_option id].
  assert (E0 : face_corner 1 junk st = st).
  { unfold face_corner. unfold is_corner in Hjunk.
    apply negb_false_iff in Hjunk. by rewrite Hjunk. }
  rewrite E0.
  set (st1 := face_corner 2 t1 st).
  set (st2 := face_corner 3 t2 st1).
  assert (E1 : obj_vertices st1 = obj_vertices st) by apply face_corner_vertices.
  assert (E2 : obj_vertices st2 = obj_vertices st)
    by (etrans; [apply face_corner_vertices|exact E1]).
  rewrite (proj1 (face_corner_faces 4 t3 st2 H3)), (vertex_index_ext st st2 t3 E2).
  subst st2. rewrite (proj1 (face_corner_faces 3 t2 st1 H2)),
    (vertex_index_ext st st1 t2 E1).
  subst st1. rewrite (proj1 (face_corner_faces 2 t1 st H1)).
  rewrite (push_corner_early 2), (push_corner_early 3) by lia.
  unfold push_corner. change (3 <? 4)%nat with true. cbv iota.
  rewrite <- !app_assoc. cbn [app].
  assert (Hback : js_index (obj_faces st ++ [Some (vertex_index st t1);
                                              Some (vertex_index st t2);
                                              Some (vertex_index st t3)])
                    (Z.of_nat (length (obj_faces st ++ [Some (vertex_index st t1);
                                                         Some (vertex_index st t2);
                                                         Some (vertex_index st t3)])) - 4)
                  = js_index (obj_faces st) (Z.of_nat (length (obj_faces st)) - 1)).
  { rewrite length_app. cbn [length]. unfold js_index.
    replace (Z.of_nat (length (obj_faces st) + 3) - 4)%Z
      with (Z.of_nat (length (obj_faces st)) - 1)%Z by lia.
    destruct (Z.ltb_spec (Z.of_nat (length (obj_faces st)) - 1) 0); [reflexivity|].
    apply lookup_app_l. lia. }
  rewrite Hback.
  rewrite (js_index_end (obj_faces st) [_; _; _; _] 3 1) by (cbn; lia).
  reflexivity.
Qed.

(** X20 at the tokens of the line [f  1 2 3], written with two spaces
    after the marker and one after the last corner. *)
Lemma a_skipped_token_still_counts_witness :
  is_corner "" = false
  /\ is_corner "1" = true /\ is_corner "2" = true /\ is_corner "3" = true
  /\ obj_faces (face_loop ["f"; ""; "1"; "2"; "3"; ""] empty_obj)
     = obj_faces empty_obj
       ++ [Some (vertex_index empty_obj "1"); Some (vertex_index empty_obj "2");
           Some (vertex_index empty_obj "3");
           mjoin (js_index (obj_faces empty_obj)
                           (Z.of_nat (length (obj_faces empty_obj)) - 1));
           Some (vertex_index empty_obj "2")].
Proof.
  assert (H0 : is_corner "" = false) by reflexivity.
  assert (H1 : is_corner "1" = true) by reflexivity.
  assert (H2 : is_corner "2" = true) by reflexivity.
  assert (H3 : is_corner "3" = true) by reflexivity.
  repeat (split; [assumption|]).
  exact (a_skipped_token_still_counts "f" "" "1" "2" "3" "" empty_obj H0 H1 H2 H3).
Defined.

(** X21. A corner token without a slash has no UV index: the handler
    reads [undefined] for it, and the UV entry that the corner adds is
    [NaN], which the display call then carries in its UV array. *)
Theorem a_corner_without_uv_gives_NaN i tok st :
  has_char "/" tok = false ->
  is_corner tok = true ->
  uv_index st tok = NaN
  /\ map float32_of_value (obj_uvfaces (face_corner i tok st))
       !! length (obj_uvfaces st)
     = Some F32_NaN.
Proof.
  intros Hslash Hcorner.
  assert (Huv : uv_index st tok = NaN).
  { unfold uv_index. rewrite (split_plain "/" tok Hslash). reflexivity. }
  split; [exact Huv|].
  destruct (face_corner_faces i tok st Hcorner) as [_ ->]. rewrite Huv.
  destruct (push_corner_first i NaN (obj_uvfaces st)) as [extra ->].
  rewrite list_lookup_fmap, lookup_app_r, Nat.sub_diag by lia.
  reflexivity.
Qed.

(** X21 at the corner token [7]. *)
Lemma a_corner_without_uv_gives_NaN_witness :
  has_char "/" "7" = false
  /\ is_corner "7" = true
  /\ uv_index empty_obj "7" = NaN
  /\ map float32_of_value (obj_uvfaces (face_corner 1 "7" empty_obj))
       !! length (obj_uvfaces empty_obj)
     = Some F32_NaN.
Proof.
  assert (H1 : has_char "/" "7" = false) by reflexivity.
  assert (H2 : is_corner "7" = true) by reflexivity.
  split; [exact H1|]. split; [exact H2|].
  exact (a_corner_without_uv_gives_NaN 1 "7" empty_obj H1 H2).
Defined.
